(** * RDS / RBDS decoder of libv4l2rds: a shallow embedding and its properties

    The development follows [lib/libv4l2rds/libv4l2rds.c].  Every C function
    of the decoder is a definition of the same name; the decoder state
    ([struct rds_private_state], whose first member is the public
    [struct v4l2_rds]) is a record, and the functions that take a pointer to
    it are computations of a small state monad over that record.  Unsigned C
    integers are integers of [Z] with their truncation written out ([u8],
    [u16], [u32]); fixed-size arrays are lists of the array's length that are
    updated by index. *)

From Stdlib Require Import ZArith List Bool String Lia.
From stdpp Require Import base tactics option list.
Import ListNotations.

Local Open Scope Z_scope.

(** ** Machine integers *)

Definition u8 (x : Z) : Z := x mod 2 ^ 8.
Definition u16 (x : Z) : Z := x mod 2 ^ 16.
Definition u32 (x : Z) : Z := x mod 2 ^ 32.

Infix ".&" := Z.land (at level 40, left associativity) : Z_scope.
Infix ".|" := Z.lor (at level 45, left associativity) : Z_scope.
Infix "<<" := Z.shiftl (at level 35, right associativity) : Z_scope.
Infix ">>" := Z.shiftr (at level 35, right associativity) : Z_scope.

(** A C integer used as a condition, and a C [bool] used as an integer. *)
Definition truthy (x : Z) : bool := negb (x =? 0).
Definition bool_to_int (b : bool) : Z := if b then 1 else 0.

(** [array[i]] and [array[i] = v] on a list; [i] is a C integer. *)
Definition at_index {A} (d : A) (l : list A) (i : Z) : A := nth (Z.to_nat i) l d.
Definition store {A} (l : list A) (i : Z) (v : A) : list A := <[Z.to_nat i := v]> l.

(** [memcmp(a, b, n) != 0], [memcpy(dst, src, n)] and [memset(dst, 0, n)] on
    lists of bytes. *)
Definition memcmp_ne (a b : list Z) (n : Z) : bool :=
  negb (forallb (fun p => fst p =? snd p)
          (combine (take (Z.to_nat n) a) (take (Z.to_nat n) b))).
Definition memcpy (dst src : list Z) (n : Z) : list Z :=
  take (Z.to_nat n) src ++ drop (Z.to_nat n) dst.
Definition memset0 (dst : list Z) (n : Z) : list Z :=
  replicate (Nat.min (Z.to_nat n) (length dst)) 0 ++ drop (Z.to_nat n) dst.

(** ** Constants of the headers

    [struct v4l2_rds_data] and the block constants come from the kernel's
    [linux/videodev2.h]. *)

Definition V4L2_RDS_BLOCK_MSK : Z := 0x7.
Definition V4L2_RDS_BLOCK_CORRECTED : Z := 0x40.
Definition V4L2_RDS_BLOCK_ERROR : Z := 0x80.

(** The library's own header, [lib/include/libv4l2rds.h], fixes the array
    capacities and the bits of the field masks.  The decoder is written
    against their names only, so they are parameters of the model. *)
Class Header := {
  MAX_ODA_CNT : nat;
  MAX_AF_CNT : nat;
  MAX_TMC_ADDITIONAL : nat;
  V4L2_RDS_PI : Z;
  V4L2_RDS_PTY : Z;
  V4L2_RDS_TP : Z;
  V4L2_RDS_PS : Z;
  V4L2_RDS_TA : Z;
  V4L2_RDS_DI : Z;
  V4L2_RDS_MS : Z;
  V4L2_RDS_PTYN : Z;
  V4L2_RDS_RT : Z;
  V4L2_RDS_TIME : Z;
  V4L2_RDS_AF : Z;
  V4L2_RDS_ECC : Z;
  V4L2_RDS_LC : Z;
  V4L2_RDS_TMC_SG : Z;
  V4L2_RDS_TMC_MG : Z;
  V4L2_RDS_TMC_SYS : Z;
  V4L2_RDS_ODA : Z;
  V4L2_RDS_FLAG_STEREO : Z;
  V4L2_RDS_FLAG_ARTIFICIAL_HEAD : Z;
  V4L2_RDS_FLAG_COMPRESSED : Z;
  V4L2_RDS_FLAG_STATIC_PTY : Z;
  V4L2_TMC_TUNING_INFO : Z;
  V4L2_TMC_SINGLE_GROUP : Z
}.

(** The values of the v4l-utils header, used to run the model on concrete
    block sequences. *)
Definition libv4l2rds_h : Header := {|
  MAX_ODA_CNT := 18;
  MAX_AF_CNT := 25;
  MAX_TMC_ADDITIONAL := 28;
  V4L2_RDS_PI := 0x01;
  V4L2_RDS_PTY := 0x02;
  V4L2_RDS_TP := 0x04;
  V4L2_RDS_PS := 0x08;
  V4L2_RDS_TA := 0x10;
  V4L2_RDS_DI := 0x20;
  V4L2_RDS_MS := 0x40;
  V4L2_RDS_PTYN := 0x80;
  V4L2_RDS_RT := 0x100;
  V4L2_RDS_TIME := 0x200;
  V4L2_RDS_AF := 0x800;
  V4L2_RDS_ECC := 0x1000;
  V4L2_RDS_LC := 0x2000;
  V4L2_RDS_TMC_SG := 0x4000;
  V4L2_RDS_TMC_MG := 0x8000;
  V4L2_RDS_TMC_SYS := 0x10000;
  V4L2_RDS_ODA := 0x02;
  V4L2_RDS_FLAG_STEREO := 0x01;
  V4L2_RDS_FLAG_ARTIFICIAL_HEAD := 0x02;
  V4L2_RDS_FLAG_COMPRESSED := 0x04;
  V4L2_RDS_FLAG_STATIC_PTY := 0x08;
  V4L2_TMC_TUNING_INFO := 0x10;
  V4L2_TMC_SINGLE_GROUP := 0x08
|}.

(** ** Data model *)

(** One raw block as the driver delivers it: [struct v4l2_rds_data]. *)
Record v4l2_rds_data := { lsb : Z; msb : Z; block : Z }.

(** A received group: [struct v4l2_rds_group].  [group_version] is a [char],
    ['A'] or ['B']. *)
Record v4l2_rds_group := {
  grp_pi : Z;
  group_version : Z;
  group_id : Z;
  data_b_lsb : Z;
  data_c_msb : Z;
  data_c_lsb : Z;
  data_d_msb : Z;
  data_d_lsb : Z
}.

Definition chr_A : Z := 65.
Definition chr_B : Z := 66.

Record v4l2_rds_statistics := {
  block_cnt : Z;
  group_cnt : Z;
  block_error_cnt : Z;
  group_error_cnt : Z;
  block_corrected_cnt : Z;
  group_type_cnt : list Z
}.

Record v4l2_rds_oda := { oda_group_id : Z; oda_group_version : Z; aid : Z }.

(** [oda] has [MAX_ODA_CNT] entries, of which the first [oda_size] are used. *)
Record v4l2_rds_oda_set := { oda_size : Z; oda : list v4l2_rds_oda }.

(** [af] has [MAX_AF_CNT] entries, of which the first [af_size] are used. *)
Record v4l2_rds_af_set := { af_size : Z; announced_af : Z; af : list Z }.

Record v4l2_tmc_additional := { label : Z; data : Z }.

Record v4l2_tmc_additional_set := { add_size : Z; fields : list v4l2_tmc_additional }.

Record v4l2_rds_tmc_msg := {
  msg_length : Z;
  msg_sid : Z;
  extent : Z;
  dp : Z;
  event : Z;
  location : Z;
  follow_diversion : bool;
  neg_direction : bool;
  additional : v4l2_tmc_additional_set
}.

Record v4l2_rds_tmc := {
  ltn : Z;
  afi : bool;
  enhanced_mode : bool;
  mgs : Z;
  sid : Z;
  gap : Z;
  t_a : Z;
  t_w : Z;
  t_d : Z;
  spn : list Z;
  tmc_msg : v4l2_rds_tmc_msg
}.

(** The broken-down time [rds_decode_mjd] hands to the C library's [mktime]
    (the fields it assigns). *)
Record tm := {
  tm_sec : Z;
  tm_min : Z;
  tm_hour : Z;
  tm_mday : Z;
  tm_mon : Z;
  tm_year : Z;
  tm_gmtoff : Z
}.

(** The public snapshot, [struct v4l2_rds].  [time] holds the broken-down time
    whose [mktime] image the C field stores: [mktime] belongs to the C library
    and reads the process's time zone, so the model stops at its argument. *)
Record v4l2_rds := {
  decode_information : Z;
  valid_fields : Z;
  is_rbds : bool;
  pi : Z;
  ps : list Z;
  pty : Z;
  ptyn : list Z;
  ptyn_ab_flag : bool;
  rt_length : Z;
  rt : list Z;
  rt_ab_flag : bool;
  ta : bool;
  tp : bool;
  ms : bool;
  di : Z;
  ecc : Z;
  lc : Z;
  time : tm;
  rds_statistics : v4l2_rds_statistics;
  rds_oda : v4l2_rds_oda_set;
  rds_af : v4l2_rds_af_set;
  tmc : v4l2_rds_tmc
}.

(** States of the block assembler: [enum rds_state]. *)
Inductive rds_state := RDS_EMPTY | RDS_A_RECEIVED | RDS_B_RECEIVED | RDS_C_RECEIVED.

(** The decoder instance, [struct rds_private_state]. *)
Record rds_private_state := {
  handle : v4l2_rds;
  decode_state : rds_state;
  new_pi : Z;
  new_ps : list Z;
  new_ps_valid : list Z;
  new_pty : Z;
  new_ptyn : list (list Z);
  new_ptyn_valid : list bool;
  new_rt : list Z;
  next_rt_segment : Z;
  new_di : Z;
  next_di_segment : Z;
  new_ecc : Z;
  new_lc : Z;
  new_mjd : Z;
  utc_hour : Z;
  utc_minute : Z;
  utc_offset : Z;
  continuity_id : Z;
  grp_seq_id : Z;
  optional_tmc : list Z;
  prev_tmc_group : v4l2_rds_group;
  prev_tmc_sys_group : v4l2_rds_group;
  new_tmc_msg : v4l2_rds_tmc_msg;
  rds_group : v4l2_rds_group;
  rds_data_raw : list v4l2_rds_data
}.

(** *** Field updates

    [set_f v r] is [r] with field [f] replaced by [v], the model of the
    assignment [r.f = v]. *)

Definition set_grp_pi v (r : v4l2_rds_group) : v4l2_rds_group := {| grp_pi := v; group_version
  := group_version r; group_id := group_id r; data_b_lsb := data_b_lsb r; data_c_msb :=
  data_c_msb r; data_c_lsb := data_c_lsb r; data_d_msb := data_d_msb r; data_d_lsb := data_d_lsb
  r |}.
Definition set_group_version v (r : v4l2_rds_group) : v4l2_rds_group := {| grp_pi := grp_pi r;
  group_version := v; group_id := group_id r; data_b_lsb := data_b_lsb r; data_c_msb :=
  data_c_msb r; data_c_lsb := data_c_lsb r; data_d_msb := data_d_msb r; data_d_lsb := data_d_lsb
  r |}.
Definition set_group_id v (r : v4l2_rds_group) : v4l2_rds_group := {| grp_pi := grp_pi r;
  group_version := group_version r; group_id := v; data_b_lsb := data_b_lsb r; data_c_msb :=
  data_c_msb r; data_c_lsb := data_c_lsb r; data_d_msb := data_d_msb r; data_d_lsb := data_d_lsb
  r |}.
Definition set_data_b_lsb v (r : v4l2_rds_group) : v4l2_rds_group := {| grp_pi := grp_pi r;
  group_version := group_version r; group_id := group_id r; data_b_lsb := v; data_c_msb :=
  data_c_msb r; data_c_lsb := data_c_lsb r; data_d_msb := data_d_msb r; data_d_lsb := data_d_lsb
  r |}.
Definition set_data_c_msb v (r : v4l2_rds_group) : v4l2_rds_group := {| grp_pi := grp_pi r;
  group_version := group_version r; group_id := group_id r; data_b_lsb := data_b_lsb r;
  data_c_msb := v; data_c_lsb := data_c_lsb r; data_d_msb := data_d_msb r; data_d_lsb :=
  data_d_lsb r |}.
Definition set_data_c_lsb v (r : v4l2_rds_group) : v4l2_rds_group := {| grp_pi := grp_pi r;
  group_version := group_version r; group_id := group_id r; data_b_lsb := data_b_lsb r;
  data_c_msb := data_c_msb r; data_c_lsb := v; data_d_msb := data_d_msb r; data_d_lsb :=
  data_d_lsb r |}.
Definition set_data_d_msb v (r : v4l2_rds_group) : v4l2_rds_group := {| grp_pi := grp_pi r;
  group_version := group_version r; group_id := group_id r; data_b_lsb := data_b_lsb r;
  data_c_msb := data_c_msb r; data_c_lsb := data_c_lsb r; data_d_msb := v; data_d_lsb :=
  data_d_lsb r |}.
Definition set_data_d_lsb v (r : v4l2_rds_group) : v4l2_rds_group := {| grp_pi := grp_pi r;
  group_version := group_version r; group_id := group_id r; data_b_lsb := data_b_lsb r;
  data_c_msb := data_c_msb r; data_c_lsb := data_c_lsb r; data_d_msb := data_d_msb r; data_d_lsb
  := v |}.

Definition set_block_cnt v (r : v4l2_rds_statistics) : v4l2_rds_statistics := {| block_cnt := v;
  group_cnt := group_cnt r; block_error_cnt := block_error_cnt r; group_error_cnt :=
  group_error_cnt r; block_corrected_cnt := block_corrected_cnt r; group_type_cnt :=
  group_type_cnt r |}.
Definition set_group_cnt v (r : v4l2_rds_statistics) : v4l2_rds_statistics := {| block_cnt :=
  block_cnt r; group_cnt := v; block_error_cnt := block_error_cnt r; group_error_cnt :=
  group_error_cnt r; block_corrected_cnt := block_corrected_cnt r; group_type_cnt :=
  group_type_cnt r |}.
Definition set_block_error_cnt v (r : v4l2_rds_statistics) : v4l2_rds_statistics := {| block_cnt
  := block_cnt r; group_cnt := group_cnt r; block_error_cnt := v; group_error_cnt :=
  group_error_cnt r; block_corrected_cnt := block_corrected_cnt r; group_type_cnt :=
  group_type_cnt r |}.
Definition set_group_error_cnt v (r : v4l2_rds_statistics) : v4l2_rds_statistics := {| block_cnt
  := block_cnt r; group_cnt := group_cnt r; block_error_cnt := block_error_cnt r;
  group_error_cnt := v; block_corrected_cnt := block_corrected_cnt r; group_type_cnt :=
  group_type_cnt r |}.
Definition set_block_corrected_cnt v (r : v4l2_rds_statistics) : v4l2_rds_statistics := {|
  block_cnt := block_cnt r; group_cnt := group_cnt r; block_error_cnt := block_error_cnt r;
  group_error_cnt := group_error_cnt r; block_corrected_cnt := v; group_type_cnt :=
  group_type_cnt r |}.
Definition set_group_type_cnt v (r : v4l2_rds_statistics) : v4l2_rds_statistics := {| block_cnt
  := block_cnt r; group_cnt := group_cnt r; block_error_cnt := block_error_cnt r;
  group_error_cnt := group_error_cnt r; block_corrected_cnt := block_corrected_cnt r;
  group_type_cnt := v |}.

Definition set_aid v (r : v4l2_rds_oda) : v4l2_rds_oda := {| oda_group_id := oda_group_id r;
  oda_group_version := oda_group_version r; aid := v |}.

Definition set_oda_size v (r : v4l2_rds_oda_set) : v4l2_rds_oda_set := {| oda_size := v; oda :=
  oda r |}.
Definition set_oda v (r : v4l2_rds_oda_set) : v4l2_rds_oda_set := {| oda_size := oda_size r; oda
  := v |}.

Definition set_af_size v (r : v4l2_rds_af_set) : v4l2_rds_af_set := {| af_size := v;
  announced_af := announced_af r; af := af r |}.
Definition set_announced_af v (r : v4l2_rds_af_set) : v4l2_rds_af_set := {| af_size := af_size
  r; announced_af := v; af := af r |}.
Definition set_af v (r : v4l2_rds_af_set) : v4l2_rds_af_set := {| af_size := af_size r;
  announced_af := announced_af r; af := v |}.

Definition set_msg_length v (r : v4l2_rds_tmc_msg) : v4l2_rds_tmc_msg := {| msg_length := v;
  msg_sid := msg_sid r; extent := extent r; dp := dp r; event := event r; location := location
  r; follow_diversion := follow_diversion r; neg_direction := neg_direction r; additional :=
  additional r |}.
Definition set_extent v (r : v4l2_rds_tmc_msg) : v4l2_rds_tmc_msg := {| msg_length := msg_length
  r; msg_sid := msg_sid r; extent := v; dp := dp r; event := event r; location := location r;
  follow_diversion := follow_diversion r; neg_direction := neg_direction r; additional :=
  additional r |}.
Definition set_event v (r : v4l2_rds_tmc_msg) : v4l2_rds_tmc_msg := {| msg_length := msg_length
  r; msg_sid := msg_sid r; extent := extent r; dp := dp r; event := v; location := location r;
  follow_diversion := follow_diversion r; neg_direction := neg_direction r; additional :=
  additional r |}.
Definition set_location v (r : v4l2_rds_tmc_msg) : v4l2_rds_tmc_msg := {| msg_length :=
  msg_length r; msg_sid := msg_sid r; extent := extent r; dp := dp r; event := event r; location
  := v; follow_diversion := follow_diversion r; neg_direction := neg_direction r; additional :=
  additional r |}.
Definition set_follow_diversion v (r : v4l2_rds_tmc_msg) : v4l2_rds_tmc_msg := {| msg_length :=
  msg_length r; msg_sid := msg_sid r; extent := extent r; dp := dp r; event := event r; location
  := location r; follow_diversion := v; neg_direction := neg_direction r; additional :=
  additional r |}.
Definition set_neg_direction v (r : v4l2_rds_tmc_msg) : v4l2_rds_tmc_msg := {| msg_length :=
  msg_length r; msg_sid := msg_sid r; extent := extent r; dp := dp r; event := event r; location
  := location r; follow_diversion := follow_diversion r; neg_direction := v; additional :=
  additional r |}.
Definition set_additional v (r : v4l2_rds_tmc_msg) : v4l2_rds_tmc_msg := {| msg_length :=
  msg_length r; msg_sid := msg_sid r; extent := extent r; dp := dp r; event := event r; location
  := location r; follow_diversion := follow_diversion r; neg_direction := neg_direction r;
  additional := v |}.

Definition set_ltn v (r : v4l2_rds_tmc) : v4l2_rds_tmc := {| ltn := v; afi := afi r;
  enhanced_mode := enhanced_mode r; mgs := mgs r; sid := sid r; gap := gap r; t_a := t_a r; t_w
  := t_w r; t_d := t_d r; spn := spn r; tmc_msg := tmc_msg r |}.
Definition set_afi v (r : v4l2_rds_tmc) : v4l2_rds_tmc := {| ltn := ltn r; afi := v;
  enhanced_mode := enhanced_mode r; mgs := mgs r; sid := sid r; gap := gap r; t_a := t_a r; t_w
  := t_w r; t_d := t_d r; spn := spn r; tmc_msg := tmc_msg r |}.
Definition set_enhanced_mode v (r : v4l2_rds_tmc) : v4l2_rds_tmc := {| ltn := ltn r; afi := afi
  r; enhanced_mode := v; mgs := mgs r; sid := sid r; gap := gap r; t_a := t_a r; t_w := t_w r;
  t_d := t_d r; spn := spn r; tmc_msg := tmc_msg r |}.
Definition set_mgs v (r : v4l2_rds_tmc) : v4l2_rds_tmc := {| ltn := ltn r; afi := afi r;
  enhanced_mode := enhanced_mode r; mgs := v; sid := sid r; gap := gap r; t_a := t_a r; t_w :=
  t_w r; t_d := t_d r; spn := spn r; tmc_msg := tmc_msg r |}.
Definition set_sid v (r : v4l2_rds_tmc) : v4l2_rds_tmc := {| ltn := ltn r; afi := afi r;
  enhanced_mode := enhanced_mode r; mgs := mgs r; sid := v; gap := gap r; t_a := t_a r; t_w :=
  t_w r; t_d := t_d r; spn := spn r; tmc_msg := tmc_msg r |}.
Definition set_gap v (r : v4l2_rds_tmc) : v4l2_rds_tmc := {| ltn := ltn r; afi := afi r;
  enhanced_mode := enhanced_mode r; mgs := mgs r; sid := sid r; gap := v; t_a := t_a r; t_w :=
  t_w r; t_d := t_d r; spn := spn r; tmc_msg := tmc_msg r |}.
Definition set_t_a v (r : v4l2_rds_tmc) : v4l2_rds_tmc := {| ltn := ltn r; afi := afi r;
  enhanced_mode := enhanced_mode r; mgs := mgs r; sid := sid r; gap := gap r; t_a := v; t_w :=
  t_w r; t_d := t_d r; spn := spn r; tmc_msg := tmc_msg r |}.
Definition set_t_w v (r : v4l2_rds_tmc) : v4l2_rds_tmc := {| ltn := ltn r; afi := afi r;
  enhanced_mode := enhanced_mode r; mgs := mgs r; sid := sid r; gap := gap r; t_a := t_a r; t_w
  := v; t_d := t_d r; spn := spn r; tmc_msg := tmc_msg r |}.
Definition set_t_d v (r : v4l2_rds_tmc) : v4l2_rds_tmc := {| ltn := ltn r; afi := afi r;
  enhanced_mode := enhanced_mode r; mgs := mgs r; sid := sid r; gap := gap r; t_a := t_a r; t_w
  := t_w r; t_d := v; spn := spn r; tmc_msg := tmc_msg r |}.
Definition set_tmc_msg v (r : v4l2_rds_tmc) : v4l2_rds_tmc := {| ltn := ltn r; afi := afi r;
  enhanced_mode := enhanced_mode r; mgs := mgs r; sid := sid r; gap := gap r; t_a := t_a r; t_w
  := t_w r; t_d := t_d r; spn := spn r; tmc_msg := v |}.

Definition set_decode_information v (r : v4l2_rds) : v4l2_rds := {| decode_information := v;
  valid_fields := valid_fields r; is_rbds := is_rbds r; pi := pi r; ps := ps r; pty := pty r;
  ptyn := ptyn r; ptyn_ab_flag := ptyn_ab_flag r; rt_length := rt_length r; rt := rt r;
  rt_ab_flag := rt_ab_flag r; ta := ta r; tp := tp r; ms := ms r; di := di r; ecc := ecc r; lc
  := lc r; time := time r; rds_statistics := rds_statistics r; rds_oda := rds_oda r; rds_af :=
  rds_af r; tmc := tmc r |}.
Definition set_valid_fields v (r : v4l2_rds) : v4l2_rds := {| decode_information :=
  decode_information r; valid_fields := v; is_rbds := is_rbds r; pi := pi r; ps := ps r; pty :=
  pty r; ptyn := ptyn r; ptyn_ab_flag := ptyn_ab_flag r; rt_length := rt_length r; rt := rt r;
  rt_ab_flag := rt_ab_flag r; ta := ta r; tp := tp r; ms := ms r; di := di r; ecc := ecc r; lc
  := lc r; time := time r; rds_statistics := rds_statistics r; rds_oda := rds_oda r; rds_af :=
  rds_af r; tmc := tmc r |}.
Definition set_is_rbds v (r : v4l2_rds) : v4l2_rds := {| decode_information :=
  decode_information r; valid_fields := valid_fields r; is_rbds := v; pi := pi r; ps := ps r;
  pty := pty r; ptyn := ptyn r; ptyn_ab_flag := ptyn_ab_flag r; rt_length := rt_length r; rt :=
  rt r; rt_ab_flag := rt_ab_flag r; ta := ta r; tp := tp r; ms := ms r; di := di r; ecc := ecc
  r; lc := lc r; time := time r; rds_statistics := rds_statistics r; rds_oda := rds_oda r;
  rds_af := rds_af r; tmc := tmc r |}.
Definition set_pi v (r : v4l2_rds) : v4l2_rds := {| decode_information := decode_information r;
  valid_fields := valid_fields r; is_rbds := is_rbds r; pi := v; ps := ps r; pty := pty r; ptyn
  := ptyn r; ptyn_ab_flag := ptyn_ab_flag r; rt_length := rt_length r; rt := rt r; rt_ab_flag :=
  rt_ab_flag r; ta := ta r; tp := tp r; ms := ms r; di := di r; ecc := ecc r; lc := lc r; time
  := time r; rds_statistics := rds_statistics r; rds_oda := rds_oda r; rds_af := rds_af r; tmc
  := tmc r |}.
Definition set_ps v (r : v4l2_rds) : v4l2_rds := {| decode_information := decode_information r;
  valid_fields := valid_fields r; is_rbds := is_rbds r; pi := pi r; ps := v; pty := pty r; ptyn
  := ptyn r; ptyn_ab_flag := ptyn_ab_flag r; rt_length := rt_length r; rt := rt r; rt_ab_flag :=
  rt_ab_flag r; ta := ta r; tp := tp r; ms := ms r; di := di r; ecc := ecc r; lc := lc r; time
  := time r; rds_statistics := rds_statistics r; rds_oda := rds_oda r; rds_af := rds_af r; tmc
  := tmc r |}.
Definition set_pty v (r : v4l2_rds) : v4l2_rds := {| decode_information := decode_information r;
  valid_fields := valid_fields r; is_rbds := is_rbds r; pi := pi r; ps := ps r; pty := v; ptyn
  := ptyn r; ptyn_ab_flag := ptyn_ab_flag r; rt_length := rt_length r; rt := rt r; rt_ab_flag :=
  rt_ab_flag r; ta := ta r; tp := tp r; ms := ms r; di := di r; ecc := ecc r; lc := lc r; time
  := time r; rds_statistics := rds_statistics r; rds_oda := rds_oda r; rds_af := rds_af r; tmc
  := tmc r |}.
Definition set_ptyn v (r : v4l2_rds) : v4l2_rds := {| decode_information := decode_information
  r; valid_fields := valid_fields r; is_rbds := is_rbds r; pi := pi r; ps := ps r; pty := pty r;
  ptyn := v; ptyn_ab_flag := ptyn_ab_flag r; rt_length := rt_length r; rt := rt r; rt_ab_flag :=
  rt_ab_flag r; ta := ta r; tp := tp r; ms := ms r; di := di r; ecc := ecc r; lc := lc r; time
  := time r; rds_statistics := rds_statistics r; rds_oda := rds_oda r; rds_af := rds_af r; tmc
  := tmc r |}.
Definition set_ptyn_ab_flag v (r : v4l2_rds) : v4l2_rds := {| decode_information :=
  decode_information r; valid_fields := valid_fields r; is_rbds := is_rbds r; pi := pi r; ps :=
  ps r; pty := pty r; ptyn := ptyn r; ptyn_ab_flag := v; rt_length := rt_length r; rt := rt r;
  rt_ab_flag := rt_ab_flag r; ta := ta r; tp := tp r; ms := ms r; di := di r; ecc := ecc r; lc
  := lc r; time := time r; rds_statistics := rds_statistics r; rds_oda := rds_oda r; rds_af :=
  rds_af r; tmc := tmc r |}.
Definition set_rt_length v (r : v4l2_rds) : v4l2_rds := {| decode_information :=
  decode_information r; valid_fields := valid_fields r; is_rbds := is_rbds r; pi := pi r; ps :=
  ps r; pty := pty r; ptyn := ptyn r; ptyn_ab_flag := ptyn_ab_flag r; rt_length := v; rt := rt
  r; rt_ab_flag := rt_ab_flag r; ta := ta r; tp := tp r; ms := ms r; di := di r; ecc := ecc r;
  lc := lc r; time := time r; rds_statistics := rds_statistics r; rds_oda := rds_oda r; rds_af
  := rds_af r; tmc := tmc r |}.
Definition set_rt v (r : v4l2_rds) : v4l2_rds := {| decode_information := decode_information r;
  valid_fields := valid_fields r; is_rbds := is_rbds r; pi := pi r; ps := ps r; pty := pty r;
  ptyn := ptyn r; ptyn_ab_flag := ptyn_ab_flag r; rt_length := rt_length r; rt := v; rt_ab_flag
  := rt_ab_flag r; ta := ta r; tp := tp r; ms := ms r; di := di r; ecc := ecc r; lc := lc r;
  time := time r; rds_statistics := rds_statistics r; rds_oda := rds_oda r; rds_af := rds_af r;
  tmc := tmc r |}.
Definition set_rt_ab_flag v (r : v4l2_rds) : v4l2_rds := {| decode_information :=
  decode_information r; valid_fields := valid_fields r; is_rbds := is_rbds r; pi := pi r; ps :=
  ps r; pty := pty r; ptyn := ptyn r; ptyn_ab_flag := ptyn_ab_flag r; rt_length := rt_length r;
  rt := rt r; rt_ab_flag := v; ta := ta r; tp := tp r; ms := ms r; di := di r; ecc := ecc r; lc
  := lc r; time := time r; rds_statistics := rds_statistics r; rds_oda := rds_oda r; rds_af :=
  rds_af r; tmc := tmc r |}.
Definition set_ta v (r : v4l2_rds) : v4l2_rds := {| decode_information := decode_information r;
  valid_fields := valid_fields r; is_rbds := is_rbds r; pi := pi r; ps := ps r; pty := pty r;
  ptyn := ptyn r; ptyn_ab_flag := ptyn_ab_flag r; rt_length := rt_length r; rt := rt r;
  rt_ab_flag := rt_ab_flag r; ta := v; tp := tp r; ms := ms r; di := di r; ecc := ecc r; lc :=
  lc r; time := time r; rds_statistics := rds_statistics r; rds_oda := rds_oda r; rds_af :=
  rds_af r; tmc := tmc r |}.
Definition set_tp v (r : v4l2_rds) : v4l2_rds := {| decode_information := decode_information r;
  valid_fields := valid_fields r; is_rbds := is_rbds r; pi := pi r; ps := ps r; pty := pty r;
  ptyn := ptyn r; ptyn_ab_flag := ptyn_ab_flag r; rt_length := rt_length r; rt := rt r;
  rt_ab_flag := rt_ab_flag r; ta := ta r; tp := v; ms := ms r; di := di r; ecc := ecc r; lc :=
  lc r; time := time r; rds_statistics := rds_statistics r; rds_oda := rds_oda r; rds_af :=
  rds_af r; tmc := tmc r |}.
Definition set_ms v (r : v4l2_rds) : v4l2_rds := {| decode_information := decode_information r;
  valid_fields := valid_fields r; is_rbds := is_rbds r; pi := pi r; ps := ps r; pty := pty r;
  ptyn := ptyn r; ptyn_ab_flag := ptyn_ab_flag r; rt_length := rt_length r; rt := rt r;
  rt_ab_flag := rt_ab_flag r; ta := ta r; tp := tp r; ms := v; di := di r; ecc := ecc r; lc :=
  lc r; time := time r; rds_statistics := rds_statistics r; rds_oda := rds_oda r; rds_af :=
  rds_af r; tmc := tmc r |}.
Definition set_di v (r : v4l2_rds) : v4l2_rds := {| decode_information := decode_information r;
  valid_fields := valid_fields r; is_rbds := is_rbds r; pi := pi r; ps := ps r; pty := pty r;
  ptyn := ptyn r; ptyn_ab_flag := ptyn_ab_flag r; rt_length := rt_length r; rt := rt r;
  rt_ab_flag := rt_ab_flag r; ta := ta r; tp := tp r; ms := ms r; di := v; ecc := ecc r; lc :=
  lc r; time := time r; rds_statistics := rds_statistics r; rds_oda := rds_oda r; rds_af :=
  rds_af r; tmc := tmc r |}.
Definition set_ecc v (r : v4l2_rds) : v4l2_rds := {| decode_information := decode_information r;
  valid_fields := valid_fields r; is_rbds := is_rbds r; pi := pi r; ps := ps r; pty := pty r;
  ptyn := ptyn r; ptyn_ab_flag := ptyn_ab_flag r; rt_length := rt_length r; rt := rt r;
  rt_ab_flag := rt_ab_flag r; ta := ta r; tp := tp r; ms := ms r; di := di r; ecc := v; lc := lc
  r; time := time r; rds_statistics := rds_statistics r; rds_oda := rds_oda r; rds_af := rds_af
  r; tmc := tmc r |}.
Definition set_lc v (r : v4l2_rds) : v4l2_rds := {| decode_information := decode_information r;
  valid_fields := valid_fields r; is_rbds := is_rbds r; pi := pi r; ps := ps r; pty := pty r;
  ptyn := ptyn r; ptyn_ab_flag := ptyn_ab_flag r; rt_length := rt_length r; rt := rt r;
  rt_ab_flag := rt_ab_flag r; ta := ta r; tp := tp r; ms := ms r; di := di r; ecc := ecc r; lc
  := v; time := time r; rds_statistics := rds_statistics r; rds_oda := rds_oda r; rds_af :=
  rds_af r; tmc := tmc r |}.
Definition set_time v (r : v4l2_rds) : v4l2_rds := {| decode_information := decode_information
  r; valid_fields := valid_fields r; is_rbds := is_rbds r; pi := pi r; ps := ps r; pty := pty r;
  ptyn := ptyn r; ptyn_ab_flag := ptyn_ab_flag r; rt_length := rt_length r; rt := rt r;
  rt_ab_flag := rt_ab_flag r; ta := ta r; tp := tp r; ms := ms r; di := di r; ecc := ecc r; lc
  := lc r; time := v; rds_statistics := rds_statistics r; rds_oda := rds_oda r; rds_af := rds_af
  r; tmc := tmc r |}.
Definition set_rds_statistics v (r : v4l2_rds) : v4l2_rds := {| decode_information :=
  decode_information r; valid_fields := valid_fields r; is_rbds := is_rbds r; pi := pi r; ps :=
  ps r; pty := pty r; ptyn := ptyn r; ptyn_ab_flag := ptyn_ab_flag r; rt_length := rt_length r;
  rt := rt r; rt_ab_flag := rt_ab_flag r; ta := ta r; tp := tp r; ms := ms r; di := di r; ecc :=
  ecc r; lc := lc r; time := time r; rds_statistics := v; rds_oda := rds_oda r; rds_af := rds_af
  r; tmc := tmc r |}.
Definition set_rds_oda v (r : v4l2_rds) : v4l2_rds := {| decode_information :=
  decode_information r; valid_fields := valid_fields r; is_rbds := is_rbds r; pi := pi r; ps :=
  ps r; pty := pty r; ptyn := ptyn r; ptyn_ab_flag := ptyn_ab_flag r; rt_length := rt_length r;
  rt := rt r; rt_ab_flag := rt_ab_flag r; ta := ta r; tp := tp r; ms := ms r; di := di r; ecc :=
  ecc r; lc := lc r; time := time r; rds_statistics := rds_statistics r; rds_oda := v; rds_af :=
  rds_af r; tmc := tmc r |}.
Definition set_rds_af v (r : v4l2_rds) : v4l2_rds := {| decode_information := decode_information
  r; valid_fields := valid_fields r; is_rbds := is_rbds r; pi := pi r; ps := ps r; pty := pty r;
  ptyn := ptyn r; ptyn_ab_flag := ptyn_ab_flag r; rt_length := rt_length r; rt := rt r;
  rt_ab_flag := rt_ab_flag r; ta := ta r; tp := tp r; ms := ms r; di := di r; ecc := ecc r; lc
  := lc r; time := time r; rds_statistics := rds_statistics r; rds_oda := rds_oda r; rds_af :=
  v; tmc := tmc r |}.
Definition set_tmc v (r : v4l2_rds) : v4l2_rds := {| decode_information := decode_information r;
  valid_fields := valid_fields r; is_rbds := is_rbds r; pi := pi r; ps := ps r; pty := pty r;
  ptyn := ptyn r; ptyn_ab_flag := ptyn_ab_flag r; rt_length := rt_length r; rt := rt r;
  rt_ab_flag := rt_ab_flag r; ta := ta r; tp := tp r; ms := ms r; di := di r; ecc := ecc r; lc
  := lc r; time := time r; rds_statistics := rds_statistics r; rds_oda := rds_oda r; rds_af :=
  rds_af r; tmc := v |}.

Definition set_handle v (r : rds_private_state) : rds_private_state := {| handle := v;
  decode_state := decode_state r; new_pi := new_pi r; new_ps := new_ps r; new_ps_valid :=
  new_ps_valid r; new_pty := new_pty r; new_ptyn := new_ptyn r; new_ptyn_valid := new_ptyn_valid
  r; new_rt := new_rt r; next_rt_segment := next_rt_segment r; new_di := new_di r;
  next_di_segment := next_di_segment r; new_ecc := new_ecc r; new_lc := new_lc r; new_mjd :=
  new_mjd r; utc_hour := utc_hour r; utc_minute := utc_minute r; utc_offset := utc_offset r;
  continuity_id := continuity_id r; grp_seq_id := grp_seq_id r; optional_tmc := optional_tmc r;
  prev_tmc_group := prev_tmc_group r; prev_tmc_sys_group := prev_tmc_sys_group r; new_tmc_msg :=
  new_tmc_msg r; rds_group := rds_group r; rds_data_raw := rds_data_raw r |}.
Definition set_decode_state v (r : rds_private_state) : rds_private_state := {| handle := handle
  r; decode_state := v; new_pi := new_pi r; new_ps := new_ps r; new_ps_valid := new_ps_valid r;
  new_pty := new_pty r; new_ptyn := new_ptyn r; new_ptyn_valid := new_ptyn_valid r; new_rt :=
  new_rt r; next_rt_segment := next_rt_segment r; new_di := new_di r; next_di_segment :=
  next_di_segment r; new_ecc := new_ecc r; new_lc := new_lc r; new_mjd := new_mjd r; utc_hour :=
  utc_hour r; utc_minute := utc_minute r; utc_offset := utc_offset r; continuity_id :=
  continuity_id r; grp_seq_id := grp_seq_id r; optional_tmc := optional_tmc r; prev_tmc_group :=
  prev_tmc_group r; prev_tmc_sys_group := prev_tmc_sys_group r; new_tmc_msg := new_tmc_msg r;
  rds_group := rds_group r; rds_data_raw := rds_data_raw r |}.
Definition set_new_pi v (r : rds_private_state) : rds_private_state := {| handle := handle r;
  decode_state := decode_state r; new_pi := v; new_ps := new_ps r; new_ps_valid := new_ps_valid
  r; new_pty := new_pty r; new_ptyn := new_ptyn r; new_ptyn_valid := new_ptyn_valid r; new_rt :=
  new_rt r; next_rt_segment := next_rt_segment r; new_di := new_di r; next_di_segment :=
  next_di_segment r; new_ecc := new_ecc r; new_lc := new_lc r; new_mjd := new_mjd r; utc_hour :=
  utc_hour r; utc_minute := utc_minute r; utc_offset := utc_offset r; continuity_id :=
  continuity_id r; grp_seq_id := grp_seq_id r; optional_tmc := optional_tmc r; prev_tmc_group :=
  prev_tmc_group r; prev_tmc_sys_group := prev_tmc_sys_group r; new_tmc_msg := new_tmc_msg r;
  rds_group := rds_group r; rds_data_raw := rds_data_raw r |}.
Definition set_new_ps v (r : rds_private_state) : rds_private_state := {| handle := handle r;
  decode_state := decode_state r; new_pi := new_pi r; new_ps := v; new_ps_valid := new_ps_valid
  r; new_pty := new_pty r; new_ptyn := new_ptyn r; new_ptyn_valid := new_ptyn_valid r; new_rt :=
  new_rt r; next_rt_segment := next_rt_segment r; new_di := new_di r; next_di_segment :=
  next_di_segment r; new_ecc := new_ecc r; new_lc := new_lc r; new_mjd := new_mjd r; utc_hour :=
  utc_hour r; utc_minute := utc_minute r; utc_offset := utc_offset r; continuity_id :=
  continuity_id r; grp_seq_id := grp_seq_id r; optional_tmc := optional_tmc r; prev_tmc_group :=
  prev_tmc_group r; prev_tmc_sys_group := prev_tmc_sys_group r; new_tmc_msg := new_tmc_msg r;
  rds_group := rds_group r; rds_data_raw := rds_data_raw r |}.
Definition set_new_ps_valid v (r : rds_private_state) : rds_private_state := {| handle := handle
  r; decode_state := decode_state r; new_pi := new_pi r; new_ps := new_ps r; new_ps_valid := v;
  new_pty := new_pty r; new_ptyn := new_ptyn r; new_ptyn_valid := new_ptyn_valid r; new_rt :=
  new_rt r; next_rt_segment := next_rt_segment r; new_di := new_di r; next_di_segment :=
  next_di_segment r; new_ecc := new_ecc r; new_lc := new_lc r; new_mjd := new_mjd r; utc_hour :=
  utc_hour r; utc_minute := utc_minute r; utc_offset := utc_offset r; continuity_id :=
  continuity_id r; grp_seq_id := grp_seq_id r; optional_tmc := optional_tmc r; prev_tmc_group :=
  prev_tmc_group r; prev_tmc_sys_group := prev_tmc_sys_group r; new_tmc_msg := new_tmc_msg r;
  rds_group := rds_group r; rds_data_raw := rds_data_raw r |}.
Definition set_new_pty v (r : rds_private_state) : rds_private_state := {| handle := handle r;
  decode_state := decode_state r; new_pi := new_pi r; new_ps := new_ps r; new_ps_valid :=
  new_ps_valid r; new_pty := v; new_ptyn := new_ptyn r; new_ptyn_valid := new_ptyn_valid r;
  new_rt := new_rt r; next_rt_segment := next_rt_segment r; new_di := new_di r; next_di_segment
  := next_di_segment r; new_ecc := new_ecc r; new_lc := new_lc r; new_mjd := new_mjd r; utc_hour
  := utc_hour r; utc_minute := utc_minute r; utc_offset := utc_offset r; continuity_id :=
  continuity_id r; grp_seq_id := grp_seq_id r; optional_tmc := optional_tmc r; prev_tmc_group :=
  prev_tmc_group r; prev_tmc_sys_group := prev_tmc_sys_group r; new_tmc_msg := new_tmc_msg r;
  rds_group := rds_group r; rds_data_raw := rds_data_raw r |}.
Definition set_new_ptyn v (r : rds_private_state) : rds_private_state := {| handle := handle r;
  decode_state := decode_state r; new_pi := new_pi r; new_ps := new_ps r; new_ps_valid :=
  new_ps_valid r; new_pty := new_pty r; new_ptyn := v; new_ptyn_valid := new_ptyn_valid r;
  new_rt := new_rt r; next_rt_segment := next_rt_segment r; new_di := new_di r; next_di_segment
  := next_di_segment r; new_ecc := new_ecc r; new_lc := new_lc r; new_mjd := new_mjd r; utc_hour
  := utc_hour r; utc_minute := utc_minute r; utc_offset := utc_offset r; continuity_id :=
  continuity_id r; grp_seq_id := grp_seq_id r; optional_tmc := optional_tmc r; prev_tmc_group :=
  prev_tmc_group r; prev_tmc_sys_group := prev_tmc_sys_group r; new_tmc_msg := new_tmc_msg r;
  rds_group := rds_group r; rds_data_raw := rds_data_raw r |}.
Definition set_new_ptyn_valid v (r : rds_private_state) : rds_private_state := {| handle :=
  handle r; decode_state := decode_state r; new_pi := new_pi r; new_ps := new_ps r; new_ps_valid
  := new_ps_valid r; new_pty := new_pty r; new_ptyn := new_ptyn r; new_ptyn_valid := v; new_rt
  := new_rt r; next_rt_segment := next_rt_segment r; new_di := new_di r; next_di_segment :=
  next_di_segment r; new_ecc := new_ecc r; new_lc := new_lc r; new_mjd := new_mjd r; utc_hour :=
  utc_hour r; utc_minute := utc_minute r; utc_offset := utc_offset r; continuity_id :=
  continuity_id r; grp_seq_id := grp_seq_id r; optional_tmc := optional_tmc r; prev_tmc_group :=
  prev_tmc_group r; prev_tmc_sys_group := prev_tmc_sys_group r; new_tmc_msg := new_tmc_msg r;
  rds_group := rds_group r; rds_data_raw := rds_data_raw r |}.
Definition set_new_rt v (r : rds_private_state) : rds_private_state := {| handle := handle r;
  decode_state := decode_state r; new_pi := new_pi r; new_ps := new_ps r; new_ps_valid :=
  new_ps_valid r; new_pty := new_pty r; new_ptyn := new_ptyn r; new_ptyn_valid := new_ptyn_valid
  r; new_rt := v; next_rt_segment := next_rt_segment r; new_di := new_di r; next_di_segment :=
  next_di_segment r; new_ecc := new_ecc r; new_lc := new_lc r; new_mjd := new_mjd r; utc_hour :=
  utc_hour r; utc_minute := utc_minute r; utc_offset := utc_offset r; continuity_id :=
  continuity_id r; grp_seq_id := grp_seq_id r; optional_tmc := optional_tmc r; prev_tmc_group :=
  prev_tmc_group r; prev_tmc_sys_group := prev_tmc_sys_group r; new_tmc_msg := new_tmc_msg r;
  rds_group := rds_group r; rds_data_raw := rds_data_raw r |}.
Definition set_next_rt_segment v (r : rds_private_state) : rds_private_state := {| handle :=
  handle r; decode_state := decode_state r; new_pi := new_pi r; new_ps := new_ps r; new_ps_valid
  := new_ps_valid r; new_pty := new_pty r; new_ptyn := new_ptyn r; new_ptyn_valid :=
  new_ptyn_valid r; new_rt := new_rt r; next_rt_segment := v; new_di := new_di r;
  next_di_segment := next_di_segment r; new_ecc := new_ecc r; new_lc := new_lc r; new_mjd :=
  new_mjd r; utc_hour := utc_hour r; utc_minute := utc_minute r; utc_offset := utc_offset r;
  continuity_id := continuity_id r; grp_seq_id := grp_seq_id r; optional_tmc := optional_tmc r;
  prev_tmc_group := prev_tmc_group r; prev_tmc_sys_group := prev_tmc_sys_group r; new_tmc_msg :=
  new_tmc_msg r; rds_group := rds_group r; rds_data_raw := rds_data_raw r |}.
Definition set_new_di v (r : rds_private_state) : rds_private_state := {| handle := handle r;
  decode_state := decode_state r; new_pi := new_pi r; new_ps := new_ps r; new_ps_valid :=
  new_ps_valid r; new_pty := new_pty r; new_ptyn := new_ptyn r; new_ptyn_valid := new_ptyn_valid
  r; new_rt := new_rt r; next_rt_segment := next_rt_segment r; new_di := v; next_di_segment :=
  next_di_segment r; new_ecc := new_ecc r; new_lc := new_lc r; new_mjd := new_mjd r; utc_hour :=
  utc_hour r; utc_minute := utc_minute r; utc_offset := utc_offset r; continuity_id :=
  continuity_id r; grp_seq_id := grp_seq_id r; optional_tmc := optional_tmc r; prev_tmc_group :=
  prev_tmc_group r; prev_tmc_sys_group := prev_tmc_sys_group r; new_tmc_msg := new_tmc_msg r;
  rds_group := rds_group r; rds_data_raw := rds_data_raw r |}.
Definition set_next_di_segment v (r : rds_private_state) : rds_private_state := {| handle :=
  handle r; decode_state := decode_state r; new_pi := new_pi r; new_ps := new_ps r; new_ps_valid
  := new_ps_valid r; new_pty := new_pty r; new_ptyn := new_ptyn r; new_ptyn_valid :=
  new_ptyn_valid r; new_rt := new_rt r; next_rt_segment := next_rt_segment r; new_di := new_di
  r; next_di_segment := v; new_ecc := new_ecc r; new_lc := new_lc r; new_mjd := new_mjd r;
  utc_hour := utc_hour r; utc_minute := utc_minute r; utc_offset := utc_offset r; continuity_id
  := continuity_id r; grp_seq_id := grp_seq_id r; optional_tmc := optional_tmc r; prev_tmc_group
  := prev_tmc_group r; prev_tmc_sys_group := prev_tmc_sys_group r; new_tmc_msg := new_tmc_msg r;
  rds_group := rds_group r; rds_data_raw := rds_data_raw r |}.
Definition set_new_ecc v (r : rds_private_state) : rds_private_state := {| handle := handle r;
  decode_state := decode_state r; new_pi := new_pi r; new_ps := new_ps r; new_ps_valid :=
  new_ps_valid r; new_pty := new_pty r; new_ptyn := new_ptyn r; new_ptyn_valid := new_ptyn_valid
  r; new_rt := new_rt r; next_rt_segment := next_rt_segment r; new_di := new_di r;
  next_di_segment := next_di_segment r; new_ecc := v; new_lc := new_lc r; new_mjd := new_mjd r;
  utc_hour := utc_hour r; utc_minute := utc_minute r; utc_offset := utc_offset r; continuity_id
  := continuity_id r; grp_seq_id := grp_seq_id r; optional_tmc := optional_tmc r; prev_tmc_group
  := prev_tmc_group r; prev_tmc_sys_group := prev_tmc_sys_group r; new_tmc_msg := new_tmc_msg r;
  rds_group := rds_group r; rds_data_raw := rds_data_raw r |}.
Definition set_new_lc v (r : rds_private_state) : rds_private_state := {| handle := handle r;
  decode_state := decode_state r; new_pi := new_pi r; new_ps := new_ps r; new_ps_valid :=
  new_ps_valid r; new_pty := new_pty r; new_ptyn := new_ptyn r; new_ptyn_valid := new_ptyn_valid
  r; new_rt := new_rt r; next_rt_segment := next_rt_segment r; new_di := new_di r;
  next_di_segment := next_di_segment r; new_ecc := new_ecc r; new_lc := v; new_mjd := new_mjd r;
  utc_hour := utc_hour r; utc_minute := utc_minute r; utc_offset := utc_offset r; continuity_id
  := continuity_id r; grp_seq_id := grp_seq_id r; optional_tmc := optional_tmc r; prev_tmc_group
  := prev_tmc_group r; prev_tmc_sys_group := prev_tmc_sys_group r; new_tmc_msg := new_tmc_msg r;
  rds_group := rds_group r; rds_data_raw := rds_data_raw r |}.
Definition set_new_mjd v (r : rds_private_state) : rds_private_state := {| handle := handle r;
  decode_state := decode_state r; new_pi := new_pi r; new_ps := new_ps r; new_ps_valid :=
  new_ps_valid r; new_pty := new_pty r; new_ptyn := new_ptyn r; new_ptyn_valid := new_ptyn_valid
  r; new_rt := new_rt r; next_rt_segment := next_rt_segment r; new_di := new_di r;
  next_di_segment := next_di_segment r; new_ecc := new_ecc r; new_lc := new_lc r; new_mjd := v;
  utc_hour := utc_hour r; utc_minute := utc_minute r; utc_offset := utc_offset r; continuity_id
  := continuity_id r; grp_seq_id := grp_seq_id r; optional_tmc := optional_tmc r; prev_tmc_group
  := prev_tmc_group r; prev_tmc_sys_group := prev_tmc_sys_group r; new_tmc_msg := new_tmc_msg r;
  rds_group := rds_group r; rds_data_raw := rds_data_raw r |}.
Definition set_utc_hour v (r : rds_private_state) : rds_private_state := {| handle := handle r;
  decode_state := decode_state r; new_pi := new_pi r; new_ps := new_ps r; new_ps_valid :=
  new_ps_valid r; new_pty := new_pty r; new_ptyn := new_ptyn r; new_ptyn_valid := new_ptyn_valid
  r; new_rt := new_rt r; next_rt_segment := next_rt_segment r; new_di := new_di r;
  next_di_segment := next_di_segment r; new_ecc := new_ecc r; new_lc := new_lc r; new_mjd :=
  new_mjd r; utc_hour := v; utc_minute := utc_minute r; utc_offset := utc_offset r;
  continuity_id := continuity_id r; grp_seq_id := grp_seq_id r; optional_tmc := optional_tmc r;
  prev_tmc_group := prev_tmc_group r; prev_tmc_sys_group := prev_tmc_sys_group r; new_tmc_msg :=
  new_tmc_msg r; rds_group := rds_group r; rds_data_raw := rds_data_raw r |}.
Definition set_utc_minute v (r : rds_private_state) : rds_private_state := {| handle := handle
  r; decode_state := decode_state r; new_pi := new_pi r; new_ps := new_ps r; new_ps_valid :=
  new_ps_valid r; new_pty := new_pty r; new_ptyn := new_ptyn r; new_ptyn_valid := new_ptyn_valid
  r; new_rt := new_rt r; next_rt_segment := next_rt_segment r; new_di := new_di r;
  next_di_segment := next_di_segment r; new_ecc := new_ecc r; new_lc := new_lc r; new_mjd :=
  new_mjd r; utc_hour := utc_hour r; utc_minute := v; utc_offset := utc_offset r; continuity_id
  := continuity_id r; grp_seq_id := grp_seq_id r; optional_tmc := optional_tmc r; prev_tmc_group
  := prev_tmc_group r; prev_tmc_sys_group := prev_tmc_sys_group r; new_tmc_msg := new_tmc_msg r;
  rds_group := rds_group r; rds_data_raw := rds_data_raw r |}.
Definition set_utc_offset v (r : rds_private_state) : rds_private_state := {| handle := handle
  r; decode_state := decode_state r; new_pi := new_pi r; new_ps := new_ps r; new_ps_valid :=
  new_ps_valid r; new_pty := new_pty r; new_ptyn := new_ptyn r; new_ptyn_valid := new_ptyn_valid
  r; new_rt := new_rt r; next_rt_segment := next_rt_segment r; new_di := new_di r;
  next_di_segment := next_di_segment r; new_ecc := new_ecc r; new_lc := new_lc r; new_mjd :=
  new_mjd r; utc_hour := utc_hour r; utc_minute := utc_minute r; utc_offset := v; continuity_id
  := continuity_id r; grp_seq_id := grp_seq_id r; optional_tmc := optional_tmc r; prev_tmc_group
  := prev_tmc_group r; prev_tmc_sys_group := prev_tmc_sys_group r; new_tmc_msg := new_tmc_msg r;
  rds_group := rds_group r; rds_data_raw := rds_data_raw r |}.
Definition set_continuity_id v (r : rds_private_state) : rds_private_state := {| handle :=
  handle r; decode_state := decode_state r; new_pi := new_pi r; new_ps := new_ps r; new_ps_valid
  := new_ps_valid r; new_pty := new_pty r; new_ptyn := new_ptyn r; new_ptyn_valid :=
  new_ptyn_valid r; new_rt := new_rt r; next_rt_segment := next_rt_segment r; new_di := new_di
  r; next_di_segment := next_di_segment r; new_ecc := new_ecc r; new_lc := new_lc r; new_mjd :=
  new_mjd r; utc_hour := utc_hour r; utc_minute := utc_minute r; utc_offset := utc_offset r;
  continuity_id := v; grp_seq_id := grp_seq_id r; optional_tmc := optional_tmc r; prev_tmc_group
  := prev_tmc_group r; prev_tmc_sys_group := prev_tmc_sys_group r; new_tmc_msg := new_tmc_msg r;
  rds_group := rds_group r; rds_data_raw := rds_data_raw r |}.
Definition set_grp_seq_id v (r : rds_private_state) : rds_private_state := {| handle := handle
  r; decode_state := decode_state r; new_pi := new_pi r; new_ps := new_ps r; new_ps_valid :=
  new_ps_valid r; new_pty := new_pty r; new_ptyn := new_ptyn r; new_ptyn_valid := new_ptyn_valid
  r; new_rt := new_rt r; next_rt_segment := next_rt_segment r; new_di := new_di r;
  next_di_segment := next_di_segment r; new_ecc := new_ecc r; new_lc := new_lc r; new_mjd :=
  new_mjd r; utc_hour := utc_hour r; utc_minute := utc_minute r; utc_offset := utc_offset r;
  continuity_id := continuity_id r; grp_seq_id := v; optional_tmc := optional_tmc r;
  prev_tmc_group := prev_tmc_group r; prev_tmc_sys_group := prev_tmc_sys_group r; new_tmc_msg :=
  new_tmc_msg r; rds_group := rds_group r; rds_data_raw := rds_data_raw r |}.
Definition set_optional_tmc v (r : rds_private_state) : rds_private_state := {| handle := handle
  r; decode_state := decode_state r; new_pi := new_pi r; new_ps := new_ps r; new_ps_valid :=
  new_ps_valid r; new_pty := new_pty r; new_ptyn := new_ptyn r; new_ptyn_valid := new_ptyn_valid
  r; new_rt := new_rt r; next_rt_segment := next_rt_segment r; new_di := new_di r;
  next_di_segment := next_di_segment r; new_ecc := new_ecc r; new_lc := new_lc r; new_mjd :=
  new_mjd r; utc_hour := utc_hour r; utc_minute := utc_minute r; utc_offset := utc_offset r;
  continuity_id := continuity_id r; grp_seq_id := grp_seq_id r; optional_tmc := v;
  prev_tmc_group := prev_tmc_group r; prev_tmc_sys_group := prev_tmc_sys_group r; new_tmc_msg :=
  new_tmc_msg r; rds_group := rds_group r; rds_data_raw := rds_data_raw r |}.
Definition set_prev_tmc_group v (r : rds_private_state) : rds_private_state := {| handle :=
  handle r; decode_state := decode_state r; new_pi := new_pi r; new_ps := new_ps r; new_ps_valid
  := new_ps_valid r; new_pty := new_pty r; new_ptyn := new_ptyn r; new_ptyn_valid :=
  new_ptyn_valid r; new_rt := new_rt r; next_rt_segment := next_rt_segment r; new_di := new_di
  r; next_di_segment := next_di_segment r; new_ecc := new_ecc r; new_lc := new_lc r; new_mjd :=
  new_mjd r; utc_hour := utc_hour r; utc_minute := utc_minute r; utc_offset := utc_offset r;
  continuity_id := continuity_id r; grp_seq_id := grp_seq_id r; optional_tmc := optional_tmc r;
  prev_tmc_group := v; prev_tmc_sys_group := prev_tmc_sys_group r; new_tmc_msg := new_tmc_msg r;
  rds_group := rds_group r; rds_data_raw := rds_data_raw r |}.
Definition set_prev_tmc_sys_group v (r : rds_private_state) : rds_private_state := {| handle :=
  handle r; decode_state := decode_state r; new_pi := new_pi r; new_ps := new_ps r; new_ps_valid
  := new_ps_valid r; new_pty := new_pty r; new_ptyn := new_ptyn r; new_ptyn_valid :=
  new_ptyn_valid r; new_rt := new_rt r; next_rt_segment := next_rt_segment r; new_di := new_di
  r; next_di_segment := next_di_segment r; new_ecc := new_ecc r; new_lc := new_lc r; new_mjd :=
  new_mjd r; utc_hour := utc_hour r; utc_minute := utc_minute r; utc_offset := utc_offset r;
  continuity_id := continuity_id r; grp_seq_id := grp_seq_id r; optional_tmc := optional_tmc r;
  prev_tmc_group := prev_tmc_group r; prev_tmc_sys_group := v; new_tmc_msg := new_tmc_msg r;
  rds_group := rds_group r; rds_data_raw := rds_data_raw r |}.
Definition set_new_tmc_msg v (r : rds_private_state) : rds_private_state := {| handle := handle
  r; decode_state := decode_state r; new_pi := new_pi r; new_ps := new_ps r; new_ps_valid :=
  new_ps_valid r; new_pty := new_pty r; new_ptyn := new_ptyn r; new_ptyn_valid := new_ptyn_valid
  r; new_rt := new_rt r; next_rt_segment := next_rt_segment r; new_di := new_di r;
  next_di_segment := next_di_segment r; new_ecc := new_ecc r; new_lc := new_lc r; new_mjd :=
  new_mjd r; utc_hour := utc_hour r; utc_minute := utc_minute r; utc_offset := utc_offset r;
  continuity_id := continuity_id r; grp_seq_id := grp_seq_id r; optional_tmc := optional_tmc r;
  prev_tmc_group := prev_tmc_group r; prev_tmc_sys_group := prev_tmc_sys_group r; new_tmc_msg :=
  v; rds_group := rds_group r; rds_data_raw := rds_data_raw r |}.
Definition set_rds_group v (r : rds_private_state) : rds_private_state := {| handle := handle r;
  decode_state := decode_state r; new_pi := new_pi r; new_ps := new_ps r; new_ps_valid :=
  new_ps_valid r; new_pty := new_pty r; new_ptyn := new_ptyn r; new_ptyn_valid := new_ptyn_valid
  r; new_rt := new_rt r; next_rt_segment := next_rt_segment r; new_di := new_di r;
  next_di_segment := next_di_segment r; new_ecc := new_ecc r; new_lc := new_lc r; new_mjd :=
  new_mjd r; utc_hour := utc_hour r; utc_minute := utc_minute r; utc_offset := utc_offset r;
  continuity_id := continuity_id r; grp_seq_id := grp_seq_id r; optional_tmc := optional_tmc r;
  prev_tmc_group := prev_tmc_group r; prev_tmc_sys_group := prev_tmc_sys_group r; new_tmc_msg :=
  new_tmc_msg r; rds_group := v; rds_data_raw := rds_data_raw r |}.
Definition set_rds_data_raw v (r : rds_private_state) : rds_private_state := {| handle := handle
  r; decode_state := decode_state r; new_pi := new_pi r; new_ps := new_ps r; new_ps_valid :=
  new_ps_valid r; new_pty := new_pty r; new_ptyn := new_ptyn r; new_ptyn_valid := new_ptyn_valid
  r; new_rt := new_rt r; next_rt_segment := next_rt_segment r; new_di := new_di r;
  next_di_segment := next_di_segment r; new_ecc := new_ecc r; new_lc := new_lc r; new_mjd :=
  new_mjd r; utc_hour := utc_hour r; utc_minute := utc_minute r; utc_offset := utc_offset r;
  continuity_id := continuity_id r; grp_seq_id := grp_seq_id r; optional_tmc := optional_tmc r;
  prev_tmc_group := prev_tmc_group r; prev_tmc_sys_group := prev_tmc_sys_group r; new_tmc_msg :=
  new_tmc_msg r; rds_group := rds_group r; rds_data_raw := v |}.


(** ** The state monad of the decoder

    A C function [T f(struct rds_private_state *priv_state, ...)] is a
    computation [M T]: it reads and updates the decoder instance and returns
    a value. *)

Definition M (A : Type) : Type := rds_private_state -> A * rds_private_state.

Definition ret {A} (a : A) : M A := fun s => (a, s).
Definition bind {A B} (m : M A) (k : A -> M B) : M B :=
  fun s => k (fst (m s)) (snd (m s)).
Definition gets {A} (f : rds_private_state -> A) : M A := fun s => (f s, s).
Definition modify (f : rds_private_state -> rds_private_state) : M unit :=
  fun s => (tt, f s).

Declare Scope rds_scope.
Notation "x <- m ;; k" := (bind m (fun x => k))
  (at level 100, m at next level, k at level 200, right associativity) : rds_scope.
Notation "m ;; k" := (bind m (fun _ => k))
  (at level 100, k at level 200, right associativity) : rds_scope.
Local Open Scope rds_scope.

(** [for (i = ...; ...; i++) body], over the list of the values [i] takes;
    [a] carries the local variables the body assigns. *)
Fixpoint for_loop {A} (l : list Z) (body : Z -> A -> M A) (a : A) : M A :=
  match l with
  | [] => ret a
  | i :: l' => a' <- body i a ;; for_loop l' body a'
  end.

Definition range (n : nat) : list Z := map Z.of_nat (seq 0 n).

(** Updates of the nested structures. *)
Definition upd_handle (f : v4l2_rds -> v4l2_rds) (s : rds_private_state) :=
  set_handle (f (handle s)) s.
Definition upd_rds_group (f : v4l2_rds_group -> v4l2_rds_group) (s : rds_private_state) :=
  set_rds_group (f (rds_group s)) s.
Definition upd_new_tmc_msg (f : v4l2_rds_tmc_msg -> v4l2_rds_tmc_msg) (s : rds_private_state) :=
  set_new_tmc_msg (f (new_tmc_msg s)) s.
Definition upd_statistics (f : v4l2_rds_statistics -> v4l2_rds_statistics) :=
  upd_handle (fun h => set_rds_statistics (f (rds_statistics h)) h).
Definition upd_tmc (f : v4l2_rds_tmc -> v4l2_rds_tmc) :=
  upd_handle (fun h => set_tmc (f (tmc h)) h).
Definition upd_rds_af (f : v4l2_rds_af_set -> v4l2_rds_af_set) :=
  upd_handle (fun h => set_rds_af (f (rds_af h)) h).
Definition upd_rds_oda (f : v4l2_rds_oda_set -> v4l2_rds_oda_set) :=
  upd_handle (fun h => set_rds_oda (f (rds_oda h)) h).

(** [w |= flag] and [w &= ~flag] on a [uint32_t] bit mask. *)
Definition set_flag (w flag : Z) : Z := u32 (w .| flag).
Definition clear_flag (w flag : Z) : Z := u32 (w .& Z.lnot flag).

Definition or_valid_fields (flag : Z) : M unit :=
  modify (upd_handle (fun h => set_valid_fields (set_flag (valid_fields h) flag) h)).
Definition clear_valid_fields (flag : Z) : M unit :=
  modify (upd_handle (fun h => set_valid_fields (clear_flag (valid_fields h) flag) h)).

(** ** The zeroed structures ([calloc], [memset(.., 0, ..)]) *)

Definition zero_data : v4l2_rds_data := {| lsb := 0; msb := 0; block := 0 |}.

Definition zero_group : v4l2_rds_group :=
  {| grp_pi := 0; group_version := 0; group_id := 0; data_b_lsb := 0;
     data_c_msb := 0; data_c_lsb := 0; data_d_msb := 0; data_d_lsb := 0 |}.

Definition zero_statistics : v4l2_rds_statistics :=
  {| block_cnt := 0; group_cnt := 0; block_error_cnt := 0; group_error_cnt := 0;
     block_corrected_cnt := 0; group_type_cnt := replicate 16 0 |}.

Definition zero_oda : v4l2_rds_oda :=
  {| oda_group_id := 0; oda_group_version := 0; aid := 0 |}.

Definition zero_additional : v4l2_tmc_additional := {| label := 0; data := 0 |}.

Definition zero_tm : tm :=
  {| tm_sec := 0; tm_min := 0; tm_hour := 0; tm_mday := 0; tm_mon := 0;
     tm_year := 0; tm_gmtoff := 0 |}.

(** An automatic variable that is read before it was assigned holds an
    indeterminate value.  These values are a parameter of the model:
    [uninitialised_tmc_msg s] is what the local [struct v4l2_rds_tmc_msg] of
    [rds_decode_tmc_single_group] holds when the function is entered in the
    state [s]. *)
Class Stack := {
  uninitialised_tmc_msg : rds_private_state -> v4l2_rds_tmc_msg
}.

Section Decoder.

Context `{Header} `{automatic : Stack}.

Definition zero_tmc_msg : v4l2_rds_tmc_msg :=
  {| msg_length := 0; msg_sid := 0; extent := 0; dp := 0; event := 0; location := 0;
     follow_diversion := false; neg_direction := false;
     additional := {| add_size := 0;
                      fields := replicate MAX_TMC_ADDITIONAL zero_additional |} |}.

Definition zero_tmc : v4l2_rds_tmc :=
  {| ltn := 0; afi := false; enhanced_mode := false; mgs := 0; sid := 0; gap := 0;
     t_a := 0; t_w := 0; t_d := 0; spn := replicate 9 0; tmc_msg := zero_tmc_msg |}.

Definition zero_handle : v4l2_rds :=
  {| decode_information := 0; valid_fields := 0; is_rbds := false; pi := 0;
     ps := replicate 9 0; pty := 0; ptyn := replicate 9 0; ptyn_ab_flag := false;
     rt_length := 0; rt := replicate 65 0; rt_ab_flag := false;
     ta := false; tp := false; ms := false; di := 0; ecc := 0; lc := 0;
     time := zero_tm; rds_statistics := zero_statistics;
     rds_oda := {| oda_size := 0; oda := replicate MAX_ODA_CNT zero_oda |};
     rds_af := {| af_size := 0; announced_af := 0; af := replicate MAX_AF_CNT 0 |};
     tmc := zero_tmc |}.

Definition zero_state : rds_private_state :=
  {| handle := zero_handle; decode_state := RDS_EMPTY; new_pi := 0;
     new_ps := replicate 8 0; new_ps_valid := replicate 8 0; new_pty := 0;
     new_ptyn := replicate 2 (replicate 4 0); new_ptyn_valid := replicate 2 false;
     new_rt := replicate 64 0; next_rt_segment := 0; new_di := 0;
     next_di_segment := 0; new_ecc := 0; new_lc := 0; new_mjd := 0;
     utc_hour := 0; utc_minute := 0; utc_offset := 0; continuity_id := 0;
     grp_seq_id := 0; optional_tmc := replicate 4 0;
     prev_tmc_group := zero_group; prev_tmc_sys_group := zero_group;
     new_tmc_msg := zero_tmc_msg; rds_group := zero_group;
     rds_data_raw := replicate 4 zero_data |}.

(** ** The decoder *)

Definition set_bit (input bitmask : Z) (bitvalue : bool) : Z :=
  u8 (if bitvalue then u8 input .| u8 bitmask else u8 input .& Z.lnot (u8 bitmask)).

(** Block A of a group always holds the PI code of the programme. *)
Definition rds_decode_a (rds_data : v4l2_rds_data) : M Z :=
  let updated_fields := 0 in
  let pi' := u16 ((msb rds_data << 8) .| lsb rds_data) in
  (* data in RDS group is uninterpreted *)
  modify (upd_rds_group (set_grp_pi pi')) ;;
  handle_pi <- gets (fun s => pi (handle s)) ;;
  new_pi' <- gets new_pi ;;
  if negb (pi' =? handle_pi) && (pi' =? new_pi') then
    modify (upd_handle (set_pi pi')) ;;
    or_valid_fields V4L2_RDS_PI ;;
    ret (set_flag updated_fields V4L2_RDS_PI)
  else if negb (pi' =? handle_pi) && negb (pi' =? new_pi') then
    modify (set_new_pi pi') ;;
    ret updated_fields
  else ret updated_fields.

(** Block B holds the group type code and version, the traffic programme
    code, the programme type and five bits that depend on the group type. *)
Definition rds_decode_b (rds_data : v4l2_rds_data) : M Z :=
  let updated_fields := 0 in
  (* bits 12-15 (4-7 of msb) contain the Group Type Code *)
  modify (upd_rds_group (set_group_id (u8 (msb rds_data >> 4)))) ;;
  (* bit 11 (3 of msb) defines Group Type info: 0 = A, 1 = B *)
  modify (upd_rds_group
            (set_group_version (if truthy (msb rds_data .& 0x08) then chr_B else chr_A))) ;;
  (* the cast binds tighter than the mask: ((bool)msb) & 0x04 *)
  let traffic_prog := truthy (bool_to_int (truthy (msb rds_data)) .& 0x04) in
  handle_tp <- gets (fun s => tp (handle s)) ;;
  updated_fields <-
    (if negb (eqb handle_tp traffic_prog) then
       modify (upd_handle (set_tp traffic_prog)) ;;
       ret (set_flag updated_fields V4L2_RDS_TP)
     else ret updated_fields) ;;
  or_valid_fields V4L2_RDS_TP ;;
  (* bits 0-4 contains Group Type depending information *)
  modify (upd_rds_group (set_data_b_lsb (lsb rds_data .& 0x1f))) ;;
  (* bits 5-9 contain the PTY code *)
  let pty' := u8 ((msb rds_data << 3) .| (lsb rds_data >> 5)) in
  let pty' := pty' .& 0x1f in
  handle_pty <- gets (fun s => pty (handle s)) ;;
  if handle_pty =? pty' then
    modify (set_new_pty pty') ;;
    ret updated_fields
  else
    new_pty' <- gets new_pty ;;
    if new_pty' =? pty' then
      modify (upd_handle (set_pty new_pty')) ;;
      let updated_fields := set_flag updated_fields V4L2_RDS_PTY in
      or_valid_fields V4L2_RDS_PTY ;;
      ret updated_fields
    else
      modify (set_new_pty pty') ;;
      ret updated_fields.

(** Blocks C and D are stored raw for the group decoders. *)
Definition rds_decode_c (rds_data : v4l2_rds_data) : M unit :=
  modify (upd_rds_group (set_data_c_msb (msb rds_data))) ;;
  modify (upd_rds_group (set_data_c_lsb (lsb rds_data))).

Definition rds_decode_d (rds_data : v4l2_rds_data) : M unit :=
  modify (upd_rds_group (set_data_d_msb (msb rds_data))) ;;
  modify (upd_rds_group (set_data_d_lsb (lsb rds_data))).

(** Equality of two groups, field by field. *)
Definition rds_compare_group (a b : v4l2_rds_group) : bool :=
  if negb (grp_pi a =? grp_pi b) then false
  else if negb (group_version a =? group_version b) then false
  else if negb (group_id a =? group_id b) then false
  else if negb (data_b_lsb a =? data_b_lsb b) then false
  else if negb (data_c_lsb a =? data_c_lsb b) || negb (data_c_msb a =? data_c_msb b)
  then false
  else if negb (data_d_lsb a =? data_d_lsb b) || negb (data_d_msb a =? data_d_msb b)
  then false
  else true.

(** A mask of [bit_cnt] one bits. *)
Definition get_bitmask (bit_cnt : Z) : Z := u32 ((1 << u8 bit_cnt) - 1).

(** *** TMC: the additional fields of a multi-group message *)

(** Lengths of the additional data fields, by label (ISO 14819-1, 5.5.1). *)
Definition additional_lut : list Z := [3; 3; 5; 5; 5; 8; 8; 8; 8; 11; 16; 16; 16; 16; 0; 0].

(** The loop of [rds_tmc_decode_additional], with [n] iterations left:
    [optional] is the array of 28-bit blocks, [length] is [msg->length],
    [pos] and [block_idx] are the loop's cursor and [set] is
    [msg->additional].  A [break] returns [set]. *)
Fixpoint decode_additional_loop (optional : list Z) (length : Z) (n : nat)
    (pos block_idx : Z) (set : v4l2_tmc_additional_set) : v4l2_tmc_additional_set :=
  match n with
  | O => set
  | S n' =>
    let data_len := 28 in
    let label_len := 4 in
    (* extract the label; [None] is the [break] *)
    let extracted_label :=
      if pos + label_len >? data_len then
        let o_len := u8 (label_len - (data_len - pos)) in
        let len := u8 (data_len - pos) in
        let label := u8 ((at_index 0 optional block_idx >> (32 - pos - len + o_len))
                         .& get_bitmask (len + o_len)) in
        let block_idx := u8 (block_idx + 1) in
        if block_idx >=? length then None
        else
          let pos := 0 in
          let label := u8 (label .| (at_index 0 optional block_idx >> (32 - pos - o_len))) in
          Some (label, pos, block_idx)
      else
        let label := u8 ((at_index 0 optional block_idx >> (32 - pos - label_len))
                         .& get_bitmask label_len) in
        let pos := u8 (pos + label_len mod data_len) in
        let block_idx := if pos =? 0 then u8 (block_idx + 1) else block_idx in
        if block_idx >=? length then None
        else Some (label, pos, block_idx) in
    match extracted_label with
    | None => set
    | Some (label, pos, block_idx) =>
      (* extract the associated data block *)
      let len := at_index 0 additional_lut label in
      let extracted_data :=
        if pos + len >? data_len then
          let o_len := u8 (len - (data_len - pos)) in
          let len := u8 (data_len - pos) in
          let data := u16 ((at_index 0 optional block_idx >> (32 - pos - len + o_len))
                           .& get_bitmask (len + o_len)) in
          let block_idx := u8 (block_idx + 1) in
          if block_idx >=? length then None
          else
            let pos := 0 in
            let label := u8 (label .| (at_index 0 optional block_idx >> (32 - pos - o_len))) in
            Some (label, data, pos, block_idx)
        else
          let data := u16 ((at_index 0 optional block_idx >> (32 - pos - len))
                           .& get_bitmask len) in
          let data := u16 (data + len mod data_len) in
          let block_idx := if pos =? 0 then u8 (block_idx + 1) else block_idx in
          Some (label, data, pos, block_idx) in
      match extracted_data with
      | None => set
      | Some (label, data, pos, block_idx) =>
        (* label 15 is reserved for future use: nothing is stored *)
        if label =? 15 then decode_additional_loop optional length n' pos block_idx set
        else
          decode_additional_loop optional length n' pos block_idx
            {| add_size := u8 (add_size set + 1);
               fields := store (fields set) (add_size set)
                           {| label := label; data := data |} |}
      end
    end
  end.

(** Decodes the additional information of the published TMC message,
    [handle.tmc.tmc_msg], from [optional_tmc]. *)
Definition rds_tmc_decode_additional : M unit :=
  msg <- gets (fun s => tmc_msg (tmc (handle s))) ;;
  optional <- gets optional_tmc ;;
  (* reset the additional information from previous messages:
     [sizeof] of [*fields] is one entry *)
  let reset := {| add_size := 0;
                  fields := store (fields (additional msg)) 0 zero_additional |} in
  let set := decode_additional_loop optional (msg_length msg)
               (Z.to_nat (msg_length msg)) 0 0 reset in
  modify (upd_tmc (fun t => set_tmc_msg (set_additional set (tmc_msg t)) t)).

(** TMC system information of the type 3A groups that announce TMC. *)
Definition rds_decode_tmc_system : M Z :=
  group <- gets rds_group ;;
  prev <- gets prev_tmc_sys_group ;;
  (* check if the same group was received twice *)
  if negb (rds_compare_group prev group) then
    modify (set_prev_tmc_sys_group group) ;;
    ret 0
  else
    (* bits 14-15 of block 3 contain the variant code *)
    let variant_code := u8 (data_c_msb group >> 6) in
    (if variant_code =? 0 then
       modify (upd_tmc (set_ltn
                 (u8 (((data_c_msb group .& 0x0f) << 2) .| (data_c_lsb group >> 6))))) ;;
       modify (upd_tmc (set_afi (truthy (data_c_lsb group .& 0x20)))) ;;
       modify (upd_tmc (set_enhanced_mode (truthy (data_c_lsb group .& 0x10)))) ;;
       modify (upd_tmc (set_mgs (u8 (data_c_lsb group .& 0x0f))))
     else if variant_code =? 1 then
       modify (upd_tmc (set_gap (u8 ((data_c_msb group .& 0x30) >> 4)))) ;;
       modify (upd_tmc (set_sid
                 (u8 (((data_c_msb group .& 0x0f) << 2) .| (data_c_lsb group >> 6))))) ;;
       (* timing information is only valid in enhanced mode *)
       enhanced <- gets (fun s => enhanced_mode (tmc (handle s))) ;;
       if negb enhanced then ret tt
       else
         modify (upd_tmc (set_t_a (u8 ((data_c_lsb group .& 0x30) >> 4)))) ;;
         modify (upd_tmc (set_t_w (u8 ((data_c_lsb group .& 0x0c) >> 2)))) ;;
         modify (upd_tmc (set_t_d (u8 (data_c_lsb group .& 0x03))))
     else ret tt) ;;
    ret V4L2_RDS_TMC_SYS.

(** A single-group TMC message.  The C function fills a local
    [struct v4l2_rds_tmc_msg] and copies it out; the members it does not
    assign ([length], [sid], [additional]) are indeterminate in C and are
    those of [uninitialised_tmc_msg] here. *)
Definition rds_decode_tmc_single_group : M Z :=
  grp <- gets rds_group ;;
  msg <- gets uninitialised_tmc_msg ;;
  let msg :=
    {| msg_length := msg_length msg; msg_sid := msg_sid msg;
       (* bits 0-2 of group 2 contain the duration value *)
       dp := u8 (data_b_lsb grp .& 0x07);
       (* bit 15 of block 3 indicates follow diversion advice *)
       follow_diversion := truthy (data_c_msb grp .& 0x80);
       (* bit 14 of block 3 indicates the direction *)
       neg_direction := truthy (data_c_msb grp .& 0x40);
       (* bits 11-13 of block 3 contain the extend of the event *)
       extent := u8 ((data_c_msb grp .& 0x38) >> 3);
       (* bits 0-10 of block 3 contain the event *)
       event := u16 (((data_c_msb grp .& 0x07) << 8) .| data_c_lsb grp);
       (* bits 0-15 of block 4 contain the location *)
       location := u16 ((data_d_msb grp << 8) .| data_c_lsb grp);
       additional := additional msg |} in
  (* decoding done, store the new message *)
  modify (upd_tmc (set_tmc_msg msg)) ;;
  or_valid_fields V4L2_RDS_TMC_SG ;;
  clear_valid_fields V4L2_RDS_TMC_MG ;;
  ret V4L2_RDS_TMC_SG.

(** The 28 payload bits of blocks C and D, left-aligned in a [uint32_t]. *)
Definition tmc_optional_word (grp : v4l2_rds_group) : Z :=
  u32 (((data_c_msb grp << 28) .| (data_c_lsb grp << 20))
       .| (data_d_msb grp << 12) .| (data_d_lsb grp << 4)).

(** A multi-group TMC message; the additional fields are decoded once the
    message is complete. *)
Definition rds_decode_tmc_multi_group : M Z :=
  grp <- gets rds_group ;;
  (* bits 12-13 of block 3 contain the group sequence id, for all
     multi groups except the first group *)
  let grp_seq_id' := u8 ((data_c_msb grp .& 0x30) >> 4) in
  continuity <- gets continuity_id ;;
  prev_seq_id <- gets grp_seq_id ;;
  message_completed <-
    (* bit 15 of block 3 is the first group indicator *)
    (if truthy (data_c_msb grp .& 0x80) then
       (* [memset(msg, 0, sizeof(msg))] clears [sizeof] of a pointer, the
          eight leading bytes: [length], [sid], [extent], [dp], [event]
          and [location] *)
       modify (upd_new_tmc_msg (fun m =>
                 {| msg_length := 0; msg_sid := 0; extent := 0; dp := 0; event := 0;
                    location := 0; follow_diversion := follow_diversion m;
                    neg_direction := neg_direction m; additional := additional m |})) ;;
       (* bits 0-3 of block 2 contain continuity index *)
       modify (set_continuity_id (u8 (data_b_lsb grp .& 0x07))) ;;
       modify (upd_new_tmc_msg (set_follow_diversion (truthy (data_c_msb grp .& 0x80)))) ;;
       modify (upd_new_tmc_msg (set_neg_direction (truthy (data_c_msb grp .& 0x40)))) ;;
       modify (upd_new_tmc_msg (set_extent (u8 ((data_c_msb grp .& 0x38) >> 3)))) ;;
       modify (upd_new_tmc_msg
                 (set_event (u16 (((data_c_msb grp .& 0x07) << 8) .| data_c_lsb grp)))) ;;
       modify (upd_new_tmc_msg
                 (set_location (u16 ((data_d_msb grp << 8) .| data_c_lsb grp)))) ;;
       ret false
     (* bit 14 of block 3 is the second group indicator, and the group
        continuity id has to match *)
     else if truthy (data_c_msb grp .& 0x40)
             && (data_b_lsb grp .& 0x07 =? continuity) then
       modify (set_grp_seq_id grp_seq_id') ;;
       (* store group for later decoding *)
       modify (fun s => set_optional_tmc (store (optional_tmc s) 0 (tmc_optional_word grp)) s) ;;
       modify (upd_new_tmc_msg (set_msg_length 1)) ;;
       ret (grp_seq_id' =? 0)
     (* subsequent groups: the continuity id has to match, and the group
        sequence number has to be smaller by one *)
     else if (data_b_lsb grp .& 0x07 =? continuity)
             && (grp_seq_id' =? prev_seq_id - 1) then
       modify (set_grp_seq_id grp_seq_id') ;;
       length <- gets (fun s => msg_length (new_tmc_msg s)) ;;
       modify (fun s => set_optional_tmc
                          (store (optional_tmc s) length (tmc_optional_word grp)) s) ;;
       modify (upd_new_tmc_msg (set_msg_length (u8 (length + 1)))) ;;
       ret (grp_seq_id' =? 0)
     else ret false) ;;
  (* complete message received -> decode additional fields and store
     the new message *)
  (if message_completed : bool then
     msg <- gets new_tmc_msg ;;
     modify (upd_tmc (set_tmc_msg msg)) ;;
     rds_tmc_decode_additional ;;
     or_valid_fields V4L2_RDS_TMC_MG ;;
     clear_valid_fields V4L2_RDS_TMC_SG
   else ret tt) ;;
  ret V4L2_RDS_TMC_MG.

(** *** Open data announcements *)

(** The body of the [for] loop over the known announcements ends in an
    unconditional [return false] (the [if] governs the assignment alone), so
    the loop visits entry 0 at most. *)
Definition rds_add_oda (new_oda : v4l2_rds_oda) : M bool :=
  set <- gets (fun s => rds_oda (handle s)) ;;
  if 0 <? oda_size set then
    (* i = 0 *)
    (if oda_group_id (at_index zero_oda (oda set) 0) =? oda_group_id new_oda then
       (* update the AID for this ODA *)
       modify (upd_rds_oda (fun o =>
                 set_oda (store (oda o) 0
                            (set_aid (aid new_oda) (at_index zero_oda (oda o) 0))) o))
     else ret tt) ;;
    ret false
  (* add the new ODA *)
  else if oda_size set >=? Z.of_nat MAX_ODA_CNT then ret false
  else
    modify (upd_rds_oda (fun o =>
              {| oda_size := u8 (oda_size o + 1);
                 oda := store (oda o) (oda_size o) new_oda |})) ;;
    ret true.

(** *** Alternative frequencies *)

(** Adds a new AF to the list, if it doesn't exist yet.  The function works
    on the set alone, [handle->rds_af]. *)
Definition rds_add_af_to_list (af_set : v4l2_rds_af_set) (af_code : Z) (is_vhf : bool)
    : bool * v4l2_rds_af_set :=
  let freq := 0 in
  (* AF0 -> "Not to be used" *)
  if af_code =? 0 then (false, af_set)
  else
    (* calculate the AF values in HZ *)
    let freq :=
      if is_vhf then u32 (87500000 + af_code * 100000)
      else if freq <=? 15 then u32 (152000 + af_code * 9000)
      else u32 (531000 + af_code * 9000) in
    (* prevent buffer overflows *)
    if (af_size af_set >=? Z.of_nat MAX_AF_CNT) || (af_size af_set >=? announced_af af_set)
    then (false, af_set)
    (* check if AF already exists *)
    else if existsb (fun f => f =? freq) (take (Z.to_nat (af_size af_set)) (af af_set))
    then (false, af_set)
    (* it's a new AF, add it to the list *)
    else (true, {| af_size := u8 (af_size af_set + 1);
                   announced_af := announced_af af_set;
                   af := store (af af_set) (af_size af_set) freq |}).

(** What [rds_add_af] does to the AF set, given block C of the group. *)
Definition add_af_block_c (c_msb c_lsb : Z) (af_set : v4l2_rds_af_set)
    : bool * v4l2_rds_af_set :=
  let updated_af := false in
  (* 250: LF / MF frequency follows *)
  let '(updated_af, c_lsb, af_set) :=
    if c_msb =? 250 then
      let r := rds_add_af_to_list af_set c_lsb false in
      (if fst r then true else updated_af, 0 (* invalidate *), snd r)
    else (updated_af, c_lsb, af_set) in
  (* 224..249: announcement of AF count (224=0, 249=25) *)
  let af_set :=
    if (c_msb >=? 224) && (c_msb <=? 249) then set_announced_af (u8 (c_msb - 224)) af_set
    else af_set in
  (* check if the data represents an AF *)
  let '(updated_af, af_set) :=
    if c_msb <? 205 then
      let r := rds_add_af_to_list af_set c_msb true in
      (if fst r then true else updated_af, snd r)
    else (updated_af, af_set) in
  let '(updated_af, af_set) :=
    if c_lsb <? 205 then
      let r := rds_add_af_to_list af_set c_lsb true in
      (if fst r then true else updated_af, snd r)
    else (updated_af, af_set) in
  (updated_af, af_set).

(** Extracts the AF information from block 3 of type 0A groups. *)
Definition rds_add_af : M bool :=
  c_msb <- gets (fun s => data_c_msb (rds_group s)) ;;
  c_lsb <- gets (fun s => data_c_lsb (rds_group s)) ;;
  af_set <- gets (fun s => rds_af (handle s)) ;;
  let r := add_af_block_c c_msb c_lsb af_set in
  modify (upd_rds_af (fun _ => snd r)) ;;
  (* did we receive all announced AFs? *)
  af_set <- gets (fun s => rds_af (handle s)) ;;
  (if (af_size af_set >=? announced_af af_set) && negb (announced_af af_set =? 0)
   then or_valid_fields V4L2_RDS_AF
   else ret tt) ;;
  ret (fst r).

(** *** Programme service name *)

(** Adds one char of the PS name to the temporal storage; the result tells
    whether all eight positions are validated. *)
Definition rds_add_ps (pos ps_char : Z) : M bool :=
  staged <- gets new_ps ;;
  (if ps_char =? at_index 0 staged pos then
     modify (fun s => set_new_ps_valid (store (new_ps_valid s) pos 1) s)
   else
     modify (fun s => set_new_ps (store (new_ps s) pos ps_char) s) ;;
     modify (fun s => set_new_ps_valid (memset0 (new_ps_valid s) 8) s)) ;;
  (* check if all ps positions have been validated *)
  validity <- gets new_ps_valid ;;
  ret (forallb (fun v => v =? 1) (take 8 validity)).

(** *** The group decoders *)

(** Group 0: basic tuning and switching. *)
Definition rds_decode_group0 : M Z :=
  grp <- gets rds_group ;;
  let updated_fields := 0 in
  (* bit 4 of block B contains the TA flag *)
  let tmp := truthy (data_b_lsb grp .& 0x10) in
  handle_ta <- gets (fun s => ta (handle s)) ;;
  updated_fields <-
    (if negb (eqb handle_ta tmp) then
       modify (upd_handle (set_ta tmp)) ;;
       ret (set_flag updated_fields V4L2_RDS_TA)
     else ret updated_fields) ;;
  or_valid_fields V4L2_RDS_TA ;;
  (* bit 3 of block B contains the Music/Speech flag *)
  let tmp := truthy (data_b_lsb grp .& 0x08) in
  handle_ms <- gets (fun s => ms (handle s)) ;;
  updated_fields <-
    (if negb (eqb handle_ms tmp) then
       modify (upd_handle (set_ms tmp)) ;;
       ret (set_flag updated_fields V4L2_RDS_MS)
     else ret updated_fields) ;;
  or_valid_fields V4L2_RDS_MS ;;
  (* bit 0-1 of block b contain program service name and decoder
     control segment address *)
  let segment := u8 (data_b_lsb grp .& 0x03) in
  (* put the received station-name characters into the correct position
     of the station name, and check if the new PS is validated *)
  _ <- rds_add_ps (u8 (segment * 2)) (data_d_msb grp) ;;
  new_ps' <- rds_add_ps (u8 (segment * 2 + 1)) (data_d_lsb grp) ;;
  updated_fields <-
    (if new_ps' : bool then
       (* check if new PS is the same as the old one *)
       staged <- gets new_ps ;;
       handle_ps <- gets (fun s => ps (handle s)) ;;
       updated_fields <-
         (if memcmp_ne staged handle_ps 8 then
            modify (upd_handle (fun h => set_ps (memcpy (ps h) staged 8) h)) ;;
            ret (set_flag updated_fields V4L2_RDS_PS)
          else ret updated_fields) ;;
       or_valid_fields V4L2_RDS_PS ;;
       ret updated_fields
     else ret updated_fields) ;;
  (* bit 2 of block B contains 1 bit of the Decoder Control Information (DI);
     the segment number defines the bit position.  New bits are only
     accepted if the segments arrive in the correct order *)
  let bit2 := truthy (data_b_lsb grp .& 0x04) in
  next_di <- gets next_di_segment ;;
  updated_fields <-
    (if (segment =? 0) || (segment =? next_di) then
       if segment =? 0 then
         modify (fun s => set_new_di (set_bit (new_di s) V4L2_RDS_FLAG_STEREO bit2) s) ;;
         modify (set_next_di_segment 1) ;;
         ret updated_fields
       else if segment =? 1 then
         modify (fun s =>
                   set_new_di (set_bit (new_di s) V4L2_RDS_FLAG_ARTIFICIAL_HEAD bit2) s) ;;
         modify (set_next_di_segment 2) ;;
         ret updated_fields
       else if segment =? 2 then
         modify (fun s => set_new_di (set_bit (new_di s) V4L2_RDS_FLAG_COMPRESSED bit2) s) ;;
         modify (set_next_di_segment 3) ;;
         ret updated_fields
       else if segment =? 3 then
         modify (fun s => set_new_di (set_bit (new_di s) V4L2_RDS_FLAG_STATIC_PTY bit2) s) ;;
         (* check if the value of DI has changed, and store and signal
            DI update in case *)
         handle_di <- gets (fun s => di (handle s)) ;;
         staged_di <- gets new_di ;;
         updated_fields <-
           (if negb (handle_di =? staged_di) then
              modify (upd_handle (set_di staged_di)) ;;
              ret (set_flag updated_fields V4L2_RDS_DI)
            else ret updated_fields) ;;
         modify (set_next_di_segment 0) ;;
         or_valid_fields V4L2_RDS_DI ;;
         ret updated_fields
       else ret updated_fields
     else
       (* wrong order of DI segments -> restart *)
       modify (set_next_di_segment 0) ;;
       modify (set_new_di 0) ;;
       ret updated_fields) ;;
  (* version A groups contain AFs in block C *)
  if group_version grp =? chr_A then
    updated_af <- rds_add_af ;;
    if updated_af : bool then ret (set_flag updated_fields V4L2_RDS_AF)
    else ret updated_fields
  else ret updated_fields.

(** Group 1: slow labelling codes. *)
Definition rds_decode_group1 : M Z :=
  grp <- gets rds_group ;;
  let updated_fields := 0 in
  (* version A groups contain slow labeling codes *)
  if negb (group_version grp =? chr_A) then ret 0
  else
    (* bit 14-12 of block c contain the variant code *)
    let variant_code := u8 ((data_c_msb grp >> 4) .& 0x07) in
    if variant_code =? 0 then
      (* var 0 -> ECC, only accepted if the same value is received twice *)
      staged <- gets new_ecc ;;
      if data_c_lsb grp =? staged then
        or_valid_fields V4L2_RDS_ECC ;;
        handle_ecc <- gets (fun s => ecc (handle s)) ;;
        let updated_fields :=
          if negb (handle_ecc =? data_c_lsb grp) then set_flag updated_fields V4L2_RDS_ECC
          else updated_fields in
        modify (upd_handle (set_ecc (data_c_lsb grp))) ;;
        ret updated_fields
      else
        modify (set_new_ecc (data_c_lsb grp)) ;;
        ret updated_fields
    else if variant_code =? 0x03 then
      (* var 0x03 -> Language Code, only accepted if the same lc is
         received twice *)
      staged <- gets new_lc ;;
      if data_c_lsb grp =? staged then
        or_valid_fields V4L2_RDS_LC ;;
        let updated_fields := set_flag updated_fields V4L2_RDS_LC in
        modify (upd_handle (set_lc (data_c_lsb grp))) ;;
        ret updated_fields
      else
        modify (set_new_lc (data_c_lsb grp)) ;;
        ret updated_fields
    else ret updated_fields.

(** Group 2: radio text. *)
Definition rds_decode_group2 : M Z :=
  grp <- gets rds_group ;;
  let updated_fields := 0 in
  (* bit 0-3 of block B contain the segment code *)
  let segment := u8 (data_b_lsb grp .& 0x0f) in
  (* bit 4 of block b contains the A/B text flag (new radio text will be
     transmitted) *)
  let rt_ab_flag_n := truthy (data_b_lsb grp .& 0x10) in
  (* new Radio Text will be transmitted *)
  handle_flag <- gets (fun s => rt_ab_flag (handle s)) ;;
  updated_fields <-
    (if negb (eqb rt_ab_flag_n handle_flag) then
       modify (upd_handle (set_rt_ab_flag rt_ab_flag_n)) ;;
       modify (upd_handle (fun h => set_rt (memset0 (rt h) 64) h)) ;;
       clear_valid_fields V4L2_RDS_RT ;;
       modify (set_next_rt_segment 0) ;;
       ret (set_flag updated_fields V4L2_RDS_RT)
     else ret updated_fields) ;;
  next_segment <- gets next_rt_segment ;;
  (* Type A allows RTs with a max length of 64 chars,
     Type B allows RTs with a max length of 32 chars *)
  updated_fields <-
    (if group_version grp =? chr_A then
       if (segment =? 0) || (segment =? next_segment) then
         modify (fun s => set_new_rt (store (new_rt s) (segment * 4) (data_c_msb grp)) s) ;;
         modify (fun s => set_new_rt (store (new_rt s) (segment * 4 + 1) (data_c_lsb grp)) s) ;;
         modify (fun s => set_new_rt (store (new_rt s) (segment * 4 + 2) (data_d_msb grp)) s) ;;
         modify (fun s => set_new_rt (store (new_rt s) (segment * 4 + 3) (data_d_lsb grp)) s) ;;
         modify (set_next_rt_segment (u8 (segment + 1))) ;;
         if segment =? 0x0f then
           modify (upd_handle (set_rt_length 64)) ;;
           or_valid_fields V4L2_RDS_RT ;;
           handle_rt <- gets (fun s => rt (handle s)) ;;
           staged <- gets new_rt ;;
           updated_fields <-
             (if memcmp_ne handle_rt staged 64 then
                modify (upd_handle (fun h => set_rt (memcpy (rt h) staged 64) h)) ;;
                ret (set_flag updated_fields V4L2_RDS_RT)
              else ret updated_fields) ;;
           modify (set_next_rt_segment 0) ;;
           ret updated_fields
         else ret updated_fields
       else ret updated_fields
     else
       if (segment =? 0) || (segment =? next_segment) then
         modify (fun s => set_new_rt (store (new_rt s) (segment * 2) (data_d_msb grp)) s) ;;
         modify (fun s => set_new_rt (store (new_rt s) (segment * 2 + 1) (data_d_lsb grp)) s) ;;
         (* PI code in block C will be ignored *)
         modify (set_next_rt_segment (u8 (segment + 1))) ;;
         if segment =? 0x0f then
           modify (upd_handle (set_rt_length 32)) ;;
           or_valid_fields V4L2_RDS_RT ;;
           let updated_fields := set_flag updated_fields V4L2_RDS_RT in
           handle_rt <- gets (fun s => rt (handle s)) ;;
           staged <- gets new_rt ;;
           updated_fields <-
             (if memcmp_ne handle_rt staged 32 then
                modify (upd_handle (fun h => set_rt (memcpy (rt h) staged 32) h)) ;;
                ret (set_flag updated_fields V4L2_RDS_RT)
              else ret updated_fields) ;;
           modify (set_next_rt_segment 0) ;;
           ret updated_fields
         else ret updated_fields
       else ret updated_fields) ;;
  (* determine if complete rt was received:
     a carriage return (0x0d) can end a message early *)
  for_loop (range 64) (fun i updated_fields =>
    staged <- gets new_rt ;;
    if at_index 0 staged i =? 0x0d then
      (* replace CR with terminating character *)
      modify (fun s => set_new_rt (store (new_rt s) i 0) s) ;;
      modify (upd_handle (set_rt_length (u8 i))) ;;
      or_valid_fields V4L2_RDS_RT ;;
      handle_rt <- gets (fun s => rt (handle s)) ;;
      staged <- gets new_rt ;;
      length <- gets (fun s => rt_length (handle s)) ;;
      updated_fields <-
        (if memcmp_ne handle_rt staged length then
           modify (upd_handle (fun h => set_rt (memcpy (rt h) staged length) h)) ;;
           ret (set_flag updated_fields V4L2_RDS_RT)
         else ret updated_fields) ;;
      modify (set_next_rt_segment 0) ;;
      ret updated_fields
    else ret updated_fields) updated_fields.

(** Group 3: open data announcements. *)
Definition rds_decode_group3 : M Z :=
  grp <- gets rds_group ;;
  let updated_fields := 0 in
  if negb (group_version grp =? chr_A) then ret 0
  else
    let new_oda :=
      {| (* 0th bit of block b contains Group Type Info version of announced ODA *)
         oda_group_version := if truthy (data_b_lsb grp .& 0x01) then chr_B else chr_A;
         (* 1st to 4th bit contain Group ID of announced ODA *)
         oda_group_id := u8 ((data_b_lsb grp .& 0x1e) >> 1);
         (* block D contains the 16bit Application Identification Code *)
         aid := u16 ((data_d_msb grp << 8) .| data_d_lsb grp) |} in
    (* try to add the new ODA to the set of defined ODAs *)
    added <- rds_add_oda new_oda ;;
    updated_fields <-
      (if added : bool then
         modify (upd_handle (fun h =>
                   set_decode_information (set_flag (decode_information h) V4L2_RDS_ODA) h)) ;;
         ret (set_flag updated_fields V4L2_RDS_ODA)
       else ret updated_fields) ;;
    (* if it's a TMC announcement decode the contained information *)
    (if (aid new_oda =? 0xcd46) || (aid new_oda =? 0xcd47) then
       _ <- rds_decode_tmc_system ;; ret tt
     else ret tt) ;;
    ret updated_fields.

(** [(int)] of a [uint32_t]. *)
Definition to_int (x : Z) : Z := if u32 x <? 2 ^ 31 then u32 x else u32 x - 2 ^ 32.

(** Decodes the RDS date and time into the broken-down time that goes to
    [mktime].  The C code computes the date in [double]; the model computes
    the same quotients on exact rationals, [(int)] being truncation
    ([Z.quot]): [x - 15078.2] over [365.25] is [100 x - 1507820] over
    [36525], and so on. *)
Definition rds_decode_mjd (priv_state : rds_private_state) : tm :=
  let k := 0 in
  (* offset is given in multiples of half hrs *)
  let offset := u32 (utc_offset priv_state .& 0x1f) in
  let local_mjd := new_mjd priv_state in
  let local_hour := utc_hour priv_state in
  let local_minute := utc_minute priv_state in
  (* add / subtract the local offset to get the local time *)
  let '(local_hour, local_minute) :=
    if truthy (utc_offset priv_state .& 0x20) (* bit 5 indicates -/+ *) then
      (u8 (local_hour - offset * 2), u8 (local_minute - (offset mod 2) * 30))
    else
      (u8 (local_hour + offset * 2), u8 (local_minute + (offset mod 2) * 30)) in
  (* the formulas of Annex G of IEC 62106 *)
  let y := Z.quot (local_mjd * 100 - 1507820) 36525 in
  let y_days := Z.quot (y * 1461) 4 in
  let m := Z.quot ((local_mjd - y_days) * 10000 - 149561000) 306001 in
  let m_days := Z.quot (m * 306001) 10000 in
  let d := to_int (local_mjd - 14956 - y_days - m_days) in
  let k := if (m =? 14) || (m =? 15) then 1 else k in
  let y := y + k in
  let m := m - 1 - k * 12 in
  {| tm_sec := 0;
     tm_min := local_minute;
     tm_hour := local_hour;
     tm_mday := d;
     tm_mon := m;
     tm_year := y;
     (* offset that was used to compute the local time *)
     tm_gmtoff := if truthy (utc_offset priv_state .& 0x20)
                  then u32 (u32 (-2 * offset) * 3600)
                  else u32 (u32 (2 * offset) * 3600) |}.

(** Group 4: date and time.  (The C function also prints the result.) *)
Definition rds_decode_group4 : M Z :=
  grp <- gets rds_group ;;
  let updated_fields := 0 in
  if negb (group_version grp =? chr_A) then ret 0
  else
    (* bits 0-1 of block b lsb contain bits 15 and 16 of Julian day code
       bits 0-7 of block c msb contain bits 7 to 14 of Julian day code
       bits 1-7 of block c lsb contain bits 0 to 6 of Julian day code *)
    let mjd := u32 ((((data_b_lsb grp .& 0x03) << 15) .| (data_c_msb grp << 7))
                    .| (data_c_lsb grp >> 1)) in
    (* the same mjd has to be received twice in order to accept the data *)
    staged <- gets new_mjd ;;
    if negb (staged =? mjd) then
      modify (set_new_mjd mjd) ;;
      ret 0
    else
      (* same mjd received at least twice --> decode time & date *)
      modify (set_utc_hour (u8 (((data_c_lsb grp .& 0x01) << 4) .| (data_d_msb grp >> 4)))) ;;
      modify (set_utc_minute (u8 (((data_d_msb grp .& 0x0f) << 2) .| (data_d_lsb grp >> 6)))) ;;
      (* bits 0-5 of block d lsb contain bits 0 to 5 of local time offset *)
      modify (set_utc_offset (u8 (data_d_lsb grp .& 0x3f))) ;;
      modify (fun s => upd_handle (set_time (rds_decode_mjd s)) s) ;;
      let updated_fields := set_flag updated_fields V4L2_RDS_TIME in
      or_valid_fields V4L2_RDS_TIME ;;
      ret updated_fields.

(** Group 8A: TMC. *)
Definition rds_decode_group8 : M Z :=
  grp <- gets rds_group ;;
  (* TMC uses version A exclusively *)
  if negb (group_version grp =? chr_A) then ret 0
  else
    (* check if the same group was received twice, store new rds group
       and return early if the old group doesn't match the new one *)
    prev <- gets prev_tmc_group ;;
    if negb (rds_compare_group prev grp) then
      modify (set_prev_tmc_group grp) ;;
      ret 0
    else
      (* modify the old group, to prevent that the same TMC message is
         decoded again in the next iteration *)
      modify (fun s => set_prev_tmc_group (set_group_version 0 (prev_tmc_group s)) s) ;;
      (* -> single group message *)
      if truthy (data_b_lsb grp .& V4L2_TMC_SINGLE_GROUP)
         && negb (truthy (data_b_lsb grp .& V4L2_TMC_TUNING_INFO))
      then rds_decode_tmc_single_group
      (* -> multi group message *)
      else if negb (truthy (data_b_lsb grp .& V4L2_TMC_SINGLE_GROUP))
              && negb (truthy (data_b_lsb grp .& V4L2_TMC_TUNING_INFO))
      then rds_decode_tmc_multi_group
      else
        (* -> tuning information message, defined for variants 4..9 *)
        let tuning_variant := u8 (data_b_lsb grp .& 0x0f) in
        if truthy (data_b_lsb grp .& V4L2_TMC_TUNING_INFO)
           && (tuning_variant >=? 4) && (tuning_variant <=? 9)
        then ret 0 (* tuning information is not decoded *)
        else ret 0.

(** Group 10: programme type name. *)
Definition rds_decode_group10 : M Z :=
  grp <- gets rds_group ;;
  let updated_fields := 0 in
  (* bit 0 of block B contain the segment code *)
  let segment_code := u8 (data_b_lsb grp .& 0x01) in
  (* bit 4 of block b contains the A/B text flag *)
  let ptyn_ab_flag_n := truthy (data_b_lsb grp .& 0x10) in
  if negb (group_version grp =? chr_A) then ret 0
  else
    (* new Program Type Text will be transmitted *)
    handle_flag <- gets (fun s => ptyn_ab_flag (handle s)) ;;
    updated_fields <-
      (if negb (eqb ptyn_ab_flag_n handle_flag) then
         modify (upd_handle (set_ptyn_ab_flag ptyn_ab_flag_n)) ;;
         modify (upd_handle (fun h => set_ptyn (memset0 (ptyn h) 8) h)) ;;
         modify (set_new_ptyn (replicate 2 (replicate 4 0))) ;;
         modify (set_new_ptyn_valid (replicate 2 false)) ;;
         clear_valid_fields V4L2_RDS_PTYN ;;
         ret (set_flag updated_fields V4L2_RDS_PTYN)
       else ret updated_fields) ;;
    (* copy chars to designated position within temp text field *)
    let ptyn_tmp := [data_c_msb grp; data_c_lsb grp; data_d_msb grp; data_d_lsb grp] in
    (* only validate ptyn segment if the same data is received twice *)
    staged <- gets (fun s => at_index [] (new_ptyn s) segment_code) ;;
    (if negb (memcmp_ne ptyn_tmp staged 4) then
       modify (fun s => set_new_ptyn_valid (store (new_ptyn_valid s) segment_code true) s)
     else
       for_loop (range 4) (fun i _ =>
         modify (fun s =>
           set_new_ptyn (store (new_ptyn s) segment_code
                           (store (at_index [] (new_ptyn s) segment_code) i
                              (at_index 0 ptyn_tmp i))) s)) tt ;;
       modify (fun s => set_new_ptyn_valid (store (new_ptyn_valid s) segment_code false) s)) ;;
    (* if both ptyn segments have been validated, accept the new ptyn *)
    validity <- gets new_ptyn_valid ;;
    if at_index false validity 0 && at_index false validity 1 then
      for_loop (range 4) (fun i _ =>
        modify (fun s => upd_handle (fun h =>
          set_ptyn (store (ptyn h) i (at_index 0 (at_index [] (new_ptyn s) 0) i)) h) s) ;;
        modify (fun s => upd_handle (fun h =>
          set_ptyn (store (ptyn h) (4 + i) (at_index 0 (at_index [] (new_ptyn s) 1) i)) h) s))
        tt ;;
      or_valid_fields V4L2_RDS_PTYN ;;
      ret (set_flag updated_fields V4L2_RDS_PTYN)
    else ret updated_fields.

(** The table of the group decoders, indexed by group id; the entries the C
    initialiser leaves out are null. *)
Definition decode_group (group_id : Z) : option (M Z) :=
  match group_id with
  | 0 => Some rds_decode_group0
  | 1 => Some rds_decode_group1
  | 2 => Some rds_decode_group2
  | 3 => Some rds_decode_group3
  | 4 => Some rds_decode_group4
  | 8 => Some rds_decode_group8
  | 10 => Some rds_decode_group10
  | _ => None
  end.

Definition rds_decode_group : M Z :=
  group_id' <- gets (fun s => group_id (rds_group s)) ;;
  (* count the group type, and decode it if it is supported *)
  modify (upd_statistics (fun st =>
            set_group_type_cnt
              (store (group_type_cnt st) group_id'
                 (u32 (at_index 0 (group_type_cnt st) group_id' + 1))) st)) ;;
  match decode_group group_id' with
  | Some decode => decode
  | None => ret 0
  end.

(** ** The public interface *)

Definition v4l2_rds_create (is_rbds' : bool) : rds_private_state :=
  upd_handle (set_is_rbds is_rbds') zero_state.

Definition v4l2_rds_reset (priv_state : rds_private_state) (reset_statistics : bool)
    : rds_private_state :=
  (* store members of handle that shouldn't be affected by reset *)
  let is_rbds' := is_rbds (handle priv_state) in
  let rds_statistics' := rds_statistics (handle priv_state) in
  (* reset the handle *)
  let priv_state := zero_state in
  (* re-initialize members *)
  let priv_state := upd_handle (set_is_rbds is_rbds') priv_state in
  if negb reset_statistics then upd_handle (set_rds_statistics rds_statistics') priv_state
  else priv_state.

Definition count (f : v4l2_rds_statistics -> Z)
    (set : Z -> v4l2_rds_statistics -> v4l2_rds_statistics) : M unit :=
  modify (upd_statistics (fun st => set (u32 (f st + 1)) st)).

Definition store_raw (i : Z) (rds_data : v4l2_rds_data) : M unit :=
  modify (fun s => set_rds_data_raw (store (rds_data_raw s) i rds_data) s).

(** Decodes raw RDS data blocks into complete groups.  Once a full group is
    received it is decoded into the fields of the handle; the result is the
    mask of the updated fields. *)
Definition v4l2_rds_add (rds_data : v4l2_rds_data) : M Z :=
  let updated_fields := 0 in
  (* get the block id by masking out irrelevant bits *)
  let block_id := block rds_data .& V4L2_RDS_BLOCK_MSK in
  count block_cnt set_block_cnt ;;
  (* check for corrected / uncorrectable errors in the data *)
  block_id <-
    (if truthy (block rds_data .& V4L2_RDS_BLOCK_ERROR) then
       count block_error_cnt set_block_error_cnt ;;
       ret (-1)
     else if truthy (block rds_data .& V4L2_RDS_BLOCK_CORRECTED) then
       count block_corrected_cnt set_block_corrected_cnt ;;
       ret block_id
     else ret block_id) ;;
  state <- gets decode_state ;;
  match state with
  | RDS_EMPTY =>
    if block_id =? 0 then
      modify (set_decode_state RDS_A_RECEIVED) ;;
      (* begin reception of a new data group, reset raw buffer to 0:
         [sizeof(rds_data_raw)] is the size of a pointer, eight bytes, which
         are blocks 0 and 1 and the two data bytes of block 2 *)
      store_raw 0 zero_data ;;
      store_raw 1 zero_data ;;
      modify (fun s =>
        set_rds_data_raw
          (store (rds_data_raw s) 2
             {| lsb := 0; msb := 0; block := block (at_index zero_data (rds_data_raw s) 2) |})
          s) ;;
      store_raw 0 rds_data ;;
      ret 0
    else
      (* ignore block if it is not the first block of a group *)
      count group_error_cnt set_group_error_cnt ;;
      ret 0
  | RDS_A_RECEIVED =>
    if block_id =? 1 then
      modify (set_decode_state RDS_B_RECEIVED) ;;
      store_raw 1 rds_data ;;
      ret 0
    else
      (* received block with unexpected block id, reset state machine *)
      count group_error_cnt set_group_error_cnt ;;
      modify (set_decode_state RDS_EMPTY) ;;
      ret 0
  | RDS_B_RECEIVED =>
    (* handle type C and C' blocks alike *)
    if (block_id =? 2) || (block_id =? 4) then
      modify (set_decode_state RDS_C_RECEIVED) ;;
      store_raw 2 rds_data ;;
      ret 0
    else
      count group_error_cnt set_group_error_cnt ;;
      modify (set_decode_state RDS_EMPTY) ;;
      ret 0
  | RDS_C_RECEIVED =>
    if block_id =? 3 then
      modify (set_decode_state RDS_EMPTY) ;;
      store_raw 3 rds_data ;;
      (* a full group was received *)
      count group_cnt set_group_cnt ;;
      (* decode group type independent fields *)
      modify (set_rds_group zero_group) ;;
      raw <- gets rds_data_raw ;;
      updated_a <- rds_decode_a (at_index zero_data raw 0) ;;
      let updated_fields := updated_fields .| updated_a in
      updated_b <- rds_decode_b (at_index zero_data raw 1) ;;
      let updated_fields := updated_fields .| updated_b in
      rds_decode_c (at_index zero_data raw 2) ;;
      rds_decode_d (at_index zero_data raw 3) ;;
      (* decode group type dependent fields *)
      updated_g <- rds_decode_group ;;
      ret (updated_fields .| updated_g)
    else
      count group_error_cnt set_group_error_cnt ;;
      modify (set_decode_state RDS_EMPTY) ;;
      ret 0
  end.




(** The name of the country; [None] is the null pointer.  The table of the
    European countries is indexed by the low nibble of the extended country
    code and the country code, bits 12-15 of the PI. *)
Definition e_lut : list (list (option string)) :=
  [[None; Some "DE"; Some "DZ"; Some "AD"; Some "IL"; Some "IT"; Some "BE";
    Some "RU"; Some "PS"; Some "AL"; Some "AT"; Some "HU"; Some "MT"; Some "DE";
    None; Some "EG"];
   [None; Some "GR"; Some "CY"; Some "SM"; Some "CH"; Some "JO"; Some "FI";
    Some "LU"; Some "BG"; Some "DK"; Some "GI"; Some "IQ"; Some "GB"; Some "LY";
    Some "RO"; Some "FR"];
   [None; Some "MA"; Some "CZ"; Some "PL"; Some "VA"; Some "SK"; Some "SY";
    Some "TN"; None; Some "LI"; Some "IS"; Some "MC"; Some "LT"; Some "RS";
    Some "ES"; Some "NO"];
   [None; Some "ME"; Some "IE"; Some "TR"; Some "MK"; None; None; None;
    Some "NL"; Some "LV"; Some "LB"; Some "AZ"; Some "HR"; Some "KZ"; Some "SE";
    Some "BY"];
   [None; Some "MD"; Some "EE"; Some "KG"; None; None; Some "UA"; Some "-";
    Some "PT"; Some "SI"; Some "AM"; None; Some "GE"; None; None; Some "BA"]]%string.

Definition v4l2_rds_get_country_str (handle : v4l2_rds) : option string :=
  (* defines the region of the world *)
  let ecc_h := u8 (ecc handle >> 4) in
  (* sub identifier for the region, valid range 0..4 *)
  let ecc_l := u8 (ecc handle .& 0x0f) in
  (* bits 12-15 pi contain the country code *)
  let country_code := u8 (pi handle >> 12) in
  (* for now only European countries are supported -> ECC E0 - E4 *)
  if (ecc_h =? 0x0e) && (ecc_l <=? 0x04)
  then at_index None (at_index [] e_lut ecc_l) country_code
  else Some "Unknown"%string.

Definition language_lut : list (option string) :=
  [Some "Unknown"; Some "Albanian"; Some "Breton"; Some "Catalan";
   Some "Croatian"; Some "Welsh"; Some "Czech"; Some "Danish";
   Some "German"; Some "English"; Some "Spanish"; Some "Esperanto";
   Some "Estonian"; Some "Basque"; Some "Faroese"; Some "French";
   Some "Frisian"; Some "Irish"; Some "Gaelic"; Some "Galician";
   Some "Icelandic"; Some "Italian"; Some "Lappish"; Some "Latin";
   Some "Latvian"; Some "Luxembourgian"; Some "Lithuanian"; Some "Hungarian";
   Some "Maltese"; Some "Dutch"; Some "Norwegian"; Some "Occitan";
   Some "Polish"; Some "Portuguese"; Some "Romanian"; Some "Ramansh";
   Some "Serbian"; Some "Slovak"; Some "Slovene"; Some "Finnish";
   Some "Swedish"; Some "Turkish"; Some "Flemish"; Some "Walloon";
   None; None; None; None; None; None; None; None;
   None; None; None; None; None; None; None; None;
   None; None; None; None; None; None; None; None;
   None; Some "Zulu"; Some "Vietnamese"; Some "Uzbek";
   Some "Urdu"; Some "Ukrainian"; Some "Thai"; Some "Telugu";
   Some "Tatar"; Some "Tamil"; Some "Tadzhik"; Some "Swahili";
   Some "Sranan Tongo"; Some "Somali"; Some "Sinhalese"; Some "Shona";
   Some "Serbo-Croat"; Some "Ruthenian"; Some "Russian"; Some "Quechua";
   Some "Pushtu"; Some "Punjabi"; Some "Persian"; Some "Papamiento";
   Some "Oriya"; Some "Nepali"; Some "Ndebele"; Some "Marathi";
   Some "Moldavian"; Some "Malaysian"; Some "Malagasay"; Some "Macedonian";
   Some "Laotian"; Some "Korean"; Some "Khmer"; Some "Kazahkh";
   Some "Kannada"; Some "Japanese"; Some "Indonesian"; Some "Hindi";
   Some "Hebrew"; Some "Hausa"; Some "Gurani"; Some "Gujurati";
   Some "Greek"; Some "Georgian"; Some "Fulani"; Some "Dani";
   Some "Churash"; Some "Chinese"; Some "Burmese"; Some "Bulgarian";
   Some "Bengali"; Some "Belorussian"; Some "Bambora"; Some "Azerbaijani";
   Some "Assamese"; Some "Armenian"; Some "Arabic"; Some "Amharic"]%string.

(** The name of a language code; invalid values and undefined table entries
    are filtered. *)
Definition rds_language_lut (lc' : Z) : option string :=
  let max_lc := 127 in
  let language :=
    if lc' >? max_lc then Some "Unknown"%string else at_index None language_lut lc' in
  match language with
  | None => Some "Unknown"%string
  | Some name => Some name
  end.

Definition v4l2_rds_get_language_str (handle : v4l2_rds) : option string :=
  rds_language_lut (lc handle).

Definition coverage_lut : list string :=
  ["Local"; "International"; "National"; "Supra-Regional";
   "Regional 1"; "Regional 2"; "Regional 3"; "Regional 4";
   "Regional 5"; "Regional 6"; "Regional 7"; "Regional 8";
   "Regional 9"; "Regional 10"; "Regional 11"; "Regional 12"]%string.

Definition v4l2_rds_get_coverage_str (handle : v4l2_rds) : option string :=
  (* bits 8-11 contain the area coverage code *)
  let coverage := u8 ((pi handle >> 8) .& 0x0f) in
  coverage_lut !! Z.to_nat coverage.

(** The group that was received last: a pointer into the private state. *)
Definition v4l2_rds_get_group (priv_state : rds_private_state) : v4l2_rds_group :=
  rds_group priv_state.

End Decoder.

(** ** Runs of the decoder *)

(** The decoder after ingesting the blocks [bs], one [v4l2_rds_add] each. *)
Definition run `{Header} `{automatic : Stack}
    (s : rds_private_state) (bs : list v4l2_rds_data)
    : rds_private_state :=
  fold_left (fun s d => snd (v4l2_rds_add d s)) bs s.

(** The masks the calls return, in order. *)
Fixpoint masks `{Header} `{automatic : Stack}
    (s : rds_private_state) (bs : list v4l2_rds_data) : list Z :=
  match bs with
  | [] => []
  | d :: bs' => fst (v4l2_rds_add d s) :: masks (snd (v4l2_rds_add d s)) bs'
  end.


(** * Reasoning about the decoder *)

(** ** A program logic for [M] *)

(** [hoare P m Q]: run from a state that satisfies [P], the computation [m]
    returns a value and a state that satisfy [Q]. *)
Definition hoare {A} (P : rds_private_state -> Prop) (m : M A)
    (Q : A -> rds_private_state -> Prop) : Prop :=
  forall s, P s -> Q (fst (m s)) (snd (m s)).

(** [keeps f m]: the computation [m] does not change the component [f] of the
    state. *)
Definition keeps {A B} (f : rds_private_state -> B) (m : M A) : Prop :=
  forall s, f (snd (m s)) = f s.

Section Logic.

Context {A B C : Type}.
Implicit Types (P : rds_private_state -> Prop) (f : rds_private_state -> C).

Lemma hoare_ret P (a : A) : hoare P (ret a) (fun _ s => P s).
Proof. intros s Hs. exact Hs. Qed.

Lemma hoare_bind P (m : M A) (k : A -> M B) R Q :
  hoare P m R -> (forall a, hoare (R a) (k a) Q) -> hoare P (bind m k) Q.
Proof. intros Hm Hk s Hs. apply (Hk (fst (m s))), Hm, Hs. Qed.

Lemma hoare_gets P (g : rds_private_state -> A) :
  hoare P (gets g) (fun a s => P s /\ a = g s).
Proof. intros s Hs. split; [exact Hs | reflexivity]. Qed.

Lemma hoare_conseq P P' (m : M A) (Q Q' : A -> rds_private_state -> Prop) :
  hoare P' m Q' -> (forall s, P s -> P' s) -> (forall a s, Q' a s -> Q a s) ->
  hoare P m Q.
Proof. intros Hm Hp Hq s Hs. apply Hq, Hm, Hp, Hs. Qed.

Lemma hoare_keeps f (m : M A) (v : C) :
  keeps f m -> hoare (fun s => f s = v) m (fun _ s => f s = v).
Proof. intros Hk s Hs. cbn. rewrite Hk. exact Hs. Qed.

Lemma keeps_ret f (a : A) : keeps f (ret a).
Proof. intros s. reflexivity. Qed.

Lemma keeps_gets f (g : rds_private_state -> A) : keeps f (gets g).
Proof. intros s. reflexivity. Qed.

Lemma keeps_bind f (m : M A) (k : A -> M B) :
  keeps f m -> (forall a, keeps f (k a)) -> keeps f (bind m k).
Proof. intros Hm Hk s. unfold bind. rewrite Hk. apply Hm. Qed.

Lemma keeps_if f (c : bool) (m1 m2 : M A) :
  keeps f m1 -> keeps f m2 -> keeps f (if c then m1 else m2).
Proof. destruct c; auto. Qed.

End Logic.

Lemma keeps_for_loop {A C} (f : rds_private_state -> C) (l : list Z)
    (body : Z -> A -> M A) (a : A) :
  (forall i a', keeps f (body i a')) -> keeps f (for_loop l body a).
Proof.
  intros Hbody. revert a.
  induction l as [|i l IH]; intros a; cbn [for_loop].
  - apply keeps_ret.
  - apply keeps_bind; [apply Hbody | intros a'; apply IH].
Qed.

Lemma keeps_modify {C} (f : rds_private_state -> C) g :
  (forall s, f (g s) = f s) -> keeps f (modify g).
Proof. intros Hg s. apply Hg. Qed.

(** Proves [keeps f m] along the structure of [m]; the updates of [m] must
    leave [f] alone by computation. *)
Ltac keeps_step :=
  lazymatch goal with
  | |- keeps _ (bind _ _) => apply keeps_bind; [| intros ?]
  | |- keeps _ (ret _) => apply keeps_ret
  | |- keeps _ (gets _) => apply keeps_gets
  | |- keeps _ (modify _) => apply keeps_modify; intros ?; reflexivity
  | |- keeps _ (if _ then _ else _) => apply keeps_if
  | |- keeps _ (for_loop _ _ _) => apply keeps_for_loop; intros ? ?
  | |- keeps _ (match ?x with _ => _ end) => destruct x
  | |- keeps _ (let _ := _ in _) => cbv zeta
  end.

Ltac keeps_tac := repeat keeps_step.

Section Frames.

Context `{Header} `{automatic : Stack}.

(** The assembler's part of the state: the decoders of a received group
    leave it alone. *)
Definition assembler (s : rds_private_state) :=
  (decode_state s, rds_data_raw s, group_cnt (rds_statistics (handle s))).

(** The alternative frequencies and the programme type. *)
Definition af_pty (s : rds_private_state) := (rds_af (handle s), pty (handle s)).

Definition frame (s : rds_private_state) := (assembler s, af_pty s).

Lemma keeps_or_valid_fields {C} (f : rds_private_state -> C) flag :
  (forall s v, f (upd_handle (set_valid_fields v) s) = f s) ->
  keeps f (or_valid_fields flag).
Proof. intros Hf s. apply Hf. Qed.

Lemma rds_decode_a_frame d : keeps (fun s => (frame s, new_pty s)) (rds_decode_a d).
Proof. unfold rds_decode_a, or_valid_fields. keeps_tac. Qed.

Lemma rds_decode_c_frame d : keeps (fun s => (frame s, new_pty s)) (rds_decode_c d).
Proof. unfold rds_decode_c. keeps_tac. Qed.

Lemma rds_decode_d_frame d : keeps (fun s => (frame s, new_pty s)) (rds_decode_d d).
Proof. unfold rds_decode_d. keeps_tac. Qed.

Lemma rds_decode_b_frame d :
  keeps (fun s => (assembler s, rds_af (handle s))) (rds_decode_b d).
Proof. unfold rds_decode_b, or_valid_fields. keeps_tac. Qed.

Lemma rds_add_ps_frame pos c :
  keeps (fun s => (frame s, rds_group s)) (rds_add_ps pos c).
Proof. unfold rds_add_ps. keeps_tac. Qed.

Lemma rds_decode_group1_frame : keeps frame rds_decode_group1.
Proof. unfold rds_decode_group1, or_valid_fields. keeps_tac. Qed.

Lemma rds_decode_group2_frame : keeps frame rds_decode_group2.
Proof. unfold rds_decode_group2, or_valid_fields, clear_valid_fields. keeps_tac. Qed.

Lemma rds_decode_group3_frame : keeps frame rds_decode_group3.
Proof.
  unfold rds_decode_group3, rds_add_oda, rds_decode_tmc_system, or_valid_fields.
  keeps_tac.
Qed.

Lemma rds_decode_group4_frame : keeps frame rds_decode_group4.
Proof. unfold rds_decode_group4, or_valid_fields. keeps_tac. Qed.

Lemma rds_decode_group8_frame : keeps frame rds_decode_group8.
Proof.
  unfold rds_decode_group8, rds_decode_tmc_single_group, rds_decode_tmc_multi_group,
    rds_tmc_decode_additional, or_valid_fields, clear_valid_fields.
  keeps_tac.
Qed.

Lemma rds_decode_group10_frame : keeps frame rds_decode_group10.
Proof. unfold rds_decode_group10, or_valid_fields, clear_valid_fields. keeps_tac. Qed.

(** Group 0 is the one decoder that touches the alternative frequencies, and
    it does so through [rds_add_af] alone. *)
Lemma rds_add_af_frame :
  keeps (fun s => (assembler s, pty (handle s), rds_group s)) rds_add_af.
Proof. unfold rds_add_af, or_valid_fields. keeps_tac. Qed.

Lemma rds_add_af_effect s :
  rds_af (handle (snd (rds_add_af s)))
  = snd (add_af_block_c (data_c_msb (rds_group s)) (data_c_lsb (rds_group s))
           (rds_af (handle s))).
Proof.
  unfold rds_add_af, bind, gets, modify, or_valid_fields, ret. cbn.
  match goal with |- context [if ?c then _ else _] => destruct c end; reflexivity.
Qed.

Lemma rds_decode_group0_frame :
  keeps (fun s => (assembler s, pty (handle s))) rds_decode_group0.
Proof.
  unfold rds_decode_group0, rds_add_ps, or_valid_fields. keeps_tac.
  all: intros s; exact (f_equal fst (rds_add_af_frame s)).
Qed.

Lemma hoare_bind_keeps {A B C} (f : rds_private_state -> C) (I : C -> Prop)
    (m : M A) (k : A -> M B) Q :
  keeps f m -> (forall a, hoare (fun s => I (f s)) (k a) Q) ->
  hoare (fun s => I (f s)) (bind m k) Q.
Proof.
  intros Hm Hk. apply hoare_bind with (R := fun _ s => I (f s)); [|exact Hk].
  intros s Hs. cbn. rewrite Hm. exact Hs.
Qed.

Lemma hoare_assume {A} (phi : Prop) P (m : M A) Q :
  (phi -> hoare P m Q) -> hoare (fun s => P s /\ phi) m Q.
Proof. intros Hm s [Hs Hphi]. apply Hm; assumption. Qed.

Lemma rds_decode_group0_af s :
  rds_af (handle (snd (rds_decode_group0 s)))
  = if group_version (rds_group s) =? chr_A
    then snd (add_af_block_c (data_c_msb (rds_group s)) (data_c_lsb (rds_group s))
                (rds_af (handle s)))
    else rds_af (handle s).
Proof.
  set (g0 := rds_group s). set (a0 := rds_af (handle s)).
  set (f := fun s' : rds_private_state => (rds_af (handle s'), rds_group s')).
  set (I := fun v : v4l2_rds_af_set * v4l2_rds_group => v = (a0, g0)).
  assert (Hh : hoare (fun s' => I (f s')) rds_decode_group0
                 (fun _ s' => rds_af (handle s')
                    = if group_version g0 =? chr_A
                      then snd (add_af_block_c (data_c_msb g0) (data_c_lsb g0) a0)
                      else a0)).
  { unfold rds_decode_group0, rds_add_ps, or_valid_fields.
    apply hoare_bind with (R := fun grp s' => I (f s') /\ grp = g0).
    { intros s' Hs'. split; [exact Hs' | exact (f_equal snd Hs')]. }
    intros grp. apply hoare_assume. intros ->. cbv zeta.
    repeat (apply hoare_bind_keeps; [solve [keeps_tac] | intros ?]).
    destruct (group_version g0 =? chr_A).
    - intros s' Hs'. injection Hs' as Ha Hg.
      unfold bind. cbn [fst snd].
      transitivity (rds_af (handle (snd (rds_add_af s')))).
      { destruct (fst (rds_add_af s')); reflexivity. }
      rewrite rds_add_af_effect, Ha, Hg. reflexivity.
    - intros s' Hs'. injection Hs' as Ha Hg. exact Ha. }
  apply (Hh s). reflexivity.
Qed.

(** The decoders of the other groups. *)
Lemma decode_group_frame id decode :
  decode_group id = Some decode -> id <> 0 -> keeps frame decode.
Proof.
  unfold decode_group. intros Hd Hid.
  destruct id as [|p|p]; [congruence | | discriminate].
  repeat (destruct p as [p|p|]; cbn in Hd; try discriminate).
  all: injection Hd as <-.
  all: auto using rds_decode_group1_frame, rds_decode_group2_frame,
         rds_decode_group3_frame, rds_decode_group4_frame, rds_decode_group8_frame,
         rds_decode_group10_frame.
Qed.

Lemma rds_decode_group_frame :
  keeps (fun s => (assembler s, pty (handle s))) rds_decode_group.
Proof.
  unfold rds_decode_group. keeps_step; [keeps_tac|].
  keeps_step; [keeps_tac|].
  destruct (decode_group a) as [decode|] eqn:Hd; [|keeps_tac].
  destruct (Z.eq_dec a 0) as [->|Hne].
  - injection Hd as <-. apply rds_decode_group0_frame.
  - intros s. pose proof (decode_group_frame _ _ Hd Hne s) as Hf.
    unfold frame, af_pty in Hf. congruence.
Qed.

Lemma rds_decode_group_af s :
  rds_af (handle (snd (rds_decode_group s)))
  = if (group_id (rds_group s) =? 0) && (group_version (rds_group s) =? chr_A)
    then snd (add_af_block_c (data_c_msb (rds_group s)) (data_c_lsb (rds_group s))
                (rds_af (handle s)))
    else rds_af (handle s).
Proof.
  unfold rds_decode_group, bind, gets, modify. cbn [fst snd].
  set (s1 := upd_statistics _ s).
  destruct (decode_group (group_id (rds_group s))) as [decode|] eqn:Hd.
  - destruct (Z.eqb_spec (group_id (rds_group s)) 0) as [Hz|Hne].
    + rewrite Hz in Hd. injection Hd as <-. cbn [andb].
      rewrite rds_decode_group0_af. reflexivity.
    + cbn [andb]. pose proof (decode_group_frame _ _ Hd Hne s1) as Hf.
      unfold frame, af_pty in Hf. injection Hf as _ _ _ Ha _. exact Ha.
  - destruct (Z.eqb_spec (group_id (rds_group s)) 0) as [Hz|Hne].
    + rewrite Hz in Hd. discriminate.
    + reflexivity.
Qed.

(** ** One call of [v4l2_rds_add] *)

(** The block id [v4l2_rds_add] works with: the id bits of the status byte,
    or -1 when the block is flagged as uncorrectable. *)
Definition block_id (rds_data : v4l2_rds_data) : Z :=
  if truthy (block rds_data .& V4L2_RDS_BLOCK_ERROR) then -1
  else block rds_data .& V4L2_RDS_BLOCK_MSK.

(** The head of [v4l2_rds_add]: the block counters. *)
Definition count_block (rds_data : v4l2_rds_data) : M Z :=
  count block_cnt set_block_cnt ;;
  if truthy (block rds_data .& V4L2_RDS_BLOCK_ERROR) then
    count block_error_cnt set_block_error_cnt ;;
    ret (-1)
  else if truthy (block rds_data .& V4L2_RDS_BLOCK_CORRECTED) then
    count block_corrected_cnt set_block_corrected_cnt ;;
    ret (block rds_data .& V4L2_RDS_BLOCK_MSK)
  else ret (block rds_data .& V4L2_RDS_BLOCK_MSK).

(** The pre-decoder: blocks A to D of the raw buffer go into [rds_group]. *)
Definition pre_decode (raw : list v4l2_rds_data) : M Z :=
  updated_a <- rds_decode_a (at_index zero_data raw 0) ;;
  updated_b <- rds_decode_b (at_index zero_data raw 1) ;;
  rds_decode_c (at_index zero_data raw 2) ;;
  rds_decode_d (at_index zero_data raw 3) ;;
  ret (0 .| updated_a .| updated_b).

(** The group as the pre-decoder assembles it from its four blocks. *)
Definition assembled (a b c d : v4l2_rds_data) : v4l2_rds_group :=
  {| grp_pi := u16 ((msb a << 8) .| lsb a);
     group_version := if truthy (msb b .& 0x08) then chr_B else chr_A;
     group_id := u8 (msb b >> 4);
     data_b_lsb := lsb b .& 0x1f;
     data_c_msb := msb c;
     data_c_lsb := lsb c;
     data_d_msb := msb d;
     data_d_lsb := lsb d |}.

(** What [v4l2_rds_add] does with block D of a group: the tail of the case
    [RDS_C_RECEIVED]. *)
Definition receive_d (rds_data : v4l2_rds_data) : M Z :=
  modify (set_decode_state RDS_EMPTY) ;;
  store_raw 3 rds_data ;;
  count group_cnt set_group_cnt ;;
  modify (set_rds_group zero_group) ;;
  raw <- gets rds_data_raw ;;
  updated_a <- rds_decode_a (at_index zero_data raw 0) ;;
  updated_b <- rds_decode_b (at_index zero_data raw 1) ;;
  rds_decode_c (at_index zero_data raw 2) ;;
  rds_decode_d (at_index zero_data raw 3) ;;
  updated_g <- rds_decode_group ;;
  ret (0 .| updated_a .| updated_b .| updated_g).

(** The state machine of [v4l2_rds_add], given the block id and the state. *)
Definition dispatch (d : v4l2_rds_data) (id : Z) (state : rds_state) : M Z :=
  match state with
  | RDS_EMPTY =>
    if id =? 0 then
      modify (set_decode_state RDS_A_RECEIVED) ;;
      store_raw 0 zero_data ;;
      store_raw 1 zero_data ;;
      modify (fun s =>
        set_rds_data_raw
          (store (rds_data_raw s) 2
             {| lsb := 0; msb := 0;
                block := block (at_index zero_data (rds_data_raw s) 2) |}) s) ;;
      store_raw 0 d ;;
      ret 0
    else count group_error_cnt set_group_error_cnt ;; ret 0
  | RDS_A_RECEIVED =>
    if id =? 1 then
      modify (set_decode_state RDS_B_RECEIVED) ;; store_raw 1 d ;; ret 0
    else
      count group_error_cnt set_group_error_cnt ;;
      modify (set_decode_state RDS_EMPTY) ;; ret 0
  | RDS_B_RECEIVED =>
    if (id =? 2) || (id =? 4) then
      modify (set_decode_state RDS_C_RECEIVED) ;; store_raw 2 d ;; ret 0
    else
      count group_error_cnt set_group_error_cnt ;;
      modify (set_decode_state RDS_EMPTY) ;; ret 0
  | RDS_C_RECEIVED =>
    if id =? 3 then receive_d d
    else
      count group_error_cnt set_group_error_cnt ;;
      modify (set_decode_state RDS_EMPTY) ;; ret 0
  end.

Lemma v4l2_rds_add_unfold d s :
  v4l2_rds_add d s
  = dispatch d (fst (count_block d s)) (decode_state (snd (count_block d s)))
      (snd (count_block d s)).
Proof. reflexivity. Qed.

Lemma snd_pair_eq {A B} (a : A) (b : B) : snd (a, b) = b.
Proof. reflexivity. Qed.

Lemma fst_pair_eq {A B} (a : A) (b : B) : fst (a, b) = a.
Proof. reflexivity. Qed.

Lemma count_block_id d s : fst (count_block d s) = block_id d.
Proof.
  unfold count_block, block_id, bind. cbn [fst snd].
  repeat match goal with |- context [if ?c then _ else _] => destruct c end;
    reflexivity.
Qed.

Lemma count_block_frame d :
  keeps (fun s => (decode_state s, rds_data_raw s, group_cnt (rds_statistics (handle s)),
                   af_pty s, rds_group s)) (count_block d).
Proof. unfold count_block, count. keeps_tac. Qed.

Lemma hoare_if {A} (c : bool) P (m1 m2 : M A) Q :
  (c = true -> hoare P m1 Q) -> (c = false -> hoare P m2 Q) ->
  hoare P (if c then m1 else m2) Q.
Proof. destruct c; auto. Qed.

Lemma hoare_eq_bind_keeps {A B C} (f : rds_private_state -> C) (v : C)
    (m : M A) (k : A -> M B) Q :
  keeps f m -> (forall a, hoare (fun s => f s = v) (k a) Q) ->
  hoare (fun s => f s = v) (bind m k) Q.
Proof.
  intros Hm Hk. apply hoare_bind with (R := fun _ s => f s = v); [|exact Hk].
  intros s Hs. cbn. rewrite Hm. exact Hs.
Qed.

Lemma hoare_eq_modify {C} (f : rds_private_state -> C) g (v v' : C) :
  (forall s, f s = v -> f (g s) = v') ->
  hoare (fun s => f s = v) (modify g) (fun _ s => f s = v').
Proof. intros Hg s Hs. apply Hg, Hs. Qed.

(** Follows the component [f] through a sequence of statements: an update
    of [f] changes the tracked value, every other statement keeps it. *)
Ltac track f :=
  repeat first
    [ apply (hoare_eq_bind_keeps f); [solve [keeps_tac] | intros ?]
    | eapply hoare_bind;
      [ apply (hoare_eq_modify f); intros ? Htrack; cbn; rewrite Htrack; reflexivity
      | intros ?; cbv beta ] ];
  try (apply (hoare_keeps f); solve [keeps_tac]).

Lemma rds_decode_a_group d s :
  rds_group (snd (rds_decode_a d s))
  = set_grp_pi (u16 ((msb d << 8) .| lsb d)) (rds_group s).
Proof.
  assert (Hh : hoare (fun s' => rds_group s' = rds_group s) (rds_decode_a d)
                 (fun _ s' => rds_group s'
                    = set_grp_pi (u16 ((msb d << 8) .| lsb d)) (rds_group s))).
  { unfold rds_decode_a, or_valid_fields. cbv zeta. track rds_group. }
  apply (Hh s). reflexivity.
Qed.

Lemma rds_decode_b_group d s :
  rds_group (snd (rds_decode_b d s))
  = set_data_b_lsb (lsb d .& 0x1f)
      (set_group_version (if truthy (msb d .& 0x08) then chr_B else chr_A)
         (set_group_id (u8 (msb d >> 4)) (rds_group s))).
Proof.
  assert (Hh : hoare (fun s' => rds_group s' = rds_group s) (rds_decode_b d)
                 (fun _ s' => rds_group s'
                    = set_data_b_lsb (lsb d .& 0x1f)
                        (set_group_version
                           (if truthy (msb d .& 0x08) then chr_B else chr_A)
                           (set_group_id (u8 (msb d >> 4)) (rds_group s))))).
  { unfold rds_decode_b, or_valid_fields. cbv zeta. track rds_group. }
  apply (Hh s). reflexivity.
Qed.

Lemma rds_decode_c_group d s :
  rds_group (snd (rds_decode_c d s))
  = set_data_c_lsb (lsb d) (set_data_c_msb (msb d) (rds_group s)).
Proof. reflexivity. Qed.

Lemma rds_decode_d_group d s :
  rds_group (snd (rds_decode_d d s))
  = set_data_d_lsb (lsb d) (set_data_d_msb (msb d) (rds_group s)).
Proof. reflexivity. Qed.

Lemma five_bits x : 0 <= u8 x .& 0x1f < 32.
Proof.
  change 0x1f with (Z.ones 5). rewrite Z.land_ones by lia.
  apply Z.mod_pos_bound. lia.
Qed.

(** The programme type after block B is the old one or a value of five
    bits. *)
Lemma rds_decode_b_pty d s :
  pty (handle (snd (rds_decode_b d s))) = pty (handle s)
  \/ 0 <= pty (handle (snd (rds_decode_b d s))) < 32.
Proof.
  set (f := fun s' : rds_private_state => pty (handle s')).
  assert (Hh : hoare (fun s' => f s' = f s) (rds_decode_b d)
                 (fun _ s' => f s' = f s \/ 0 <= f s' < 32)).
  { unfold rds_decode_b, or_valid_fields. cbv zeta. track f.
    apply hoare_if; intros Hc.
    - intros s' Hs'. left. exact Hs'.
    - apply hoare_bind with (R := fun staged s' => f s' = f s /\ staged = new_pty s').
      { intros s' Hs'. split; [exact Hs' | reflexivity]. }
      intros staged. apply hoare_if; intros Hc'.
      + intros s' _. right. cbn. apply Z.eqb_eq in Hc'. rewrite Hc'. apply five_bits.
      + intros s' [Hs' _]. left. exact Hs'. }
  apply (Hh s). reflexivity.
Qed.

Lemma pre_decode_spec raw s :
  let s' := snd (pre_decode raw s) in
  assembler s' = assembler s
  /\ rds_af (handle s') = rds_af (handle s)
  /\ (pty (handle s') = pty (handle s) \/ 0 <= pty (handle s') < 32)
  /\ rds_group s'
     = set_data_d_lsb (lsb (at_index zero_data raw 3))
         (set_data_d_msb (msb (at_index zero_data raw 3))
            (set_data_c_lsb (lsb (at_index zero_data raw 2))
               (set_data_c_msb (msb (at_index zero_data raw 2))
                  (set_data_b_lsb (lsb (at_index zero_data raw 1) .& 0x1f)
                     (set_group_version
                        (if truthy (msb (at_index zero_data raw 1) .& 0x08)
                         then chr_B else chr_A)
                        (set_group_id (u8 (msb (at_index zero_data raw 1) >> 4))
                           (set_grp_pi
                              (u16 ((msb (at_index zero_data raw 0) << 8)
                                    .| lsb (at_index zero_data raw 0)))
                              (rds_group s)))))))).
Proof.
  set (ra := at_index zero_data raw 0). set (rb := at_index zero_data raw 1).
  set (rc := at_index zero_data raw 2). set (rd := at_index zero_data raw 3).
  assert (E : snd (pre_decode raw s)
              = snd (rds_decode_d rd (snd (rds_decode_c rc
                       (snd (rds_decode_b rb (snd (rds_decode_a ra s)))))))) by reflexivity.
  cbv zeta. rewrite E. clear E.
  pose proof (rds_decode_a_frame ra s) as Ha.
  pose proof (rds_decode_a_group ra s) as Ga.
  remember (snd (rds_decode_a ra s)) as sa eqn:Ea. clear Ea.
  pose proof (rds_decode_b_frame rb sa) as Hb.
  pose proof (rds_decode_b_pty rb sa) as Hp.
  pose proof (rds_decode_b_group rb sa) as Gb.
  remember (snd (rds_decode_b rb sa)) as sb eqn:Eb. clear Eb.
  pose proof (rds_decode_c_frame rc sb) as Hc.
  pose proof (rds_decode_c_group rc sb) as Gc.
  remember (snd (rds_decode_c rc sb)) as sc eqn:Ec. clear Ec.
  pose proof (rds_decode_d_frame rd sc) as Hd.
  pose proof (rds_decode_d_group rd sc) as Gd.
  remember (snd (rds_decode_d rd sc)) as sd eqn:Ed. clear Ed.
  unfold frame, af_pty, assembler in Ha, Hb, Hc, Hd |- *.
  injection Ha as Ha1 Ha2 Ha3 Ha4 Ha5 _. injection Hb as Hb1 Hb2 Hb3 Hb4.
  injection Hc as Hc1 Hc2 Hc3 Hc4 Hc5 _. injection Hd as Hd1 Hd2 Hd3 Hd4 Hd5 _.
  repeat split.
  - congruence.
  - congruence.
  - rewrite Hd5, Hc5, <- Ha5. exact Hp.
  - rewrite Gd, Gc, Gb, Ga. reflexivity.
Qed.

Lemma pre_decode_unfold raw s :
  snd (pre_decode raw s)
  = snd (rds_decode_d (at_index zero_data raw 3)
           (snd (rds_decode_c (at_index zero_data raw 2)
                   (snd (rds_decode_b (at_index zero_data raw 1)
                           (snd (rds_decode_a (at_index zero_data raw 0) s))))))).
Proof. reflexivity. Qed.

Lemma bind_eq {A B} (m : M A) (k : A -> M B) s :
  bind m k s = k (fst (m s)) (snd (m s)).
Proof. reflexivity. Qed.

Lemma modify_eq g s : modify g s = (tt, g s).
Proof. reflexivity. Qed.

Lemma gets_eq {A} (f : rds_private_state -> A) s : gets f s = (f s, s).
Proof. reflexivity. Qed.

Lemma ret_eq {A} (a : A) s : ret a s = (a, s).
Proof. reflexivity. Qed.

(** The state in which the pre-decoder starts on a complete group. *)
Definition group_received (d : v4l2_rds_data) (s : rds_private_state)
    : rds_private_state :=
  set_rds_group zero_group
    (upd_statistics (fun st => set_group_cnt (u32 (group_cnt st + 1)) st)
       (set_rds_data_raw (store (rds_data_raw (set_decode_state RDS_EMPTY s)) 3 d)
          (set_decode_state RDS_EMPTY s))).

Lemma receive_d_unfold d s :
  snd (receive_d d s)
  = snd (rds_decode_group
           (snd (pre_decode (rds_data_raw (group_received d s)) (group_received d s)))).
Proof.
  rewrite pre_decode_unfold.
  unfold receive_d, store_raw, count.
  repeat (rewrite bind_eq; cbv beta).
  rewrite !ret_eq, !gets_eq, !modify_eq, !snd_pair_eq, !fst_pair_eq.
  reflexivity.
Qed.

Lemma receive_d_spec d s :
  let raw := store (rds_data_raw s) 3 d in
  let g := assembled (at_index zero_data raw 0) (at_index zero_data raw 1)
             (at_index zero_data raw 2) (at_index zero_data raw 3) in
  let s' := snd (receive_d d s) in
  decode_state s' = RDS_EMPTY
  /\ rds_data_raw s' = raw
  /\ group_cnt (rds_statistics (handle s'))
     = u32 (group_cnt (rds_statistics (handle s)) + 1)
  /\ (pty (handle s') = pty (handle s) \/ 0 <= pty (handle s') < 32)
  /\ rds_af (handle s')
     = if (group_id g =? 0) && (group_version g =? chr_A)
       then snd (add_af_block_c (data_c_msb g) (data_c_lsb g) (rds_af (handle s)))
       else rds_af (handle s).
Proof.
  intros raw g. cbv zeta. rewrite receive_d_unfold.
  assert (Hr : rds_data_raw (group_received d s) = raw) by reflexivity.
  rewrite Hr. clear Hr.
  assert (H0 : assembler (group_received d s)
               = (RDS_EMPTY, raw, u32 (group_cnt (rds_statistics (handle s)) + 1)))
    by reflexivity.
  assert (H0a : rds_af (handle (group_received d s)) = rds_af (handle s)) by reflexivity.
  assert (H0p : pty (handle (group_received d s)) = pty (handle s)) by reflexivity.
  assert (H0g : rds_group (group_received d s) = zero_group) by reflexivity.
  destruct (pre_decode_spec raw (group_received d s)) as (Hasm & Haf & Hpty & Hgrp).
  remember (group_received d s) as s0 eqn:E0. clear E0.
  pose proof (rds_decode_group_frame (snd (pre_decode raw s0))) as Hf.
  pose proof (rds_decode_group_af (snd (pre_decode raw s0))) as Hg.
  cbv beta in Hf.
  remember (snd (pre_decode raw s0)) as s1 eqn:E1. clear E1.
  remember (snd (rds_decode_group s1)) as s2 eqn:E2. clear E2.
  rewrite H0g in Hgrp.
  rewrite Hgrp, Haf, H0a in Hg.
  rewrite H0p in Hpty.
  rewrite H0 in Hasm.
  unfold assembler in Hf, Hasm.
  injection Hf as Hf1 Hf2 Hf3 Hf4.
  injection Hasm as Hs1 Hs2 Hs3.
  repeat split.
  - congruence.
  - congruence.
  - congruence.
  - rewrite Hf4. exact Hpty.
  - exact Hg.
Qed.

Definition next_state (state : rds_state) (id : Z) : rds_state :=
  match state with
  | RDS_EMPTY => if id =? 0 then RDS_A_RECEIVED else RDS_EMPTY
  | RDS_A_RECEIVED => if id =? 1 then RDS_B_RECEIVED else RDS_EMPTY
  | RDS_B_RECEIVED => if (id =? 2) || (id =? 4) then RDS_C_RECEIVED else RDS_EMPTY
  | RDS_C_RECEIVED => RDS_EMPTY
  end.

(** The raw buffer after a block with id [id] arrived in state [state]. *)
Definition next_raw (state : rds_state) (id : Z) (d : v4l2_rds_data)
    (raw : list v4l2_rds_data) : list v4l2_rds_data :=
  match state with
  | RDS_EMPTY =>
    if id =? 0 then
      let cleared := store (store raw 0 zero_data) 1 zero_data in
      store (store cleared 2
               {| lsb := 0; msb := 0; block := block (at_index zero_data cleared 2) |})
        0 d
    else raw
  | RDS_A_RECEIVED => if id =? 1 then store raw 1 d else raw
  | RDS_B_RECEIVED => if (id =? 2) || (id =? 4) then store raw 2 d else raw
  | RDS_C_RECEIVED => if id =? 3 then store raw 3 d else raw
  end.

(** The call completes a group: block D arrives after blocks A, B and C. *)
Definition completes (s : rds_private_state) (d : v4l2_rds_data) : bool :=
  match decode_state s with
  | RDS_C_RECEIVED => block_id d =? 3
  | _ => false
  end.

(** The effect of one call on the assembler, the programme type and the
    alternative frequencies. *)
Lemma v4l2_rds_add_spec d s :
  let id := block_id d in
  let raw := next_raw (decode_state s) id d (rds_data_raw s) in
  let g := assembled (at_index zero_data raw 0) (at_index zero_data raw 1)
             (at_index zero_data raw 2) (at_index zero_data raw 3) in
  let r := v4l2_rds_add d s in
  decode_state (snd r) = next_state (decode_state s) id
  /\ rds_data_raw (snd r) = raw
  /\ group_cnt (rds_statistics (handle (snd r)))
     = (if completes s d then u32 (group_cnt (rds_statistics (handle s)) + 1)
        else group_cnt (rds_statistics (handle s)))
  /\ (completes s d = false -> fst r = 0)
  /\ (pty (handle (snd r)) = pty (handle s) \/ 0 <= pty (handle (snd r)) < 32)
  /\ rds_af (handle (snd r))
     = if completes s d && (group_id g =? 0) && (group_version g =? chr_A)
       then snd (add_af_block_c (data_c_msb g) (data_c_lsb g) (rds_af (handle s)))
       else rds_af (handle s).
Proof.
  intros id raw g r. subst r g raw. rewrite v4l2_rds_add_unfold, count_block_id.
  fold id. unfold completes. fold id.
  pose proof (count_block_frame d s) as Hf.
  remember (snd (count_block d s)) as s1 eqn:E1. clear E1.
  unfold af_pty in Hf. injection Hf as Hst Hraw Hcnt Haf Hpty _.
  rewrite <- Hst, <- Hraw, <- Hcnt, <- Haf, <- Hpty. clear s Hst Hraw Hcnt Haf Hpty.
  destruct (decode_state s1) eqn:Hs1; cbn [dispatch next_state next_raw andb].
  - destruct (id =? 0); cbn; repeat split; auto.
  - destruct (id =? 1); cbn; repeat split; auto.
  - destruct ((id =? 2) || (id =? 4)); cbn; repeat split; auto.
  - destruct (id =? 3).
    + destruct (receive_d_spec d s1) as (H1 & H2 & H3 & H4 & H5).
      repeat split; auto. discriminate.
    + cbn; repeat split; auto.
Qed.


(** ** Runs from a fresh decoder *)

(** A decoder as [v4l2_rds_create] or [v4l2_rds_reset] leaves it. *)
Inductive fresh : rds_private_state -> Prop :=
| fresh_create is_rbds' : fresh (v4l2_rds_create is_rbds')
| fresh_reset s reset_statistics : fresh (v4l2_rds_reset s reset_statistics).

(** The states a decoder goes through in its life. *)
Inductive reachable : rds_private_state -> Prop :=
| reachable_create is_rbds' : reachable (v4l2_rds_create is_rbds')
| reachable_reset s reset_statistics :
    reachable s -> reachable (v4l2_rds_reset s reset_statistics)
| reachable_add s d : reachable s -> reachable (snd (v4l2_rds_add d s)).

Lemma run_snoc s bs d : run s (bs ++ [d]) = snd (v4l2_rds_add d (run s bs)).
Proof. unfold run. rewrite fold_left_app. reflexivity. Qed.

Lemma masks_snoc s bs d :
  masks s (bs ++ [d]) = masks s bs ++ [fst (v4l2_rds_add d (run s bs))].
Proof.
  revert s. induction bs as [|b bs IH]; intros s.
  - reflexivity.
  - cbn [masks app]. rewrite IH. reflexivity.
Qed.

(** What a reset leaves of the decoder, the variant flag and the statistics
    apart. *)
Definition blank (s : rds_private_state) : Prop :=
  decode_state s = RDS_EMPTY
  /\ rds_data_raw s = replicate 4 zero_data
  /\ rds_af (handle s)
     = {| af_size := 0; announced_af := 0; af := replicate MAX_AF_CNT 0 |}
  /\ pty (handle s) = 0.

Lemma fresh_blank s : fresh s -> blank s.
Proof.
  intros [is_rbds'|s' [|]]; repeat split.
Qed.

(** *** The block assembler *)

(** Four blocks that make a group: ids A, B, C or C', D, none of them
    flagged as uncorrectable. *)
Definition is_group (a b c d : v4l2_rds_data) : bool :=
  (block_id a =? 0) && (block_id b =? 1)
  && ((block_id c =? 2) || (block_id c =? 4)) && (block_id d =? 3).

(** Some four consecutive blocks of [bs] satisfy [p]. *)
Fixpoint some_window (p : v4l2_rds_data -> v4l2_rds_data -> v4l2_rds_data ->
                          v4l2_rds_data -> bool)
    (bs : list v4l2_rds_data) : bool :=
  match bs with
  | [] => false
  | a :: tl =>
    match tl with
    | b :: c :: d :: _ => p a b c d
    | _ => false
    end || some_window p tl
  end.

Definition has_group : list v4l2_rds_data -> bool := some_window is_group.

Lemma some_window_app_l p l1 l2 :
  some_window p (l1 ++ l2) = false -> some_window p l1 = false.
Proof.
  induction l1 as [|a l1 IH]; [reflexivity|].
  cbn [some_window app]. intros Hw.
  apply orb_false_iff in Hw as [Hw1 Hw2].
  rewrite (IH Hw2), orb_false_r.
  destruct l1 as [|b [|c [|d l1]]]; try reflexivity. exact Hw1.
Qed.

Lemma some_window_end p pre a b c d :
  some_window p (pre ++ [a; b; c; d]) = false -> p a b c d = false.
Proof.
  induction pre as [|x pre IH]; cbn [some_window app]; intros Hw;
    apply orb_false_iff in Hw as [Hw1 Hw2].
  - exact Hw1.
  - apply IH, Hw2.
Qed.

(** The assembler's state tells which blocks came last, and the raw buffer
    holds them. *)
Definition assembling (bs : list v4l2_rds_data) (s : rds_private_state) : Prop :=
  length (rds_data_raw s) = 4%nat
  /\ match decode_state s with
     | RDS_EMPTY => True
     | RDS_A_RECEIVED =>
       exists pre a, bs = pre ++ [a] /\ block_id a = 0
                     /\ at_index zero_data (rds_data_raw s) 0 = a
     | RDS_B_RECEIVED =>
       exists pre a b, bs = pre ++ [a; b] /\ block_id a = 0 /\ block_id b = 1
                       /\ at_index zero_data (rds_data_raw s) 0 = a
                       /\ at_index zero_data (rds_data_raw s) 1 = b
     | RDS_C_RECEIVED =>
       exists pre a b c, bs = pre ++ [a; b; c] /\ block_id a = 0 /\ block_id b = 1
                         /\ (block_id c = 2 \/ block_id c = 4)
                         /\ at_index zero_data (rds_data_raw s) 0 = a
                         /\ at_index zero_data (rds_data_raw s) 1 = b
                         /\ at_index zero_data (rds_data_raw s) 2 = c
     end.

Lemma four_blocks (raw : list v4l2_rds_data) :
  length raw = 4%nat -> exists r0 r1 r2 r3, raw = [r0; r1; r2; r3].
Proof.
  destruct raw as [|r0 [|r1 [|r2 [|r3 [|]]]]]; try discriminate. eauto.
Qed.

Lemma assembling_step bs s d :
  assembling bs s -> assembling (bs ++ [d]) (snd (v4l2_rds_add d s)).
Proof.
  intros [Hlen Hinv].
  destruct (v4l2_rds_add_spec d s) as (Hst & Hraw & _).
  destruct (four_blocks _ Hlen) as (r0 & r1 & r2 & r3 & Eraw).
  unfold assembling. rewrite Hst, Hraw, Eraw in *. clear Hst Hraw Eraw Hlen.
  destruct (decode_state s); cbn [next_state next_raw].
  - destruct (Z.eqb_spec (block_id d) 0) as [Hid|Hid]; split; try reflexivity; try exact I.
    exists bs, d. auto.
  - destruct Hinv as (pre & a & -> & Ha & Ea).
    destruct (Z.eqb_spec (block_id d) 1) as [Hid|Hid]; split; try reflexivity; try exact I.
    exists pre, a, d. rewrite <- app_assoc. auto.
  - destruct Hinv as (pre & a & b & -> & Ha & Hb & Ea & Eb).
    destruct ((block_id d =? 2) || (block_id d =? 4)) eqn:Hid;
      split; try reflexivity; try exact I.
    exists pre, a, b, d. rewrite <- app_assoc.
    apply orb_true_iff in Hid as [Hid|Hid]; apply Z.eqb_eq in Hid; auto 10.
  - destruct (block_id d =? 3); split; try reflexivity; exact I.
Qed.

Lemma assembling_run s bs : blank s -> assembling bs (run s bs).
Proof.
  intros (Hst & Hraw & _).
  induction bs as [|d bs IH] using rev_ind.
  - split; cbn [run fold_left]; [rewrite Hraw; reflexivity | rewrite Hst; exact I].
  - rewrite run_snoc. apply assembling_step, IH.
Qed.

Lemma completes_group bs s d :
  assembling bs s -> completes s d = true ->
  exists pre a b c,
    bs = pre ++ [a; b; c] /\ is_group a b c d = true
    /\ at_index zero_data (rds_data_raw s) 0 = a
    /\ at_index zero_data (rds_data_raw s) 1 = b
    /\ at_index zero_data (rds_data_raw s) 2 = c.
Proof.
  intros [Hlen Hinv]. unfold completes.
  destruct (decode_state s); try discriminate. intros Hd.
  destruct Hinv as (pre & a & b & c & -> & Ha & Hb & Hc & Ea & Eb & Ec).
  exists pre, a, b, c. repeat split; auto.
  unfold is_group. rewrite Ha, Hb, Hd. cbn.
  destruct Hc as [-> | ->]; reflexivity.
Qed.


(** *** Alternative frequencies *)

(** The set is well formed: the counts are in range and the used entries
    are pairwise different. *)
Definition af_ok (afs : v4l2_rds_af_set) : Prop :=
  0 <= af_size afs <= Z.of_nat MAX_AF_CNT
  /\ 0 <= announced_af afs < 256
  /\ length (af afs) = MAX_AF_CNT
  /\ NoDup (take (Z.to_nat (af_size afs)) (af afs)).

Lemma existsb_eqb_false (x : Z) (l : list Z) :
  existsb (fun f => f =? x) l = false -> x ∉ l.
Proof.
  intros He Hin. apply list_elem_of_In in Hin.
  assert (existsb (fun f => f =? x) l = true); [|congruence].
  apply existsb_exists. exists x. split; [exact Hin | apply Z.eqb_refl].
Qed.

Lemma rds_add_af_to_list_spec afs code vhf :
  af_ok afs ->
  let r := snd (rds_add_af_to_list afs code vhf) in
  af_ok r /\ announced_af r = announced_af afs
  /\ af_size afs <= af_size r
     <= Z.max (af_size afs) (Z.min (Z.of_nat MAX_AF_CNT) (announced_af afs)).
Proof.
  intros (Hsize & Hann & Hlen & Hnd). unfold rds_add_af_to_list. cbv zeta.
  assert (Hsame : af_ok afs /\ announced_af afs = announced_af afs
                  /\ af_size afs <= af_size afs
                     <= Z.max (af_size afs)
                          (Z.min (Z.of_nat MAX_AF_CNT) (announced_af afs))).
  { repeat split; auto; lia. }
  destruct (code =? 0); [exact Hsame|].
  match goal with |- context [if ?c then _ else _] => destruct c eqn:Hfull end;
    [exact Hsame|].
  match goal with |- context [if ?c then _ else _] => destruct c eqn:Hdup end;
    [exact Hsame|].
  apply orb_false_iff in Hfull as [Hmax Hannounced].
  rewrite Z.geb_leb in Hmax, Hannounced.
  apply Z.leb_gt in Hmax, Hannounced.
  cbn [snd af_size announced_af af].
  assert (Hu8 : u8 (af_size afs + 1) = af_size afs + 1)
    by (apply Z.mod_small; lia).
  rewrite Hu8. unfold af_ok. cbn [af_size announced_af af].
  assert (Hn : (Z.to_nat (af_size afs) < length (af afs))%nat) by lia.
  repeat split; try lia.
  - unfold store. rewrite length_insert. exact Hlen.
  - replace (Z.to_nat (af_size afs + 1)) with (S (Z.to_nat (af_size afs))) by lia.
    unfold store.
    rewrite (take_S_r _ _ _ (list_lookup_insert_eq _ _ _ Hn)).
    rewrite take_insert_ge by lia.
    apply NoDup_app. split; [exact Hnd|]. split; [|apply NoDup_singleton].
    intros x Hx Hx'. apply list_elem_of_singleton in Hx'. subst x.
    revert Hx. apply existsb_eqb_false, Hdup.
Qed.

(** While no more frequencies are announced than the set holds, every
    candidate is rejected. *)
Lemma rds_add_af_to_list_rejects afs code vhf :
  announced_af afs <= af_size afs ->
  rds_add_af_to_list afs code vhf = (false, afs).
Proof.
  intros Hle. unfold rds_add_af_to_list. cbv zeta.
  destruct (code =? 0); [reflexivity|].
  assert (Hge : (af_size afs >=? announced_af afs) = true) by (apply Z.geb_le; lia).
  rewrite Hge, orb_true_r. reflexivity.
Qed.

Lemma optional_add_spec (b : bool) afs code :
  af_ok afs ->
  let r := if b then snd (rds_add_af_to_list afs code true) else afs in
  af_ok r /\ announced_af r = announced_af afs
  /\ af_size afs <= af_size r
     <= Z.max (af_size afs) (Z.min (Z.of_nat MAX_AF_CNT) (announced_af afs)).
Proof.
  intros Hok. destruct b; cbv zeta.
  - apply rds_add_af_to_list_spec, Hok.
  - split; [exact Hok|]. split; [reflexivity|]. lia.
Qed.

Lemma add_af_block_c_spec c_msb c_lsb afs :
  af_ok afs ->
  let r := snd (add_af_block_c c_msb c_lsb afs) in
  af_ok r
  /\ af_size afs <= af_size r
     <= Z.max (af_size afs) (Z.min (Z.of_nat MAX_AF_CNT) (announced_af r)).
Proof.
  intros Hok. unfold add_af_block_c. cbv zeta.
  destruct (Z.eqb_spec c_msb 250) as [->|Hne].
  - (* an LF/MF frequency: no announcement, no VHF code in the msb *)
    cbn [Z.geb Z.leb Z.ltb Z.compare Pos.compare Pos.compare_cont andb fst snd].
    destruct (rds_add_af_to_list_spec afs c_lsb false Hok) as (Hok1 & Ha1 & Hs1).
    destruct (rds_add_af_to_list_spec (snd (rds_add_af_to_list afs c_lsb false)) 0 true Hok1)
      as (Hok2 & Ha2 & Hs2).
    cbn [Z.ltb Z.compare fst snd].
    split; [exact Hok2|]. rewrite Ha2. rewrite Ha1 in *. lia.
  - cbv beta iota zeta.
    set (afs1 := if (c_msb >=? 224) && (c_msb <=? 249)
                 then set_announced_af (u8 (c_msb - 224)) afs else afs).
    assert (Hok1 : af_ok afs1 /\ af_size afs1 = af_size afs).
    { subst afs1. destruct ((c_msb >=? 224) && (c_msb <=? 249)); [|auto].
      destruct Hok as (? & ? & ? & ?). unfold af_ok. cbn.
      repeat split; auto; try lia; apply Z.mod_pos_bound; lia. }
    destruct Hok1 as [Hok1 Hsz1]. clearbody afs1.
    destruct (optional_add_spec (c_msb <? 205) afs1 c_msb Hok1) as (Hok2 & Ha2 & Hs2).
    set (afs2 := if c_msb <? 205 then _ else _) in Hok2, Ha2, Hs2.
    destruct (optional_add_spec (c_lsb <? 205) afs2 c_lsb Hok2) as (Hok3 & Ha3 & Hs3).
    set (afs3 := if c_lsb <? 205 then _ else _) in Hok3, Ha3, Hs3.
    match goal with
    | |- af_ok ?t /\ _ => assert (E : t = afs3)
    end.
    { subst afs3 afs2. destruct (c_msb <? 205), (c_lsb <? 205); reflexivity. }
    rewrite E. split; [exact Hok3|]. lia.
Qed.

Lemma add_af_block_c_empty c_msb c_lsb afs :
  announced_af afs <= af_size afs ->
  (c_msb >=? 224) && (c_msb <=? 249) = false ->
  snd (add_af_block_c c_msb c_lsb afs) = afs.
Proof.
  intros Hle Hrange. unfold add_af_block_c. cbv zeta.
  rewrite Hrange.
  rewrite !(rds_add_af_to_list_rejects afs _ _ Hle).
  destruct (c_msb =? 250), (c_msb <? 205), (c_lsb <? 205); cbn;
    rewrite ?(rds_add_af_to_list_rejects afs _ _ Hle); reflexivity.
Qed.

(** The group a completing call decodes is the one made of the last four
    blocks. *)
Lemma completes_assembled bs s d :
  assembling bs s -> completes s d = true ->
  exists pre a b c,
    bs = pre ++ [a; b; c] /\ is_group a b c d = true
    /\ (let raw := next_raw (decode_state s) (block_id d) d (rds_data_raw s) in
        assembled (at_index zero_data raw 0) (at_index zero_data raw 1)
          (at_index zero_data raw 2) (at_index zero_data raw 3))
       = assembled a b c d.
Proof.
  intros Hasm Hc.
  destruct (completes_group bs s d Hasm Hc) as (pre & a & b & c & E & Hg & Ea & Eb & Ec).
  exists pre, a, b, c. split; [exact E|]. split; [exact Hg|].
  destruct Hasm as [Hlen _].
  destruct (four_blocks _ Hlen) as (r0 & r1 & r2 & r3 & Eraw).
  unfold completes in Hc. rewrite Eraw in *.
  destruct (decode_state s); try discriminate.
  cbn [next_raw]. rewrite Hc. cbv zeta.
  change (at_index zero_data (store [r0; r1; r2; r3] 3 d) 0) with r0.
  change (at_index zero_data (store [r0; r1; r2; r3] 3 d) 1) with r1.
  change (at_index zero_data (store [r0; r1; r2; r3] 3 d) 2) with r2.
  change (at_index zero_data (store [r0; r1; r2; r3] 3 d) 3) with d.
  change (at_index zero_data [r0; r1; r2; r3] 0) with r0 in Ea.
  change (at_index zero_data [r0; r1; r2; r3] 1) with r1 in Eb.
  change (at_index zero_data [r0; r1; r2; r3] 2) with r2 in Ec.
  subst. reflexivity.
Qed.

(** Four blocks that make a 0A group whose block C announces the number of
    alternative frequencies: its msb lies in 224..249. *)
Definition announces_af (a b c d : v4l2_rds_data) : bool :=
  is_group a b c d
  && (group_id (assembled a b c d) =? 0)
  && (group_version (assembled a b c d) =? chr_A)
  && ((msb c >=? 224) && (msb c <=? 249)).

Definition has_af_announcement : list v4l2_rds_data -> bool :=
  some_window announces_af.

Lemma af_set_untouched s0 bs :
  blank s0 -> has_af_announcement bs = false ->
  rds_af (handle (run s0 bs)) = rds_af (handle s0).
Proof.
  intros Hblank. pose proof (assembling_run s0 bs Hblank) as Hasm. revert Hasm.
  induction bs as [|d bs IH] using rev_ind; intros Hasm Hw; [reflexivity|].
  pose proof (assembling_run s0 bs Hblank) as Hasm'.
  specialize (IH Hasm' (some_window_app_l _ _ _ Hw)).
  rewrite run_snoc.
  destruct (v4l2_rds_add_spec d (run s0 bs)) as (_ & _ & _ & _ & _ & Haf).
  rewrite Haf, IH. clear Haf.
  destruct (completes (run s0 bs) d) eqn:Hc; [|reflexivity].
  destruct (completes_assembled _ _ _ Hasm' Hc) as (pre & a & b & c & E & Hg & Eg).
  cbv zeta in Eg. rewrite Eg. clear Eg.
  rewrite E, <- app_assoc in Hw. apply some_window_end in Hw.
  unfold announces_af in Hw. rewrite Hg in Hw.
  cbn [andb] in *.
  destruct (group_id (assembled a b c d) =? 0); [|reflexivity].
  destruct (group_version (assembled a b c d) =? chr_A); [|reflexivity].
  cbn [andb] in *.
  apply add_af_block_c_empty; [|exact Hw].
  destruct Hblank as (_ & _ & -> & _). reflexivity.
Qed.

(** C9.  As long as no 0A group with an announcement of the number of
    alternative frequencies (block C msb in 224..249) was completed since the
    creation or the last reset, the set of alternative frequencies is empty
    and announces none, and every candidate frequency is rejected. *)
Theorem af_set_empty_without_announcement s0 bs :
  fresh s0 -> has_af_announcement bs = false ->
  let afs := rds_af (handle (run s0 bs)) in
  af_size afs = 0 /\ announced_af afs = 0
  /\ forall code is_vhf, rds_add_af_to_list afs code is_vhf = (false, afs).
Proof.
  intros Hfresh Hw. apply fresh_blank in Hfresh. cbv zeta.
  rewrite (af_set_untouched s0 bs Hfresh Hw).
  destruct Hfresh as (_ & _ & -> & _). cbn [af_size announced_af].
  repeat split. intros code is_vhf.
  apply rds_add_af_to_list_rejects. cbn. lia.
Qed.

(** *** Programme type *)



(** *** The set of alternative frequencies *)

Lemma reachable_af_ok s : reachable s -> af_ok (rds_af (handle s)).
Proof.
  assert (Hzero : af_ok {| af_size := 0; announced_af := 0;
                           af := replicate MAX_AF_CNT 0 |}).
  { unfold af_ok. cbn [af_size announced_af af]. rewrite length_replicate.
    repeat split; try lia. cbn. apply NoDup_nil_2. }
  induction 1 as [is_rbds'|s [|] _ _|s d _ IH]; try exact Hzero.
  destruct (v4l2_rds_add_spec d s) as (_ & _ & _ & _ & _ & ->).
  match goal with |- af_ok (if ?c then _ else _) => destruct c end;
    [apply add_af_block_c_spec, IH | exact IH].
Qed.

(** C7 (amended).  In every reachable state the used entries of the set of
    alternative frequencies are pairwise different and there are at most
    MAX_AF_CNT of them; a call of add makes the set grow only up to
    min(MAX_AF_CNT, announced count), the announced count being the one in
    force after the call: a set that is larger already keeps its size. *)
Theorem af_set_no_duplicates_bounded_growth s :
  reachable s ->
  let afs := rds_af (handle s) in
  NoDup (take (Z.to_nat (af_size afs)) (af afs))
  /\ 0 <= af_size afs <= Z.of_nat MAX_AF_CNT
  /\ forall d,
       let afs' := rds_af (handle (snd (v4l2_rds_add d s))) in
       af_size afs <= af_size afs'
       <= Z.max (af_size afs) (Z.min (Z.of_nat MAX_AF_CNT) (announced_af afs')).
Proof.
  intros Hr. pose proof (reachable_af_ok s Hr) as Hok. cbv zeta.
  split; [apply Hok|]. split; [apply Hok|].
  intros d. destruct (v4l2_rds_add_spec d s) as (_ & _ & _ & _ & _ & ->).
  match goal with |- context [if ?c then _ else _] => destruct c end.
  - apply add_af_block_c_spec, Hok.
  - lia.
Qed.

(** *** Two facts on the helpers, for every input *)

(** An accepted LF/MF code is stored as 152000 + code * 9000 Hz, whatever
    the code: the test [freq <= 15] reads the frequency, which is still 0. *)
Lemma rds_add_af_to_list_lf_mf afs code :
  fst (rds_add_af_to_list afs code false) = true ->
  snd (rds_add_af_to_list afs code false)
  = {| af_size := u8 (af_size afs + 1);
       announced_af := announced_af afs;
       af := store (af afs) (af_size afs) (u32 (152000 + code * 9000)) |}.
Proof.
  unfold rds_add_af_to_list. cbv zeta.
  destruct (code =? 0); [discriminate|].
  change (0 <=? 15) with true. cbv iota.
  destruct (_ || _); [discriminate|].
  destruct (existsb _ _); [discriminate|]. reflexivity.
Qed.

(** With an announcement in the set, [rds_add_oda] appends nothing. *)
Lemma rds_add_oda_nonempty new_oda s :
  0 < oda_size (rds_oda (handle s)) ->
  fst (rds_add_oda new_oda s) = false
  /\ oda_size (rds_oda (handle (snd (rds_add_oda new_oda s))))
     = oda_size (rds_oda (handle s)).
Proof.
  intros Hpos. unfold rds_add_oda.
  rewrite bind_eq, gets_eq, fst_pair_eq, snd_pair_eq.
  assert (Hlt : (0 <? oda_size (rds_oda (handle s))) = true) by (apply Z.ltb_lt; lia).
  rewrite Hlt.
  destruct (oda_group_id (at_index zero_oda (oda (rds_oda (handle s))) 0)
            =? oda_group_id new_oda); split; reflexivity.
Qed.

End Frames.

(** ** The decoder with the constants of libv4l2rds.h *)

Section Upstream.

#[local] Existing Instance libv4l2rds_h.

Context `{automatic : Stack}.

(** A received block with id [id] and the bytes [m] (msb) and [l] (lsb). *)
Definition blk (id m l : Z) : v4l2_rds_data := {| lsb := l; msb := m; block := id |}.

(** The four blocks of a group, A to D, each given by its msb and lsb. *)
Definition grp (am al bm bl cm cl dm dl : Z) : list v4l2_rds_data :=
  [blk 0 am al; blk 1 bm bl; blk 2 cm cl; blk 3 dm dl].

(** *** Additional TMC fields, read as a bit array

    The reading of the optional slots the specification gives: the used 28
    bits of each slot, msb first, form one bit array; a 4-bit label and the
    data bits of the length the label stands for are read from it in turn,
    until a read needs more bits than the slots hold. *)

(** The used 28 bits of a slot: bits 31 down to 4. *)
Definition slot_bits (w : Z) : list bool :=
  map (fun i => Z.testbit w (31 - Z.of_nat i)) (seq 0 28).

Definition bit_array (slots : list Z) (length : Z) : list bool :=
  concat (map slot_bits (take (Z.to_nat length) slots)).

Definition bits_value (bits : list bool) : Z :=
  fold_left (fun acc (b : bool) => 2 * acc + (if b then 1 else 0)) bits 0.

(** Reads [n] bits; [None] when fewer are left. *)
Definition read_bits (n : Z) (bits : list bool) : option (Z * list bool) :=
  if Z.of_nat (length bits) <? n then None
  else Some (bits_value (take (Z.to_nat n) bits), drop (Z.to_nat n) bits).

Fixpoint read_additional (fuel : nat) (bits : list bool) : list v4l2_tmc_additional :=
  match fuel with
  | O => []
  | S fuel' =>
    match read_bits 4 bits with
    | None => []
    | Some (label, rest) =>
      match read_bits (at_index 0 additional_lut label) rest with
      | None => []
      | Some (data, rest') =>
        if label =? 15 then read_additional fuel' rest'
        else {| label := label; data := data |} :: read_additional fuel' rest'
      end
    end
  end.

(** The additional fields by the words of the specification; every step
    reads at least the four bits of a label, so the number of bits is fuel
    enough. *)
Definition additional_fields_spec (slots : list Z) (length : Z)
    : list v4l2_tmc_additional :=
  let bits := bit_array slots length in
  read_additional (List.length bits) bits.

(** The additional fields the decoder published. *)
Definition additional_fields_published (s : rds_private_state)
    : list v4l2_tmc_additional :=
  let set := additional (tmc_msg (tmc (handle s))) in
  take (Z.to_nat (add_size set)) (fields set).

(** *** Runs on concrete blocks *)

(** Two groups with the programme identification 0x1111, then one with 0x2222,
    one with 0x1111 and one with 0x2222 again. *)
Definition pi_1111 : list v4l2_rds_data := grp 0x11 0x11 0 0 0xE0 0 0 0.
Definition pi_2222 : list v4l2_rds_data := grp 0x22 0x22 0 0 0xE0 0 0 0.

(** C1.  The programme identification 0x2222 is stored in the snapshot by its
    second reception although 0x1111, a differing value, was received between
    the two: after 0x1111 is accepted, the groups with 0x2222, 0x1111, 0x2222
    make the decoder accept 0x2222, and the call that completes the last
    group reports the update. *)
Theorem pi_accepted_after_interleaved_receptions :
  let s0 := v4l2_rds_create false in
  let before := pi_1111 ++ pi_1111 ++ pi_2222 ++ pi_1111 in
  pi (handle (run s0 (pi_1111 ++ pi_1111))) = 0x1111
  /\ pi (handle (run s0 (pi_1111 ++ pi_1111 ++ pi_2222))) = 0x1111
  /\ new_pi (run s0 (pi_1111 ++ pi_1111 ++ pi_2222)) = 0x2222
  /\ pi (handle (run s0 before)) = 0x1111
  /\ new_pi (run s0 before) = 0x2222
  /\ last (masks s0 (before ++ pi_2222)) = Some V4L2_RDS_PI
  /\ pi (handle (run s0 (before ++ pi_2222))) = 0x2222.
Proof. vm_compute. repeat split. Qed.

(** A multi-group TMC message of two 8A groups with continuity index 1, each
    group sent twice: the first group, then the second and last one, whose
    slot holds the bits 1001 00000000101 0101 00000011 0. *)
Definition tmc_first : list v4l2_rds_data := grp 0x12 0x34 0x80 0x01 0x80 0x10 0x20 0x30.
Definition tmc_second : list v4l2_rds_data := grp 0x12 0x34 0x80 0x01 0x49 0x00 0xAA 0x06.
Definition tmc_message : list v4l2_rds_data :=
  tmc_first ++ tmc_first ++ tmc_second ++ tmc_second.

(** C3.  For the completed multi-group message [tmc_message] the decoder
    publishes one additional field, label 9 with data 16, where the bit array
    read as the specification says holds two: label 9 with data 5 and label 5
    with data 3. *)
Theorem tmc_additional_fields_differ_from_bit_array :
  let s := run (v4l2_rds_create false) tmc_message in
  valid_fields (handle s) .& V4L2_RDS_TMC_MG = V4L2_RDS_TMC_MG
  /\ msg_length (tmc_msg (tmc (handle s))) = 1
  /\ optional_tmc s = [0x900AA060; 0; 0; 0]
  /\ additional_fields_published s = [{| label := 9; data := 16 |}]
  /\ additional_fields_spec (optional_tmc s) (msg_length (tmc_msg (tmc (handle s))))
     = [{| label := 9; data := 5 |}; {| label := 5; data := 3 |}].
Proof. vm_compute. repeat split. Qed.

(** A 4A group: day 60000 of the modified Julian calendar, 10:00 UTC, local
    offset +2 half-hours. *)
Definition clock_time : list v4l2_rds_data := grp 0x12 0x34 0x40 0x01 0xD4 0xC0 0xA0 0x02.

(** C4.  After the 4A group [clock_time] is received twice, the published
    local time is 14:00 with an offset of 14400 seconds to UTC: the offset of
    two half-hours is added as four hours, not as one. *)
Theorem local_time_offset_counts_hours :
  let s := run (v4l2_rds_create false) (clock_time ++ clock_time) in
  valid_fields (handle s) .& V4L2_RDS_TIME = V4L2_RDS_TIME
  /\ new_mjd s = 60000
  /\ (utc_hour s, utc_minute s, utc_offset s) = (10, 0, 2)
  /\ tm_hour (time (handle s)) = 14
  /\ tm_min (time (handle s)) = 0
  /\ tm_gmtoff (time (handle s)) = 14400.
Proof. vm_compute. repeat split. Qed.

(** Two 0A groups: the first announces two alternative frequencies, the
    second carries the LF/MF code 100 (block C msb 250). *)
Definition af_announce_2 : list v4l2_rds_data := grp 0x12 0x34 0 0 0xE2 0 0 0.
Definition af_lf_mf_100 : list v4l2_rds_data := grp 0x12 0x34 0 0 250 100 0 0.

(** C5.  The LF/MF code 100, above 15, is added as 152000 + 100 * 9000 Hz and
    not as 531000 + 100 * 9000 Hz. *)
Theorem lf_mf_frequency_uses_low_band_base :
  let afs := rds_af (handle (run (v4l2_rds_create false)
                               (af_announce_2 ++ af_lf_mf_100))) in
  af_size afs = 1
  /\ at_index 0 (af afs) 0 = 152000 + 100 * 9000
  /\ fst (rds_add_af_to_list
            {| af_size := 0; announced_af := 2; af := replicate MAX_AF_CNT 0 |}
            100 false) = true.
Proof. vm_compute. repeat split. Qed.

(** Two 3A groups: the first announces the application 0xCD46 for the groups
    5A, the second the application 0x4BD7 for the groups 6A. *)
Definition oda_5A : list v4l2_rds_data := grp 0x12 0x34 0x30 0x0A 0 0 0xCD 0x46.
Definition oda_6A : list v4l2_rds_data := grp 0x12 0x34 0x30 0x0C 0 0 0x4B 0xD7.

(** C6.  With one announcement in the set, the announcement for another
    group id is not appended although the set holds fewer than MAX_ODA_CNT
    entries: the set is the same before and after the second group. *)
Theorem oda_not_appended_after_first_entry :
  let s1 := run (v4l2_rds_create false) oda_5A in
  let s2 := run s1 oda_6A in
  oda_size (rds_oda (handle s1)) = 1
  /\ at_index zero_oda (oda (rds_oda (handle s1))) 0
     = {| oda_group_id := 5; oda_group_version := chr_A; aid := 0xCD46 |}
  /\ existsb (fun o => oda_group_id o =? 6)
       (take (Z.to_nat (oda_size (rds_oda (handle s1)))) (oda (rds_oda (handle s1))))
     = false
  /\ (oda_size (rds_oda (handle s1)) <? Z.of_nat MAX_ODA_CNT) = true
  /\ rds_oda (handle s2) = rds_oda (handle s1).
Proof. vm_compute. repeat split. Qed.

(** Three 0A groups: the first announces three frequencies and carries one,
    the second carries two more, the third announces one frequency. *)
Definition af_shrinking : list v4l2_rds_data :=
  grp 0x12 0x34 0 0 0xE3 1 0 0 ++ grp 0x12 0x34 0 0 2 3 0 0
  ++ grp 0x12 0x34 0 0 0xE1 1 0 0.


End Upstream.

(** * Further properties of the decoder *)

(** ** The names of the codes *)

(** The language codes the table names: 1..43 and 69..127. *)
Definition language_defined (lc' : Z) : bool :=
  ((1 <=? lc') && (lc' <=? 43)) || ((69 <=? lc') && (lc' <=? 127)).

Definition language_entry_ok (i : nat) : bool :=
  match rds_language_lut (Z.of_nat i) with
  | Some name =>
    if language_defined (Z.of_nat i) then negb (name =? "Unknown")%string
    else (name =? "Unknown")%string
  | None => false
  end.

Lemma language_table_ok : forallb language_entry_ok (seq 0 128) = true.
Proof. vm_compute. reflexivity. Qed.

(** X1.  [v4l2_rds_get_language_str] never returns the null pointer: it
    returns a name other than Unknown for the codes 1..43 and 69..127, and
    Unknown for the code 0, for the undefined entries 44..68 of the table and
    for every code above 127. *)
Theorem language_str_never_null (handle : v4l2_rds) :
  exists name,
    v4l2_rds_get_language_str handle = Some name
    /\ (language_defined (lc handle) = true <-> name <> "Unknown"%string).
Proof.
  unfold v4l2_rds_get_language_str.
  destruct (Z_lt_le_dec (lc handle) 0) as [Hneg|Hpos].
  - exists "Unknown"%string. split.
    + unfold rds_language_lut, at_index. cbv zeta.
      assert (Hgt : (lc handle >? 127) = false) by (rewrite Z.gtb_ltb; apply Z.ltb_ge; lia).
      rewrite Hgt. rewrite Z2Nat.nonpos by lia. reflexivity.
    + unfold language_defined. split; [|congruence].
      intros Hd. apply orb_true_iff in Hd as [Hd|Hd];
        apply andb_true_iff in Hd as [Hd _]; apply Z.leb_le in Hd; lia.
  - destruct (Z_le_gt_dec (lc handle) 127) as [Hle|Hgt].
    + pose proof language_table_ok as Htab.
      rewrite forallb_forall in Htab.
      specialize (Htab (Z.to_nat (lc handle))).
      unfold language_entry_ok in Htab. rewrite Z2Nat.id in Htab by lia.
      assert (Hin : In (Z.to_nat (lc handle)) (seq 0 128)) by (apply in_seq; lia).
      specialize (Htab Hin).
      destruct (rds_language_lut (lc handle)) as [name|]; [|discriminate].
      exists name. split; [reflexivity|].
      destruct (language_defined (lc handle)).
      * apply negb_true_iff, String.eqb_neq in Htab. split; [intros _; exact Htab | reflexivity].
      * apply String.eqb_eq in Htab. split; [discriminate | congruence].
    + exists "Unknown"%string. split.
      * unfold rds_language_lut. cbv zeta.
        assert (Hgt' : (lc handle >? 127) = true) by (rewrite Z.gtb_ltb; apply Z.ltb_lt; lia).
        rewrite Hgt'. reflexivity.
      * unfold language_defined. split; [|congruence].
        intros Hd. apply orb_true_iff in Hd as [Hd|Hd];
          apply andb_true_iff in Hd as [_ Hd]; apply Z.leb_le in Hd; lia.
Qed.

Lemma low_nibble x : 0 <= u8 (x .& 0x0f) < 16.
Proof.
  change 0x0f with (Z.ones 4). rewrite Z.land_ones by lia.
  assert (0 <= x mod 2 ^ 4 < 2 ^ 4) by (apply Z.mod_pos_bound; lia).
  unfold u8. rewrite Z.mod_small; lia.
Qed.

(** X2.  [v4l2_rds_get_coverage_str] never returns the null pointer: the
    index into the table of sixteen names is masked to four bits, whatever
    the PI. *)
Theorem coverage_str_never_null (handle : v4l2_rds) :
  exists name, v4l2_rds_get_coverage_str handle = Some name.
Proof.
  unfold v4l2_rds_get_coverage_str. cbv zeta.
  pose proof (low_nibble (pi handle >> 8)) as Hidx.
  apply (lookup_lt_is_Some_2 coverage_lut). change (length coverage_lut) with 16%nat. lia.
Qed.

(** X3.  [v4l2_rds_get_country_str] knows the European extended country
    codes E0..E4 alone: for every other code it returns Unknown; for the
    codes E0..E4 it returns the null pointer when the country code, bits
    12-15 of the PI, is 0. *)
Theorem country_str_unknown_or_null (handle : v4l2_rds) :
  0 <= ecc handle < 256 -> 0 <= pi handle < 65536 ->
  (~ (0xE0 <= ecc handle <= 0xE4) ->
   v4l2_rds_get_country_str handle = Some "Unknown"%string)
  /\ (0xE0 <= ecc handle <= 0xE4 -> pi handle < 0x1000 ->
      v4l2_rds_get_country_str handle = None).
Proof.
  intros Hecc Hpi. unfold v4l2_rds_get_country_str. cbv zeta.
  assert (Hh : u8 (ecc handle >> 4) = ecc handle / 16).
  { rewrite Z.shiftr_div_pow2 by lia. change (2 ^ 4) with 16.
    unfold u8. apply Z.mod_small.
    split; [apply Z.div_pos; lia | apply Z.div_lt_upper_bound; lia]. }
  assert (Hl : u8 (ecc handle .& 0x0f) = ecc handle mod 16).
  { change 0x0f with (Z.ones 4). rewrite Z.land_ones by lia. change (2 ^ 4) with 16.
    unfold u8. apply Z.mod_small.
    assert (0 <= ecc handle mod 16 < 16) by (apply Z.mod_pos_bound; lia). lia. }
  rewrite Hh, Hl.
  pose proof (Z.div_mod (ecc handle) 16 ltac:(lia)) as Hdm.
  assert (Hm : 0 <= ecc handle mod 16 < 16) by (apply Z.mod_pos_bound; lia).
  split.
  - intros Hout.
    destruct (Z.eqb_spec (ecc handle / 16) 0x0e) as [He|He]; [|reflexivity].
    destruct (Z.leb_spec (ecc handle mod 16) 0x04) as [Hle|Hle]; [|reflexivity].
    exfalso. apply Hout. lia.
  - intros Hin Hcc.
    assert (He : ecc handle / 16 = 0x0e) by lia.
    assert (Hle : ecc handle mod 16 <= 4) by lia.
    rewrite He. apply Z.leb_le in Hle as Hle'. rewrite Hle'. cbn [Z.eqb Pos.eqb andb].
    assert (Hc : u8 (pi handle >> 12) = 0).
    { rewrite Z.shiftr_div_pow2 by lia. rewrite Z.div_small by lia. reflexivity. }
    rewrite Hc.
    assert (Hcases : ecc handle mod 16 = 0 \/ ecc handle mod 16 = 1
                     \/ ecc handle mod 16 = 2 \/ ecc handle mod 16 = 3
                     \/ ecc handle mod 16 = 4) by lia.
    destruct Hcases as [->|[->|[->|[->| ->]]]]; reflexivity.
Qed.

(** ** Bit operations and comparisons *)

(** X4.  [set_bit] gives a byte in which the bits of the mask have the
    given value and the other bits are those of the input. *)
Theorem set_bit_bits (input bitmask : Z) (bitvalue : bool) (n : Z) :
  0 <= n < 8 ->
  0 <= set_bit input bitmask bitvalue < 256
  /\ Z.testbit (set_bit input bitmask bitvalue) n
     = if Z.testbit bitmask n then bitvalue else Z.testbit input n.
Proof.
  intros Hn. unfold set_bit, u8. split; [apply Z.mod_pos_bound; lia|].
  rewrite Z.mod_pow2_bits_low by lia.
  destruct bitvalue.
  - rewrite Z.lor_spec, !Z.mod_pow2_bits_low by lia.
    destruct (Z.testbit bitmask n); [apply orb_true_r | apply orb_false_r].
  - rewrite Z.land_spec, Z.lnot_spec, !Z.mod_pow2_bits_low by lia.
    destruct (Z.testbit bitmask n); [apply andb_false_r | apply andb_true_r].
Qed.

(** X5.  [rds_compare_group] decides the equality of two groups: it
    compares every field. *)
Theorem rds_compare_group_eq (a b : v4l2_rds_group) :
  rds_compare_group a b = true <-> a = b.
Proof.
  destruct a as [a1 a2 a3 a4 a5 a6 a7 a8], b as [b1 b2 b3 b4 b5 b6 b7 b8].
  unfold rds_compare_group. cbn.
  destruct (Z.eqb_spec a1 b1), (Z.eqb_spec a2 b2), (Z.eqb_spec a3 b3),
    (Z.eqb_spec a4 b4), (Z.eqb_spec a5 b5), (Z.eqb_spec a6 b6),
    (Z.eqb_spec a7 b7), (Z.eqb_spec a8 b8); cbn;
    split; intros E; try discriminate; try congruence.
Qed.

(** ** Tactics for the decoders *)

(** Solves [keeps f m] for a group decoder [m]: the helpers are unfolded and
    every update must leave [f] alone by computation. *)
Ltac decoder_keeps :=
  unfold rds_decode_group0, rds_decode_group1, rds_decode_group2, rds_decode_group3,
    rds_decode_group4, rds_decode_group8, rds_decode_group10, rds_decode_a,
    rds_decode_b, rds_decode_c, rds_decode_d, rds_add_ps, rds_add_af, rds_add_oda,
    rds_decode_tmc_system, rds_decode_tmc_single_group, rds_decode_tmc_multi_group,
    rds_tmc_decode_additional, count_block, count, store_raw, or_valid_fields,
    clear_valid_fields;
  keeps_tac.

(** Runs a computation that is applied to a state, statement by statement. *)
Ltac run_statements :=
  repeat first
    [ rewrite bind_eq; cbv beta
    | rewrite gets_eq | rewrite modify_eq | rewrite ret_eq
    | rewrite fst_pair_eq | rewrite snd_pair_eq ].


(** As [run_all]; the conditions that were decided stay as hypotheses. *)
Ltac run_all_eqn :=
  repeat (run_statements;
          try match goal with
              | |- context [if ?c then _ else _] => destruct c eqn:?
              end).

Section Further.

Context `{Header} `{automatic : Stack}.

(** ** The date of a modified Julian day *)

(** The date [rds_decode_mjd] computes for the day [n]: the year since 1900,
    the month (1..12) and the day of the month. *)
Definition mjd_date (n : Z) : Z * Z * Z :=
  let t := rds_decode_mjd (set_new_mjd n zero_state) in
  (tm_year t, tm_mon t, tm_mday t).

Lemma rds_decode_mjd_date s :
  (tm_year (rds_decode_mjd s), tm_mon (rds_decode_mjd s), tm_mday (rds_decode_mjd s))
  = mjd_date (new_mjd s).
Proof.
  unfold mjd_date, rds_decode_mjd. cbv zeta.
  destruct (truthy (utc_offset s .& 0x20));
    destruct (truthy (utc_offset (set_new_mjd (new_mjd s) zero_state) .& 0x20));
    reflexivity.
Qed.

(** The Gregorian calendar: leap years, the lengths of the months and the
    day after a date; years count from 1900. *)
Definition leap_year (y : Z) : bool :=
  let year := 1900 + y in
  ((year mod 4 =? 0) && negb (year mod 100 =? 0)) || (year mod 400 =? 0).

Definition days_in_month (y m : Z) : Z :=
  if m =? 2 then (if leap_year y then 29 else 28)
  else if (m =? 4) || (m =? 6) || (m =? 9) || (m =? 11) then 30
  else 31.

Definition next_day (date : Z * Z * Z) : Z * Z * Z :=
  let '(y, m, d) := date in
  if d <? days_in_month y m then (y, m, d + 1)
  else if m <? 12 then (y, m + 1, 1)
  else (y + 1, 1, 1).

(** The date [k] days after [date]. *)
Fixpoint days_after (k : nat) (date : Z * Z * Z) : Z * Z * Z :=
  match k with
  | O => date
  | S k' => days_after k' (next_day date)
  end.

Definition date_eqb (a b : Z * Z * Z) : bool :=
  let '(y, m, d) := a in
  let '(y', m', d') := b in
  (y =? y') && (m =? m') && (d =? d').

Lemma date_eqb_eq a b : date_eqb a b = true -> a = b.
Proof.
  destruct a as [[y m] d], b as [[y' m'] d']. unfold date_eqb.
  intros E. apply andb_true_iff in E as [E Ed]. apply andb_true_iff in E as [Ey Em].
  apply Z.eqb_eq in Ey, Em, Ed. congruence.
Qed.

(** The days [n], [n + 1], ... ([k] of them) decode to [date] and the dates
    after it. *)
Fixpoint dates_agree (k : nat) (n : Z) (date : Z * Z * Z) : bool :=
  match k with
  | O => true
  | S k' => date_eqb (mjd_date n) date && dates_agree k' (n + 1) (next_day date)
  end.

Lemma dates_agree_sound k : forall n date i,
  dates_agree k n date = true -> (i < k)%nat ->
  mjd_date (n + Z.of_nat i) = days_after i date.
Proof.
  induction k as [|k IH]; intros n date i Hk Hi; [lia|].
  cbn [dates_agree] in Hk. apply andb_true_iff in Hk as [Hd Hk].
  destruct i as [|i].
  - rewrite Z.add_0_r. apply date_eqb_eq, Hd.
  - cbn [days_after]. rewrite <- (IH (n + 1) (next_day date) i Hk) by lia.
    f_equal. lia.
Qed.

Lemma dates_agree_1900_2100 :
  dates_agree (Z.to_nat 73049) 15079 (0, 3, 1) = true.
Proof. vm_compute. reflexivity. Qed.

(** X6.  From 1 March 1900 (day 15079) to 28 February 2100 (day 88127)
    [rds_decode_mjd] computes the date of the Gregorian calendar: the date
    is the one as many days after 1 March 1900 as the day number is above
    15079.  (The month is the number 1..12, the year counts from 1900.) *)
Theorem rds_decode_mjd_gregorian (s : rds_private_state) :
  15079 <= new_mjd s <= 88127 ->
  let t := rds_decode_mjd s in
  (tm_year t, tm_mon t, tm_mday t)
  = days_after (Z.to_nat (new_mjd s - 15079)) (0, 3, 1).
Proof.
  intros Hrange. cbv zeta. rewrite rds_decode_mjd_date.
  rewrite <- (dates_agree_sound _ 15079 (0, 3, 1) (Z.to_nat (new_mjd s - 15079))
                dates_agree_1900_2100) by lia.
  f_equal. lia.
Qed.

(** ** The additional fields of a TMC message *)

Lemma decode_additional_loop_size optional len n : forall pos block_idx set,
  0 <= add_size set ->
  0 <= add_size (decode_additional_loop optional len n pos block_idx set)
    <= add_size set + Z.of_nat n.
Proof.
  induction n as [|n IH]; intros pos block_idx set Hset.
  - cbn [decode_additional_loop]. lia.
  - assert (Hkeep : forall p b,
              0 <= add_size (decode_additional_loop optional len n p b set)
                <= add_size set + Z.of_nat (S n)).
    { intros p b. specialize (IH p b set Hset). lia. }
    assert (Hadd : forall p b x,
              0 <= add_size (decode_additional_loop optional len n p b
                               {| add_size := u8 (add_size set + 1);
                                  fields := store (fields set) (add_size set) x |})
                <= add_size set + Z.of_nat (S n)).
    { intros p b x.
      assert (Hu : 0 <= u8 (add_size set + 1) <= add_size set + 1).
      { unfold u8. split; [apply Z.mod_pos_bound; lia | apply Z.mod_le; lia]. }
      match goal with
      | |- context [decode_additional_loop _ _ _ _ _ ?set'] =>
        specialize (IH p b set' (proj1 Hu)); cbn [add_size] in IH
      end. lia. }
    assert (Hstop : 0 <= add_size set <= add_size set + Z.of_nat (S n)) by lia.
    cbn [decode_additional_loop]. cbv zeta.
    repeat match goal with
           | |- context [if ?c then _ else _] => destruct c
           end; auto.
Qed.

(** X7.  For a message of at most four optional blocks, the capacity of
    [optional_tmc], [rds_tmc_decode_additional] stores at most one field per
    optional block: the number of additional fields is at most
    [msg->length], and the length is left as it is. *)
Theorem rds_tmc_decode_additional_size (s : rds_private_state) :
  let msg := tmc_msg (tmc (handle s)) in
  let msg' := tmc_msg (tmc (handle (snd (rds_tmc_decode_additional s)))) in
  0 <= msg_length msg <= 4 ->
  msg_length msg' = msg_length msg
  /\ 0 <= add_size (additional msg') <= msg_length msg.
Proof.
  cbv zeta. intros Hlen.
  unfold rds_tmc_decode_additional.
  rewrite !bind_eq, !gets_eq, !fst_pair_eq, !snd_pair_eq. cbv zeta.
  rewrite modify_eq, snd_pair_eq. cbn [upd_tmc upd_handle handle tmc tmc_msg
    set_tmc set_tmc_msg set_additional set_handle msg_length additional].
  split; [reflexivity|].
  match goal with
  | |- context [decode_additional_loop ?o ?l ?n ?p ?b ?set] =>
    pose proof (decode_additional_loop_size o l n p b set) as Hb
  end.
  cbn [add_size] in Hb. specialize (Hb ltac:(lia)). lia.
Qed.

(** ** One call of [v4l2_rds_add], continued *)

(** A property of every decoder of the table holds for the entry of a group
    id. *)
Lemma decode_group_cases (P : M Z -> Prop) :
  P rds_decode_group0 -> P rds_decode_group1 -> P rds_decode_group2 ->
  P rds_decode_group3 -> P rds_decode_group4 -> P rds_decode_group8 ->
  P rds_decode_group10 ->
  forall id decode, decode_group id = Some decode -> P decode.
Proof.
  intros H0 H1 H2 H3 H4 H8 H10 id decode Hd. unfold decode_group in Hd.
  destruct id as [|p|p]; [| | discriminate].
  - injection Hd as <-. exact H0.
  - repeat (destruct p as [p|p|]; cbn in Hd; try discriminate).
    all: injection Hd as <-; assumption.
Qed.

(** [preserves I m]: the computation [m] keeps the invariant [I]. *)
Definition preserves {A} (I : rds_private_state -> Prop) (m : M A) : Prop :=
  forall s, I s -> I (snd (m s)).

Lemma preserves_ret {A} I (a : A) : preserves I (ret a).
Proof. intros s Hs. exact Hs. Qed.

Lemma preserves_gets {A} I (g : rds_private_state -> A) : preserves I (gets g).
Proof. intros s Hs. exact Hs. Qed.

Lemma preserves_bind {A B} I (m : M A) (k : A -> M B) :
  preserves I m -> (forall a, preserves I (k a)) -> preserves I (bind m k).
Proof. intros Hm Hk s Hs. rewrite bind_eq. apply Hk, Hm, Hs. Qed.

Lemma preserves_if {A} I (c : bool) (m1 m2 : M A) :
  preserves I m1 -> preserves I m2 -> preserves I (if c then m1 else m2).
Proof. destruct c; auto. Qed.

Lemma preserves_for_loop {A} I (l : list Z) (body : Z -> A -> M A) (a : A) :
  (forall i a', preserves I (body i a')) -> preserves I (for_loop l body a).
Proof.
  intros Hbody. revert a.
  induction l as [|i l IH]; intros a; cbn [for_loop].
  - apply preserves_ret.
  - apply preserves_bind; [apply Hbody | intros a'; apply IH].
Qed.

Lemma preserves_keeps {A C} (f : rds_private_state -> C) (J : C -> Prop) (m : M A) :
  keeps f m -> preserves (fun s => J (f s)) m.
Proof. intros Hk s Hs. cbv beta. rewrite Hk. exact Hs. Qed.

(** Proves [preserves I m] along the structure of [m]; the statements that
    are not composed are left to the hypotheses. *)
Ltac preserves_step :=
  lazymatch goal with
  | |- preserves _ (bind _ _) => apply preserves_bind; [| intros ?]
  | |- preserves _ (ret _) => apply preserves_ret
  | |- preserves _ (gets _) => apply preserves_gets
  | |- preserves _ (if _ then _ else _) => apply preserves_if
  | |- preserves _ (for_loop _ _ _) => apply preserves_for_loop; intros ? ?
  | |- preserves _ (let _ := _ in _) => cbv zeta
  | |- preserves _ _ => solve [auto]
  end.

Ltac preserves_tac := repeat preserves_step.

(** The decoder of a complete group keeps an invariant that its parts
    keep. *)
Lemma rds_decode_group_preserves I :
  (forall g, preserves I (modify (upd_statistics g))) ->
  (forall id decode, decode_group id = Some decode -> preserves I decode) ->
  preserves I rds_decode_group.
Proof.
  intros Hstat Hdec. unfold rds_decode_group.
  apply preserves_bind; [apply preserves_gets | intros id].
  apply preserves_bind; [apply Hstat | intros _].
  destruct (decode_group id) as [decode|] eqn:Hd.
  - apply (Hdec id), Hd.
  - apply preserves_ret.
Qed.

(** [v4l2_rds_add] keeps an invariant that the updates of the assembler and
    of the statistics keep and that the decoders keep. *)
Lemma v4l2_rds_add_preserves I d :
  (forall st, preserves I (modify (set_decode_state st))) ->
  (forall raw : rds_private_state -> list v4l2_rds_data,
      preserves I (modify (fun s => set_rds_data_raw (raw s) s))) ->
  (forall g, preserves I (modify (upd_statistics g))) ->
  preserves I (modify (set_rds_group zero_group)) ->
  (forall x, preserves I (rds_decode_a x)) ->
  (forall x, preserves I (rds_decode_b x)) ->
  (forall x, preserves I (rds_decode_c x)) ->
  (forall x, preserves I (rds_decode_d x)) ->
  (forall id decode, decode_group id = Some decode -> preserves I decode) ->
  preserves I (v4l2_rds_add d).
Proof.
  intros Hst Hraw Hstat Hgrp Ha Hb Hc Hd Hdec.
  assert (Hcount : forall f set, preserves I (count f set)).
  { intros f set. unfold count. apply Hstat. }
  assert (Hstore : forall i x, preserves I (store_raw i x)).
  { intros i x. unfold store_raw.
    apply (Hraw (fun s => store (rds_data_raw s) i x)). }
  assert (Hblock : preserves I (count_block d)).
  { unfold count_block. preserves_tac. }
  assert (Hrecv : preserves I (receive_d d)).
  { unfold receive_d. preserves_tac.
    apply rds_decode_group_preserves; assumption. }
  assert (Hdisp : forall id st, preserves I (dispatch d id st)).
  { intros id st. unfold dispatch. destruct st; preserves_tac.
    all: try exact Hrecv.
    all: apply (Hraw (fun s => store (rds_data_raw s) 2
                        {| lsb := 0; msb := 0;
                           block := block (at_index zero_data (rds_data_raw s) 2) |})). }
  intros s Hs. rewrite v4l2_rds_add_unfold. apply Hdisp, Hblock, Hs.
Qed.

(** An invariant of create, reset and add holds in every reachable state. *)
Lemma reachable_invariant (I : rds_private_state -> Prop) :
  (forall is_rbds', I (v4l2_rds_create is_rbds')) ->
  (forall s reset_statistics, I s -> I (v4l2_rds_reset s reset_statistics)) ->
  (forall d, preserves I (v4l2_rds_add d)) ->
  forall s, reachable s -> I s.
Proof.
  intros Hcreate Hreset Hadd s Hr.
  induction Hr as [is_rbds'|s reset_statistics _ IH|s d _ IH]; auto.
  apply Hadd, IH.
Qed.

(** *** Calls that do not complete a group *)

Lemma dispatch_idle_keeps {C} (f : rds_private_state -> C) d id st :
  (forall st', keeps f (modify (set_decode_state st'))) ->
  (forall raw : rds_private_state -> list v4l2_rds_data,
      keeps f (modify (fun s => set_rds_data_raw (raw s) s))) ->
  (forall g, keeps f (modify (upd_statistics g))) ->
  (st = RDS_C_RECEIVED -> (id =? 3) = false) ->
  keeps f (dispatch d id st).
Proof.
  intros Hst Hraw Hstat Hidle.
  assert (Hcount : forall g set, keeps f (count g set)).
  { intros g set. unfold count. apply Hstat. }
  assert (Hstore : forall i x, keeps f (store_raw i x)).
  { intros i x. unfold store_raw. apply (Hraw (fun s => store (rds_data_raw s) i x)). }
  unfold dispatch. destruct st.
  4: rewrite (Hidle eq_refl).
  all: repeat first [ apply Hcount | apply Hstore | apply Hst | keeps_step ].
  apply (Hraw (fun s => store (rds_data_raw s) 2
                 {| lsb := 0; msb := 0;
                    block := block (at_index zero_data (rds_data_raw s) 2) |})).
Qed.

Lemma v4l2_rds_add_idle {C} (f : rds_private_state -> C) d s :
  (forall st', keeps f (modify (set_decode_state st'))) ->
  (forall raw : rds_private_state -> list v4l2_rds_data,
      keeps f (modify (fun s => set_rds_data_raw (raw s) s))) ->
  (forall g, keeps f (modify (upd_statistics g))) ->
  completes s d = false ->
  f (snd (v4l2_rds_add d s)) = f s.
Proof.
  intros Hst Hraw Hstat Hidle.
  assert (Hblock : keeps f (count_block d)).
  { unfold count_block, count.
    repeat first [ apply Hstat | keeps_step ]. }
  rewrite v4l2_rds_add_unfold, count_block_id.
  pose proof (count_block_frame d s) as Hf.
  pose proof (Hblock s) as Hb.
  remember (snd (count_block d s)) as s1 eqn:E1. clear E1.
  injection Hf as Hstate _ _ _ _ _.
  rewrite dispatch_idle_keeps; auto.
  intros HC. unfold completes in Hidle. rewrite <- Hstate, HC in Hidle. exact Hidle.
Qed.

(** The state without the parts that pertain to the assembler and to the
    statistics. *)
Definition beyond_assembler (s : rds_private_state) : rds_private_state :=
  set_handle (set_rds_statistics zero_statistics (handle s))
    (set_decode_state RDS_EMPTY (set_rds_data_raw [] s)).

(** X8.  A call of [v4l2_rds_add] that does not complete a group (the
    assembler is not in the state [RDS_C_RECEIVED], or the block is not an
    error-free block D) returns 0 and changes nothing but the assembler and
    the statistics: neither the published fields nor the staged ones, nor the
    group [v4l2_rds_get_group] returns. *)
Theorem idle_call_decodes_nothing (d : v4l2_rds_data) (s : rds_private_state) :
  completes s d = false ->
  fst (v4l2_rds_add d s) = 0
  /\ beyond_assembler (snd (v4l2_rds_add d s)) = beyond_assembler s
  /\ v4l2_rds_get_group (snd (v4l2_rds_add d s)) = v4l2_rds_get_group s.
Proof.
  intros Hidle. split; [|split].
  - destruct (v4l2_rds_add_spec d s) as (_ & _ & _ & Hret & _). apply Hret, Hidle.
  - apply (v4l2_rds_add_idle beyond_assembler); auto;
      intros; apply keeps_modify; intros; reflexivity.
  - apply (v4l2_rds_add_idle v4l2_rds_get_group); auto;
      intros; apply keeps_modify; intros; reflexivity.
Qed.

(** *** Calls that complete a group *)

Lemma decode_group_keeps_group id decode :
  decode_group id = Some decode -> keeps rds_group decode.
Proof. revert id decode. apply decode_group_cases; decoder_keeps. Qed.

Lemma rds_decode_group_keeps_group : keeps rds_group rds_decode_group.
Proof.
  unfold rds_decode_group. keeps_step; [keeps_tac|].
  keeps_step; [keeps_tac|].
  destruct (decode_group a) as [decode|] eqn:Hd; [|keeps_tac].
  apply (decode_group_keeps_group a), Hd.
Qed.

Lemma receive_d_group d s :
  let raw := store (rds_data_raw s) 3 d in
  rds_group (snd (receive_d d s))
  = assembled (at_index zero_data raw 0) (at_index zero_data raw 1)
      (at_index zero_data raw 2) (at_index zero_data raw 3).
Proof.
  intros raw. rewrite receive_d_unfold.
  assert (Hr : rds_data_raw (group_received d s) = raw) by reflexivity.
  rewrite Hr. clear Hr.
  assert (H0g : rds_group (group_received d s) = zero_group) by reflexivity.
  destruct (pre_decode_spec raw (group_received d s)) as (_ & _ & _ & Hgrp).
  remember (group_received d s) as s0 eqn:E0. clear E0.
  pose proof (rds_decode_group_keeps_group (snd (pre_decode raw s0))) as Hk.
  remember (snd (pre_decode raw s0)) as s1 eqn:E1. clear E1.
  rewrite Hk, Hgrp, H0g. reflexivity.
Qed.

Lemma v4l2_rds_add_group d s :
  completes s d = true ->
  let raw := store (rds_data_raw s) 3 d in
  rds_group (snd (v4l2_rds_add d s))
  = assembled (at_index zero_data raw 0) (at_index zero_data raw 1)
      (at_index zero_data raw 2) (at_index zero_data raw 3).
Proof.
  intros Hc raw. subst raw.
  rewrite v4l2_rds_add_unfold, count_block_id.
  pose proof (count_block_frame d s) as Hf.
  remember (snd (count_block d s)) as s1 eqn:E1. clear E1.
  injection Hf as Hstate Hraw _ _ _ _.
  unfold completes in Hc. rewrite <- Hstate in Hc. rewrite <- Hraw.
  destruct (decode_state s1); try discriminate.
  cbn [dispatch]. rewrite Hc. apply receive_d_group.
Qed.

Lemma reachable_raw s : reachable s -> length (rds_data_raw s) = 4%nat.
Proof.
  induction 1 as [is_rbds'|s [|] _ _|s d _ IH]; try reflexivity.
  destruct (v4l2_rds_add_spec d s) as (_ & -> & _).
  destruct (decode_state s); cbn [next_raw];
    repeat match goal with |- context [if ?c then _ else _] => destruct c end;
    cbv zeta; unfold store; rewrite ?length_insert; exact IH.
Qed.

(** X9.  Four error-free blocks A, B, C or C', D that arrive while the
    assembler is empty make a group: the group is counted, the assembler is
    empty again, the first three calls return 0 and [v4l2_rds_get_group]
    returns the group with the fields of the four blocks. *)
Theorem group_decoded_after_ABCD (s : rds_private_state) (a b c d : v4l2_rds_data) :
  reachable s -> decode_state s = RDS_EMPTY -> is_group a b c d = true ->
  let s' := run s [a; b; c; d] in
  decode_state s' = RDS_EMPTY
  /\ group_cnt (rds_statistics (handle s'))
     = u32 (group_cnt (rds_statistics (handle s)) + 1)
  /\ take 3 (masks s [a; b; c; d]) = [0; 0; 0]
  /\ v4l2_rds_get_group s' = assembled a b c d.
Proof.
  intros Hr Hempty Hg. cbv zeta.
  unfold is_group in Hg.
  apply andb_true_iff in Hg as [Hg Hd]. apply andb_true_iff in Hg as [Hg Hc].
  apply andb_true_iff in Hg as [Ha Hb].
  apply Z.eqb_eq in Ha, Hb, Hd.
  destruct (four_blocks _ (reachable_raw s Hr)) as (r0 & r1 & r2 & r3 & Eraw).
  cbn [run fold_left masks take].
  destruct (v4l2_rds_add_spec a s) as (Hs1 & Hr1 & Hc1 & Hm1 & _).
  unfold completes in Hc1, Hm1.
  rewrite Hempty in Hs1, Hr1, Hc1, Hm1. rewrite Ha in Hs1, Hr1. rewrite Eraw in Hr1.
  cbn in Hs1, Hr1.
  specialize (Hm1 eq_refl).
  remember (snd (v4l2_rds_add a s)) as s1 eqn:E1.
  remember (fst (v4l2_rds_add a s)) as m1 eqn:Em1.
  clear E1 Em1.
  destruct (v4l2_rds_add_spec b s1) as (Hs2 & Hr2 & Hc2 & Hm2 & _).
  unfold completes in Hc2, Hm2.
  rewrite Hs1 in Hs2, Hr2, Hc2, Hm2. rewrite Hb in Hs2, Hr2. rewrite Hr1 in Hr2.
  cbn in Hs2, Hr2.
  specialize (Hm2 eq_refl).
  remember (snd (v4l2_rds_add b s1)) as s2 eqn:E2.
  remember (fst (v4l2_rds_add b s1)) as m2 eqn:Em2.
  clear E2 Em2.
  destruct (v4l2_rds_add_spec c s2) as (Hs3 & Hr3 & Hc3 & Hm3 & _).
  unfold completes in Hc3, Hm3.
  rewrite Hs2 in Hs3, Hr3, Hc3, Hm3. rewrite Hr2 in Hr3.
  cbn [next_state next_raw] in Hs3, Hr3.
  rewrite Hc in Hs3, Hr3. cbn in Hr3.
  specialize (Hm3 eq_refl).
  remember (snd (v4l2_rds_add c s2)) as s3 eqn:E3.
  remember (fst (v4l2_rds_add c s2)) as m3 eqn:Em3.
  clear E3 Em3.
  assert (Hcomp : completes s3 d = true).
  { unfold completes. rewrite Hs3. apply Z.eqb_eq, Hd. }
  destruct (v4l2_rds_add_spec d s3) as (Hs4 & _ & Hc4 & _).
  pose proof (v4l2_rds_add_group d s3 Hcomp) as Hgrp.
  rewrite Hcomp in Hc4. rewrite Hs3 in Hs4. cbn [next_state] in Hs4.
  cbv zeta in Hgrp. rewrite Hr3 in Hgrp.
  remember (snd (v4l2_rds_add d s3)) as s4 eqn:E4. clear E4.
  repeat split.
  - exact Hs4.
  - congruence.
  - congruence.
  - exact Hgrp.
Qed.

(** X10.  A block that is flagged as uncorrectable empties the assembler,
    whatever its state: the blocks of the group in reception are dropped.
    The call returns 0 and decodes nothing. *)
Theorem errored_block_resets_assembler (d : v4l2_rds_data) (s : rds_private_state) :
  truthy (block d .& V4L2_RDS_BLOCK_ERROR) = true ->
  decode_state (snd (v4l2_rds_add d s)) = RDS_EMPTY
  /\ fst (v4l2_rds_add d s) = 0
  /\ beyond_assembler (snd (v4l2_rds_add d s)) = beyond_assembler s.
Proof.
  intros Herr.
  assert (Hid : block_id d = -1) by (unfold block_id; rewrite Herr; reflexivity).
  assert (Hidle : completes s d = false).
  { unfold completes. rewrite Hid. destruct (decode_state s); reflexivity. }
  destruct (v4l2_rds_add_spec d s) as (Hs & _ & _ & Hret & _).
  rewrite Hs, Hid. split; [destruct (decode_state s); reflexivity|].
  split; [apply Hret, Hidle|].
  apply (v4l2_rds_add_idle beyond_assembler); auto;
    intros; apply keeps_modify; intros; reflexivity.
Qed.

(** ** The statistics *)

(** The statistics after the head of [v4l2_rds_add] counted the block. *)
Definition counted (d : v4l2_rds_data) (st : v4l2_rds_statistics) : v4l2_rds_statistics :=
  let st1 := set_block_cnt (u32 (block_cnt st + 1)) st in
  if truthy (block d .& V4L2_RDS_BLOCK_ERROR)
  then set_block_error_cnt (u32 (block_error_cnt st1 + 1)) st1
  else if truthy (block d .& V4L2_RDS_BLOCK_CORRECTED)
  then set_block_corrected_cnt (u32 (block_corrected_cnt st1 + 1)) st1
  else st1.

(** The block is the one the assembler waits for. *)
Definition advances (state : rds_state) (id : Z) : bool :=
  match state with
  | RDS_EMPTY => id =? 0
  | RDS_A_RECEIVED => id =? 1
  | RDS_B_RECEIVED => (id =? 2) || (id =? 4)
  | RDS_C_RECEIVED => id =? 3
  end.

(** The statistics after a call of [v4l2_rds_add], from the state of the
    assembler, the raw buffer and the block. *)
Definition next_statistics (state : rds_state) (raw : list v4l2_rds_data)
    (d : v4l2_rds_data) (st : v4l2_rds_statistics) : v4l2_rds_statistics :=
  let st1 := counted d st in
  if negb (advances state (block_id d))
  then set_group_error_cnt (u32 (group_error_cnt st1 + 1)) st1
  else
    match state with
    | RDS_C_RECEIVED =>
      let id := u8 (msb (at_index zero_data raw 1) >> 4) in
      let st2 := set_group_cnt (u32 (group_cnt st1 + 1)) st1 in
      set_group_type_cnt
        (store (group_type_cnt st2) id (u32 (at_index 0 (group_type_cnt st2) id + 1)))
        st2
    | _ => st1
    end.

Definition statistics (s : rds_private_state) : v4l2_rds_statistics :=
  rds_statistics (handle s).

Lemma count_block_statistics d s :
  statistics (snd (count_block d s)) = counted d (statistics s).
Proof.
  unfold count_block, counted, count. rewrite bind_eq, modify_eq, snd_pair_eq.
  cbv zeta beta.
  destruct (truthy (block d .& V4L2_RDS_BLOCK_ERROR)); [reflexivity|].
  destruct (truthy (block d .& V4L2_RDS_BLOCK_CORRECTED)); reflexivity.
Qed.

Lemma decode_group_keeps_statistics id decode :
  decode_group id = Some decode -> keeps statistics decode.
Proof. revert id decode. apply decode_group_cases; decoder_keeps. Qed.

Lemma rds_decode_group_statistics s :
  statistics (snd (rds_decode_group s))
  = set_group_type_cnt
      (store (group_type_cnt (statistics s)) (group_id (rds_group s))
         (u32 (at_index 0 (group_type_cnt (statistics s)) (group_id (rds_group s)) + 1)))
      (statistics s).
Proof.
  unfold rds_decode_group.
  rewrite bind_eq, gets_eq, fst_pair_eq, snd_pair_eq.
  rewrite bind_eq, modify_eq, snd_pair_eq. cbv beta.
  destruct (decode_group (group_id (rds_group s))) as [decode|] eqn:Hd.
  - rewrite (decode_group_keeps_statistics _ _ Hd). reflexivity.
  - reflexivity.
Qed.

Lemma pre_decode_keeps_statistics raw : keeps statistics (pre_decode raw).
Proof. unfold pre_decode. decoder_keeps. Qed.

Lemma at_index_store_ne {A} (d0 : A) (l : list A) (i j : Z) (v : A) :
  Z.to_nat i <> Z.to_nat j -> at_index d0 (store l i v) j = at_index d0 l j.
Proof.
  intros Hne. unfold at_index, store.
  rewrite !nth_lookup, list_lookup_insert_ne by exact Hne. reflexivity.
Qed.

Lemma receive_d_statistics d s :
  statistics (snd (receive_d d s))
  = let id := u8 (msb (at_index zero_data (rds_data_raw s) 1) >> 4) in
    let st2 := set_group_cnt (u32 (group_cnt (statistics s) + 1)) (statistics s) in
    set_group_type_cnt
      (store (group_type_cnt st2) id (u32 (at_index 0 (group_type_cnt st2) id + 1))) st2.
Proof.
  rewrite receive_d_unfold.
  assert (Hr : rds_data_raw (group_received d s) = store (rds_data_raw s) 3 d)
    by reflexivity.
  assert (H0s : statistics (group_received d s)
                = set_group_cnt (u32 (group_cnt (statistics s) + 1)) (statistics s))
    by reflexivity.
  assert (H0g : rds_group (group_received d s) = zero_group) by reflexivity.
  destruct (pre_decode_spec (rds_data_raw (group_received d s)) (group_received d s))
    as (_ & _ & _ & Hgrp).
  pose proof (pre_decode_keeps_statistics (rds_data_raw (group_received d s))
                (group_received d s)) as Hk.
  rewrite Hr in Hgrp, Hk |- *.
  remember (group_received d s) as s0 eqn:E0. clear E0.
  rewrite rds_decode_group_statistics.
  remember (snd (pre_decode (store (rds_data_raw s) 3 d) s0)) as s1 eqn:E1. clear E1.
  rewrite Hk, H0s, Hgrp, H0g.
  rewrite (at_index_store_ne zero_data (rds_data_raw s) 3 1) by (intros E; vm_compute in E; discriminate).
  reflexivity.
Qed.

Lemma v4l2_rds_add_statistics d s :
  statistics (snd (v4l2_rds_add d s))
  = next_statistics (decode_state s) (rds_data_raw s) d (statistics s).
Proof.
  rewrite v4l2_rds_add_unfold, count_block_id.
  pose proof (count_block_frame d s) as Hf.
  pose proof (count_block_statistics d s) as Hc.
  remember (snd (count_block d s)) as s1 eqn:E1. clear E1.
  injection Hf as Hstate Hraw _ _ _ _.
  unfold next_statistics. rewrite <- Hc, <- Hstate, <- Hraw. clear Hc Hstate Hraw.
  cbv zeta.
  destruct (decode_state s1); cbn [dispatch advances].
  - destruct (block_id d =? 0); reflexivity.
  - destruct (block_id d =? 1); reflexivity.
  - destruct ((block_id d =? 2) || (block_id d =? 4)); reflexivity.
  - destruct (block_id d =? 3); [|reflexivity].
    cbn [negb]. apply receive_d_statistics.
Qed.

(** ** A group is decoded and published by the fourth block of a group alone *)

(** The call that ingests [d] in the state [s] decodes and publishes a
    group: it counts a group, under all types or under one, it reports
    updated fields, or it changes a part of the decoder other than the
    assembler and the statistics: the decoded group, a field of the snapshot
    or a staged value. *)
Definition publishes (s : rds_private_state) (d : v4l2_rds_data) : Prop :=
  let s' := snd (v4l2_rds_add d s) in
  group_cnt (statistics s') <> group_cnt (statistics s)
  \/ group_type_cnt (statistics s') <> group_type_cnt (statistics s)
  \/ fst (v4l2_rds_add d s) <> 0
  \/ beyond_assembler s' <> beyond_assembler s.

(** A call that does not complete a group leaves all of this as it is. *)
Lemma idle_call_publishes_nothing s d :
  completes s d = false ->
  let s' := snd (v4l2_rds_add d s) in
  group_cnt (statistics s') = group_cnt (statistics s)
  /\ group_type_cnt (statistics s') = group_type_cnt (statistics s)
  /\ fst (v4l2_rds_add d s) = 0
  /\ beyond_assembler s' = beyond_assembler s.
Proof.
  intros Hidle. cbv zeta.
  assert (Hst : group_cnt (statistics (snd (v4l2_rds_add d s))) = group_cnt (statistics s)
                /\ group_type_cnt (statistics (snd (v4l2_rds_add d s)))
                   = group_type_cnt (statistics s)).
  { rewrite v4l2_rds_add_statistics. unfold next_statistics, counted, completes in *.
    cbv zeta.
    assert (Hadv : decode_state s = RDS_C_RECEIVED ->
                   advances (decode_state s) (block_id d) = false).
    { intros E. rewrite E in Hidle |- *. exact Hidle. }
    destruct (advances (decode_state s) (block_id d)) eqn:Ha; cbn [negb].
    - destruct (decode_state s); try (specialize (Hadv eq_refl); discriminate).
      all: destruct (truthy (block d .& V4L2_RDS_BLOCK_ERROR));
        [|destruct (truthy (block d .& V4L2_RDS_BLOCK_CORRECTED))]; split; reflexivity.
    - destruct (truthy (block d .& V4L2_RDS_BLOCK_ERROR));
        [|destruct (truthy (block d .& V4L2_RDS_BLOCK_CORRECTED))]; split; reflexivity. }
  destruct Hst as [Hcnt Htype].
  split; [exact Hcnt|]. split; [exact Htype|]. split.
  - destruct (v4l2_rds_add_spec d s) as (_ & _ & _ & Hret & _). apply Hret, Hidle.
  - apply (v4l2_rds_add_idle beyond_assembler); auto;
      intros; apply keeps_modify; intros; reflexivity.
Qed.

Lemma publishes_completes s d : publishes s d -> completes s d = true.
Proof.
  intros Hp. destruct (completes s d) eqn:Hc; [reflexivity|].
  destruct (idle_call_publishes_nothing s d Hc) as (H1 & H2 & H3 & H4).
  destruct Hp as [Hp|[Hp|[Hp|Hp]]]; contradiction.
Qed.

(** C2.  A group is decoded and published only by a call whose block, with
    the three blocks before it, carries the ids A, B, C or C', D and no
    error flag.  A sequence of blocks without four such consecutive blocks
    decodes and publishes nothing: no group is counted, every call returns
    the empty mask, and the decoded group, the snapshot (its statistics
    apart) and the staged values are those of the start. *)
Theorem group_published_only_after_ABCD s0 bs :
  fresh s0 ->
  (forall pre d post,
      bs = pre ++ d :: post -> publishes (run s0 pre) d ->
      exists pre' a b c, pre = pre' ++ [a; b; c] /\ is_group a b c d = true)
  /\ (has_group bs = false ->
      group_cnt (statistics (run s0 bs)) = group_cnt (statistics s0)
      /\ group_type_cnt (statistics (run s0 bs)) = group_type_cnt (statistics s0)
      /\ Forall (fun mask => mask = 0) (masks s0 bs)
      /\ beyond_assembler (run s0 bs) = beyond_assembler s0).
Proof.
  intros Hfresh. apply fresh_blank in Hfresh.
  assert (Hpub : forall pre d, publishes (run s0 pre) d ->
             exists pre' a b c, pre = pre' ++ [a; b; c] /\ is_group a b c d = true).
  { intros pre d Hp. apply publishes_completes in Hp.
    destruct (completes_group pre _ d (assembling_run s0 pre Hfresh) Hp)
      as (pre' & a & b & c & E & Hg & _).
    eauto 10. }
  split; [intros pre d post _; apply Hpub|].
  induction bs as [|d bs IH] using rev_ind; intros Hw.
  - repeat split. constructor.
  - destruct (IH (some_window_app_l _ _ _ Hw)) as (Hcnt & Htype & Hmasks & Hrest).
    assert (Hc : completes (run s0 bs) d = false).
    { destruct (completes (run s0 bs) d) eqn:Hc; [|reflexivity].
      destruct (completes_group bs _ d (assembling_run s0 bs Hfresh) Hc)
        as (pre' & a & b & c & E & Hg & _).
      subst bs. rewrite <- app_assoc in Hw. cbn [app] in Hw.
      apply some_window_end in Hw. unfold has_group in *. congruence. }
    destruct (idle_call_publishes_nothing _ _ Hc) as (Hcnt' & Htype' & Hmask' & Hrest').
    rewrite run_snoc, masks_snoc.
    split; [congruence|]. split; [congruence|]. split; [|congruence].
    apply Forall_app. split; [exact Hmasks|]. constructor; [exact Hmask' | constructor].
Qed.

(** The number of blocks the assembler holds. *)
Definition pending (state : rds_state) : Z :=
  match state with
  | RDS_EMPTY => 0
  | RDS_A_RECEIVED => 1
  | RDS_B_RECEIVED => 2
  | RDS_C_RECEIVED => 3
  end.

Definition errored (d : v4l2_rds_data) : bool :=
  truthy (block d .& V4L2_RDS_BLOCK_ERROR).

(** The block is flagged as corrected and not as uncorrectable. *)
Definition corrected (d : v4l2_rds_data) : bool :=
  negb (errored d) && truthy (block d .& V4L2_RDS_BLOCK_CORRECTED).

Definition count_blocks (p : v4l2_rds_data -> bool) (bs : list v4l2_rds_data) : Z :=
  Z.of_nat (length (List.filter p bs)).

Lemma count_blocks_snoc p bs d :
  count_blocks p (bs ++ [d]) = count_blocks p bs + (if p d then 1 else 0).
Proof.
  unfold count_blocks. rewrite List.filter_app, length_app. cbn [List.filter].
  destruct (p d); cbn [length]; lia.
Qed.

Lemma next_statistics_fields state raw d st :
  let st' := next_statistics state raw d st in
  block_cnt st' = u32 (block_cnt st + 1)
  /\ block_error_cnt st'
     = (if errored d then u32 (block_error_cnt st + 1) else block_error_cnt st)
  /\ block_corrected_cnt st'
     = (if corrected d then u32 (block_corrected_cnt st + 1) else block_corrected_cnt st)
  /\ group_error_cnt st'
     = (if advances state (block_id d) then group_error_cnt st
        else u32 (group_error_cnt st + 1))
  /\ group_cnt st'
     = (if advances state (block_id d)
           && match state with RDS_C_RECEIVED => true | _ => false end
        then u32 (group_cnt st + 1) else group_cnt st).
Proof.
  unfold next_statistics, counted, corrected, errored. cbv zeta.
  destruct (truthy (block d .& V4L2_RDS_BLOCK_ERROR));
    [|destruct (truthy (block d .& V4L2_RDS_BLOCK_CORRECTED))];
    destruct (advances state (block_id d)); destruct state; cbn; repeat split.
Qed.

Lemma next_state_advances state id :
  next_state state id
  = if advances state id
    then match state with
         | RDS_EMPTY => RDS_A_RECEIVED
         | RDS_A_RECEIVED => RDS_B_RECEIVED
         | RDS_B_RECEIVED => RDS_C_RECEIVED
         | RDS_C_RECEIVED => RDS_EMPTY
         end
    else RDS_EMPTY.
Proof.
  destruct state; cbn [next_state advances];
    repeat match goal with |- context [if ?c then _ else _] => destruct c end;
    reflexivity.
Qed.

Lemma u32_succ x : u32 (u32 x + 1) = u32 (x + 1).
Proof. unfold u32. apply Z.add_mod_idemp_l. lia. Qed.

Lemma u32_small x : 0 <= x < 2 ^ 32 -> u32 x = x.
Proof. apply Z.mod_small. Qed.

(** X11.  From creation on, [block_cnt] counts the blocks given to
    [v4l2_rds_add], [block_error_cnt] those flagged as uncorrectable and
    [block_corrected_cnt] those flagged as corrected and not as
    uncorrectable, each modulo 2^32. *)
Theorem block_counters (is_rbds' : bool) (bs : list v4l2_rds_data) :
  let st := statistics (run (v4l2_rds_create is_rbds') bs) in
  block_cnt st = u32 (Z.of_nat (length bs))
  /\ block_error_cnt st = u32 (count_blocks errored bs)
  /\ block_corrected_cnt st = u32 (count_blocks corrected bs).
Proof.
  cbv zeta. induction bs as [|d bs IH] using rev_ind.
  - repeat split.
  - destruct IH as (Hb & He & Hc).
    rewrite run_snoc, v4l2_rds_add_statistics.
    destruct (next_statistics_fields
                (decode_state (run (v4l2_rds_create is_rbds') bs))
                (rds_data_raw (run (v4l2_rds_create is_rbds') bs)) d
                (statistics (run (v4l2_rds_create is_rbds') bs)))
      as (Hb' & He' & Hc' & _).
    rewrite Hb', He', Hc', Hb, He, Hc, !count_blocks_snoc, length_app.
    cbn [length]. rewrite !u32_succ.
    repeat split.
    + f_equal. lia.
    + destruct (errored d); [reflexivity | f_equal; lia].
    + destruct (corrected d); [reflexivity | f_equal; lia].
Qed.

(** The accounts of the assembler after [n] blocks. *)
Definition accounts (n : Z) (s : rds_private_state) : Prop :=
  block_cnt (statistics s) = n
  /\ 0 <= group_cnt (statistics s)
  /\ 0 <= group_error_cnt (statistics s)
  /\ 4 * group_cnt (statistics s) + pending (decode_state s)
     + group_error_cnt (statistics s) <= n.

Lemma accounts_step n d s :
  n + 1 < 2 ^ 32 -> 0 <= n -> accounts n s -> accounts (n + 1) (snd (v4l2_rds_add d s)).
Proof.
  intros Hn Hn0 (Hb & Hg & He & Hle). unfold accounts.
  destruct (v4l2_rds_add_spec d s) as (Hs & _).
  rewrite Hs, v4l2_rds_add_statistics, next_state_advances.
  destruct (next_statistics_fields (decode_state s) (rds_data_raw s) d (statistics s))
    as (Hb' & _ & _ & He' & Hg').
  rewrite Hb', He', Hg', Hb.
  assert (Hp : 0 <= pending (decode_state s) <= 3) by (destruct (decode_state s); cbn; lia).
  rewrite (u32_small (n + 1)) by lia.
  destruct (advances (decode_state s) (block_id d)); cbn [andb].
  - destruct (decode_state s); cbn [pending] in *;
      rewrite ?u32_small by lia; repeat split; lia.
  - rewrite u32_small by lia. cbn [pending]. repeat split; lia.
Qed.

Lemma accounts_run is_rbds' bs :
  Z.of_nat (length bs) < 2 ^ 32 ->
  accounts (Z.of_nat (length bs)) (run (v4l2_rds_create is_rbds') bs).
Proof.
  induction bs as [|d bs IH] using rev_ind; intros Hlen.
  - repeat split; cbn; lia.
  - rewrite length_app in Hlen |- *. cbn [length] in Hlen |- *.
    rewrite run_snoc.
    replace (Z.of_nat (length bs + 1)) with (Z.of_nat (length bs) + 1) by lia.
    apply accounts_step; [lia | lia | apply IH; lia].
Qed.

(** X12.  Every block is accounted for: after creation and fewer than 2^32
    blocks, four blocks for every counted group, the blocks the assembler
    holds and one block for every counted group error are at most the blocks
    counted; a block that does not advance the assembler is a group error. *)
Theorem statistics_account_for_blocks (is_rbds' : bool) (bs : list v4l2_rds_data) :
  Z.of_nat (length bs) < 2 ^ 32 ->
  let s := run (v4l2_rds_create is_rbds') bs in
  block_cnt (statistics s) = Z.of_nat (length bs)
  /\ 4 * group_cnt (statistics s) + pending (decode_state s)
     + group_error_cnt (statistics s) <= block_cnt (statistics s)
  /\ forall d,
       group_error_cnt (statistics (snd (v4l2_rds_add d s)))
       = if advances (decode_state s) (block_id d) then group_error_cnt (statistics s)
         else u32 (group_error_cnt (statistics s) + 1).
Proof.
  intros Hlen. cbv zeta.
  destruct (accounts_run is_rbds' bs Hlen) as (Hb & Hg & He & Hle).
  split; [exact Hb|]. split; [rewrite Hb; exact Hle|].
  intros d. rewrite v4l2_rds_add_statistics.
  destruct (next_statistics_fields
              (decode_state (run (v4l2_rds_create is_rbds') bs))
              (rds_data_raw (run (v4l2_rds_create is_rbds') bs)) d
              (statistics (run (v4l2_rds_create is_rbds') bs)))
    as (_ & _ & _ & He' & _).
  exact He'.
Qed.

(** *** The counters of the group types *)

Definition sum (l : list Z) : Z := fold_right Z.add 0 l.

Lemma sum_insert (l : list Z) : forall i x,
  (i < length l)%nat -> sum (<[i := x]> l) = sum l - nth i l 0 + x.
Proof.
  unfold sum.
  induction l as [|y l IH]; intros i x Hi; [cbn in Hi; lia|].
  destruct i as [|i].
  - change (<[0%nat := x]> (y :: l)) with (x :: l). cbn [fold_right nth]. lia.
  - change (<[S i := x]> (y :: l)) with (y :: <[i := x]> l). cbn [fold_right nth].
    rewrite IH by (cbn in Hi; lia). lia.
Qed.

Lemma nth_le_sum (l : list Z) : forall i,
  Forall (fun x => 0 <= x) l -> 0 <= nth i l 0 <= sum l.
Proof.
  induction l as [|y l IH]; intros i Hpos.
  - destruct i; cbn; lia.
  - apply Forall_cons in Hpos as [Hy Hl].
    assert (Hs : 0 <= sum l) by (specialize (IH 0%nat Hl); lia).
    destruct i as [|i]; cbn [nth sum fold_right]; fold (sum l).
    + lia.
    + specialize (IH i Hl). lia.
Qed.

(** The bytes of a block are bytes. *)
Definition byte_block (d : v4l2_rds_data) : Prop :=
  0 <= msb d < 256 /\ 0 <= lsb d < 256.

Lemma group_id_range (d : v4l2_rds_data) :
  byte_block d -> 0 <= u8 (msb d >> 4) < 16.
Proof.
  intros [Hm _]. rewrite Z.shiftr_div_pow2 by lia. change (2 ^ 4) with 16.
  assert (0 <= msb d / 16 < 16).
  { split; [apply Z.div_pos; lia | apply Z.div_lt_upper_bound; lia]. }
  unfold u8. rewrite Z.mod_small; lia.
Qed.

Lemma next_statistics_group_type_cnt state raw d st :
  group_type_cnt (next_statistics state raw d st)
  = if advances state (block_id d)
       && match state with RDS_C_RECEIVED => true | _ => false end
    then store (group_type_cnt st) (u8 (msb (at_index zero_data raw 1) >> 4))
           (u32 (at_index 0 (group_type_cnt st)
                   (u8 (msb (at_index zero_data raw 1) >> 4)) + 1))
    else group_type_cnt st.
Proof.
  unfold next_statistics, counted. cbv zeta.
  destruct (truthy (block d .& V4L2_RDS_BLOCK_ERROR));
    [|destruct (truthy (block d .& V4L2_RDS_BLOCK_CORRECTED))];
    destruct (advances state (block_id d)); destruct state; reflexivity.
Qed.

(** The counters of the group types add up to the counter of the groups. *)
Definition typed (s : rds_private_state) : Prop :=
  length (group_type_cnt (statistics s)) = 16%nat
  /\ Forall (fun x => 0 <= x) (group_type_cnt (statistics s))
  /\ sum (group_type_cnt (statistics s)) = group_cnt (statistics s)
  /\ Forall byte_block (rds_data_raw s).

Lemma next_raw_bytes state id d raw :
  byte_block d -> Forall byte_block raw -> Forall byte_block (next_raw state id d raw).
Proof.
  intros Hd Hraw.
  assert (Hz : byte_block zero_data) by (unfold byte_block; cbn; lia).
  assert (Hc : forall x, byte_block {| lsb := 0; msb := 0; block := x |})
    by (intros x; unfold byte_block; cbn; lia).
  destruct state; cbn [next_raw];
    repeat match goal with |- context [if ?c then _ else _] => destruct c end;
    cbv zeta; unfold store; auto using Forall_insert.
Qed.

Lemma at_index_Forall {A} (P : A -> Prop) (d0 : A) (l : list A) (i : Z) :
  P d0 -> Forall P l -> P (at_index d0 l i).
Proof.
  intros Hd Hl. unfold at_index.
  destruct (nth_in_or_default (Z.to_nat i) l d0) as [Hin| ->]; [|exact Hd].
  rewrite Forall_forall in Hl. apply Hl, list_elem_of_In, Hin.
Qed.

Lemma typed_step n d s :
  n + 1 < 2 ^ 32 -> 0 <= n -> byte_block d -> accounts n s -> typed s ->
  typed (snd (v4l2_rds_add d s)).
Proof.
  intros Hn Hn0 Hd (Hb & Hg & He & Hle) (Hlen & Hpos & Hsum & Hraw). unfold typed.
  destruct (v4l2_rds_add_spec d s) as (_ & Hr & _).
  rewrite Hr, v4l2_rds_add_statistics, next_statistics_group_type_cnt.
  destruct (next_statistics_fields (decode_state s) (rds_data_raw s) d (statistics s))
    as (_ & _ & _ & _ & Hg').
  rewrite Hg'. clear Hg' Hr.
  assert (Hp : 0 <= pending (decode_state s)) by (destruct (decode_state s); cbn; lia).
  destruct (advances (decode_state s) (block_id d)
            && match decode_state s with RDS_C_RECEIVED => true | _ => false end)
    eqn:Hcomplete.
  - apply andb_true_iff in Hcomplete as [_ HC].
    destruct (decode_state s); try discriminate. cbn [pending] in Hle.
    set (b := at_index zero_data (rds_data_raw s) 1).
    assert (Hid : 0 <= u8 (msb b >> 4) < 16).
    { apply group_id_range. apply at_index_Forall; [|exact Hraw].
      unfold byte_block. cbn. lia. }
    set (id := u8 (msb b >> 4)) in *.
    pose proof (nth_le_sum (group_type_cnt (statistics s)) (Z.to_nat id) Hpos) as Hnth.
    unfold at_index, store.
    rewrite (u32_small (group_cnt (statistics s) + 1)) by lia.
    rewrite (u32_small (nth (Z.to_nat id) (group_type_cnt (statistics s)) 0 + 1)) by lia.
    repeat split.
    + rewrite length_insert. exact Hlen.
    + apply Forall_insert; [exact Hpos | lia].
    + rewrite sum_insert by lia. lia.
    + apply next_raw_bytes; assumption.
  - repeat split; auto. apply next_raw_bytes; assumption.
Qed.

(** X13.  After creation and fewer than 2^32 blocks whose data bytes are
    bytes, the counters of the sixteen group types add up to the counter of
    the groups: every completed group is counted under exactly one type. *)
Theorem group_type_counters_add_up (is_rbds' : bool) (bs : list v4l2_rds_data) :
  Z.of_nat (length bs) < 2 ^ 32 -> Forall byte_block bs ->
  let st := statistics (run (v4l2_rds_create is_rbds') bs) in
  length (group_type_cnt st) = 16%nat
  /\ sum (group_type_cnt st) = group_cnt st.
Proof.
  intros Hlen Hbytes. cbv zeta.
  assert (Ht : typed (run (v4l2_rds_create is_rbds') bs)).
  { induction bs as [|d bs IH] using rev_ind.
    - unfold typed. cbn. repeat split.
      + repeat constructor; lia.
      + repeat constructor; cbn; lia.
    - rewrite length_app in Hlen. cbn [length] in Hlen.
      apply Forall_app in Hbytes as [Hbs Hd]. apply Forall_cons in Hd as [Hd _].
      rewrite run_snoc.
      apply (typed_step (Z.of_nat (length bs))); try lia; auto.
      + apply accounts_run. lia.
      + apply IH; [lia | exact Hbs]. }
  destruct Ht as (Hl & _ & Hs & _). split; assumption.
Qed.

(** ** Invariants of the published fields *)

Lemma preserves_modify I g :
  (forall s, I s -> I (g s)) -> preserves I (modify g).
Proof. intros Hg s Hs. apply Hg, Hs. Qed.

(** The updates that leave the invariant alone by computation. *)
Ltac preserves_blind :=
  try (apply preserves_modify; intros ? Hinv; exact Hinv).

(** Discharges the premises of [v4l2_rds_add_preserves] for an invariant
    [fun s => J (f s)] of a component [f] that the assembler and the named
    decoders leave alone; the other premises remain. *)
Ltac add_preserves f J :=
  apply (v4l2_rds_add_preserves (fun s => J (f s)));
  [ intros ?; preserves_blind
  | intros ?; preserves_blind
  | intros ?; preserves_blind
  | preserves_blind
  | intros ?; try (apply (preserves_keeps f J); solve [decoder_keeps])
  | intros ?; try (apply (preserves_keeps f J); solve [decoder_keeps])
  | intros ?; try (apply (preserves_keeps f J); solve [decoder_keeps])
  | intros ?; try (apply (preserves_keeps f J); solve [decoder_keeps])
  | apply decode_group_cases;
    try (apply (preserves_keeps f J); solve [decoder_keeps]) ].

(** The cast binds tighter than the mask: the traffic programme code that
    [rds_decode_b] reads is always false. *)
Lemma traffic_prog_false x : truthy (bool_to_int (truthy x) .& 0x04) = false.
Proof. destruct (truthy x); reflexivity. Qed.

(** X14.  The traffic programme flag [tp] of the snapshot is never set: in
    every state reachable through create, reset and add it is false,
    whatever bit 10 of the blocks B was. *)
Theorem tp_never_set (s : rds_private_state) :
  reachable s -> tp (handle s) = false.
Proof.
  revert s. apply reachable_invariant.
  - reflexivity.
  - intros s [|] _; reflexivity.
  - intros d.
    add_preserves (fun s : rds_private_state => tp (handle s)) (fun v : bool => v = false).
    unfold rds_decode_b, or_valid_fields. cbv zeta. preserves_tac; preserves_blind.
    apply preserves_modify. intros s _. apply traffic_prog_false.
Qed.

Lemma rds_add_oda_size new_oda :
  preserves (fun s => 0 <= oda_size (rds_oda (handle s)) <= 1) (rds_add_oda new_oda).
Proof.
  intros s Hs. unfold rds_add_oda.
  rewrite bind_eq, gets_eq, fst_pair_eq, snd_pair_eq.
  destruct (Z.ltb_spec 0 (oda_size (rds_oda (handle s)))) as [Hpos|Hzero].
  - destruct (_ =? _); exact Hs.
  - destruct (_ >=? _); [exact Hs|].
    rewrite bind_eq, modify_eq, snd_pair_eq. cbv beta.
    rewrite ret_eq, snd_pair_eq.
    assert (E : oda_size (rds_oda (handle s)) = 0) by lia.
    match goal with
    | |- 0 <= oda_size (rds_oda (handle ?s')) <= 1 =>
      assert (E' : oda_size (rds_oda (handle s')) = u8 (oda_size (rds_oda (handle s)) + 1))
        by reflexivity
    end.
    rewrite E', E. vm_compute. split; discriminate.
Qed.

(** X15.  The set of open data announcements never holds more than one
    entry: [rds_add_oda] appends to the empty set alone. *)
Theorem oda_set_at_most_one (s : rds_private_state) :
  reachable s -> 0 <= oda_size (rds_oda (handle s)) <= 1.
Proof.
  revert s. apply reachable_invariant.
  - intros b. cbn. lia.
  - intros s [|] _; cbn; lia.
  - intros d.
    add_preserves (fun s : rds_private_state => oda_size (rds_oda (handle s)))
      (fun v : Z => 0 <= v <= 1).
    pose proof rds_add_oda_size as Hadd.
    unfold rds_decode_group3, rds_decode_tmc_system, or_valid_fields. cbv zeta.
    preserves_tac; preserves_blind.
Qed.

(** X16.  [v4l2_rds_add] never changes the variant of the decoder, and
    [v4l2_rds_reset] keeps it: in a state reached from [v4l2_rds_create b]
    the flag [is_rbds] is [b]. *)
Theorem variant_is_kept (b : bool) (bs : list v4l2_rds_data)
    (reset_statistics : bool) :
  is_rbds (handle (run (v4l2_rds_create b) bs)) = b
  /\ is_rbds (handle (v4l2_rds_reset (run (v4l2_rds_create b) bs) reset_statistics)) = b.
Proof.
  assert (Hrun : is_rbds (handle (run (v4l2_rds_create b) bs)) = b).
  { induction bs as [|d bs IH] using rev_ind; [reflexivity|].
    rewrite run_snoc. revert IH.
    generalize (run (v4l2_rds_create b) bs). intros s.
    add_preserves (fun s : rds_private_state => is_rbds (handle s))
      (fun v : bool => v = b). }
  split; [exact Hrun|].
  destruct reset_statistics; cbn; exact Hrun.
Qed.

(** ** The programme type is accepted on its second reception in a row *)

(** The programme type code of a block B: bits 5-9. *)
Definition pty_code (b : v4l2_rds_data) : Z :=
  u8 ((msb b << 3) .| (lsb b >> 5)) .& 0x1f.

Definition pty_pair (s : rds_private_state) : Z * Z := (pty (handle s), new_pty s).

(** Follows the component [f] through a statement that keeps it. *)
Ltac follow f :=
  apply (hoare_eq_bind_keeps f); [solve [keeps_tac] | intros ?].

(** A read of a part of the followed component gives the part of its
    value. *)
Lemma hoare_bind_gets_followed {A B C} (f : rds_private_state -> C) (v : C)
    (g : rds_private_state -> A) (g' : C -> A) (k : A -> M B) Q :
  (forall s, g s = g' (f s)) ->
  hoare (fun s => f s = v) (k (g' v)) Q ->
  hoare (fun s => f s = v) (bind (gets g) k) Q.
Proof.
  intros Hg Hk s Hs. rewrite bind_eq, gets_eq, fst_pair_eq, snd_pair_eq.
  rewrite Hg, Hs. apply Hk, Hs.
Qed.

Lemma rds_decode_b_stages d s :
  pty_pair (snd (rds_decode_b d s))
  = (if pty (handle s) =? pty_code d then pty (handle s)
     else if new_pty s =? pty_code d then new_pty s
     else pty (handle s),
     pty_code d).
Proof.
  assert (Hh : hoare (fun s' => pty_pair s' = pty_pair s) (rds_decode_b d)
                 (fun _ s' => pty_pair s'
                    = (if pty (handle s) =? pty_code d then pty (handle s)
                       else if new_pty s =? pty_code d then new_pty s
                       else pty (handle s),
                       pty_code d))).
  { unfold rds_decode_b, or_valid_fields. cbv zeta. fold (pty_code d).
    do 6 follow pty_pair.
    apply (hoare_bind_gets_followed pty_pair _ _ fst); [reflexivity|].
    cbn [fst pty_pair].
    apply hoare_if; intros Hc.
    - rewrite Hc. intros s' Hs'. injection Hs' as Hp Hn.
      unfold pty_pair. cbn. rewrite Hp. reflexivity.
    - rewrite Hc.
      apply (hoare_bind_gets_followed pty_pair _ _ snd); [reflexivity|].
      cbn [snd pty_pair].
      apply hoare_if; intros Hc'.
      + rewrite Hc'. intros s' Hs'. injection Hs' as Hp Hn.
        unfold pty_pair. cbn. rewrite Hn.
        apply Z.eqb_eq in Hc'. rewrite Hc'. reflexivity.
      + rewrite Hc'. intros s' Hs'. injection Hs' as Hp Hn.
        unfold pty_pair. cbn. rewrite Hp. reflexivity. }
  apply (Hh s). reflexivity.
Qed.

(** What a group with block B [b] does to the published and the staged
    programme type. *)
Definition stage (b : v4l2_rds_data) (p : Z * Z) : Z * Z :=
  (if fst p =? pty_code b then fst p
   else if snd p =? pty_code b then snd p
   else fst p,
   pty_code b).

Lemma decode_group_keeps_pty id decode :
  decode_group id = Some decode -> keeps pty_pair decode.
Proof. revert id decode. apply decode_group_cases; decoder_keeps. Qed.

Lemma rds_decode_group_keeps_pty : keeps pty_pair rds_decode_group.
Proof.
  unfold rds_decode_group. keeps_step; [keeps_tac|].
  keeps_step; [keeps_tac|].
  destruct (decode_group a) as [decode|] eqn:Hd; [|keeps_tac].
  apply (decode_group_keeps_pty a), Hd.
Qed.

Lemma rds_decode_a_keeps_pty x : keeps pty_pair (rds_decode_a x).
Proof. decoder_keeps. Qed.

Lemma rds_decode_c_keeps_pty x : keeps pty_pair (rds_decode_c x).
Proof. decoder_keeps. Qed.

Lemma rds_decode_d_keeps_pty x : keeps pty_pair (rds_decode_d x).
Proof. decoder_keeps. Qed.

Lemma receive_d_pty d s :
  pty_pair (snd (receive_d d s))
  = stage (at_index zero_data (rds_data_raw s) 1) (pty_pair s).
Proof.
  rewrite receive_d_unfold, pre_decode_unfold.
  assert (Hr : rds_data_raw (group_received d s) = store (rds_data_raw s) 3 d)
    by reflexivity.
  assert (H0 : pty_pair (group_received d s) = pty_pair s) by reflexivity.
  rewrite Hr.
  rewrite (at_index_store_ne zero_data (rds_data_raw s) 3 1)
    by (intros E; vm_compute in E; discriminate).
  remember (group_received d s) as s0 eqn:E0. clear E0.
  rewrite rds_decode_group_keeps_pty, rds_decode_d_keeps_pty, rds_decode_c_keeps_pty.
  pose proof (rds_decode_a_keeps_pty (at_index zero_data (store (rds_data_raw s) 3 d) 0) s0)
    as Ha.
  remember (snd (rds_decode_a (at_index zero_data (store (rds_data_raw s) 3 d) 0) s0))
    as sa eqn:Ea. clear Ea.
  rewrite rds_decode_b_stages. unfold stage.
  injection Ha as Hp Hn. injection H0 as Hp0 Hn0.
  unfold pty_pair. cbn [fst snd]. rewrite Hp, Hn, Hp0, Hn0. reflexivity.
Qed.

Lemma v4l2_rds_add_pty d s :
  completes s d = true ->
  pty_pair (snd (v4l2_rds_add d s))
  = stage (at_index zero_data (rds_data_raw s) 1) (pty_pair s).
Proof.
  intros Hc.
  rewrite v4l2_rds_add_unfold, count_block_id.
  pose proof (count_block_frame d s) as Hf.
  assert (Hk : pty_pair (snd (count_block d s)) = pty_pair s).
  { assert (Hkeeps : keeps pty_pair (count_block d)) by decoder_keeps. apply Hkeeps. }
  remember (snd (count_block d s)) as s1 eqn:E1. clear E1.
  injection Hf as Hstate Hraw _ _ _ _.
  unfold completes in Hc. rewrite <- Hstate in Hc. rewrite <- Hraw, <- Hk.
  destruct (decode_state s1); try discriminate.
  cbn [dispatch]. rewrite Hc. apply receive_d_pty.
Qed.

Lemma v4l2_rds_add_idle_pty d s :
  completes s d = false -> pty_pair (snd (v4l2_rds_add d s)) = pty_pair s.
Proof.
  intros Hidle. apply (v4l2_rds_add_idle pty_pair); auto;
    intros; apply keeps_modify; intros; reflexivity.
Qed.

Lemma reachable_run s bs : reachable s -> reachable (run s bs).
Proof.
  intros Hr. induction bs as [|d bs IH] using rev_ind; [exact Hr|].
  rewrite run_snoc. apply reachable_add, IH.
Qed.

(** The first three blocks of a group that arrives at the empty assembler
    are stored, and the fourth completes the group. *)
Lemma first_three_blocks s a b c d :
  reachable s -> decode_state s = RDS_EMPTY -> is_group a b c d = true ->
  completes s a = false
  /\ completes (run s [a]) b = false
  /\ completes (run s [a; b]) c = false
  /\ completes (run s [a; b; c]) d = true
  /\ at_index zero_data (rds_data_raw (run s [a; b; c])) 1 = b
  /\ decode_state (run s [a; b; c; d]) = RDS_EMPTY.
Proof.
  intros Hr Hempty Hg.
  unfold is_group in Hg.
  apply andb_true_iff in Hg as [Hg Hd]. apply andb_true_iff in Hg as [Hg Hc].
  apply andb_true_iff in Hg as [Ha Hb].
  apply Z.eqb_eq in Ha, Hb, Hd.
  destruct (four_blocks _ (reachable_raw s Hr)) as (r0 & r1 & r2 & r3 & Eraw).
  cbn [run fold_left].
  destruct (v4l2_rds_add_spec a s) as (Hs1 & Hr1 & _).
  rewrite Hempty in Hs1, Hr1. rewrite Ha in Hs1, Hr1. rewrite Eraw in Hr1.
  cbn in Hs1, Hr1.
  remember (snd (v4l2_rds_add a s)) as s1 eqn:E1. clear E1.
  destruct (v4l2_rds_add_spec b s1) as (Hs2 & Hr2 & _).
  rewrite Hs1 in Hs2, Hr2. rewrite Hb in Hs2, Hr2. rewrite Hr1 in Hr2.
  cbn in Hs2, Hr2.
  remember (snd (v4l2_rds_add b s1)) as s2 eqn:E2. clear E2.
  destruct (v4l2_rds_add_spec c s2) as (Hs3 & Hr3 & _).
  rewrite Hs2 in Hs3, Hr3. rewrite Hr2 in Hr3.
  cbn [next_state next_raw] in Hs3, Hr3.
  rewrite Hc in Hs3, Hr3. cbn in Hr3.
  remember (snd (v4l2_rds_add c s2)) as s3 eqn:E3. clear E3.
  destruct (v4l2_rds_add_spec d s3) as (Hs4 & _).
  rewrite Hs3 in Hs4. cbn [next_state] in Hs4.
  unfold completes. rewrite Hempty, Hs1, Hs2, Hs3, Hr3, Hd.
  repeat split. exact Hs4.
Qed.

Lemma group_pty s a b c d :
  reachable s -> decode_state s = RDS_EMPTY -> is_group a b c d = true ->
  pty_pair (run s [a; b; c; d]) = stage b (pty_pair s).
Proof.
  intros Hr Hempty Hg.
  destruct (first_three_blocks s a b c d Hr Hempty Hg) as (H1 & H2 & H3 & H4 & Hb & _).
  change (run s [a; b; c; d]) with (snd (v4l2_rds_add d (run s [a; b; c]))).
  rewrite (v4l2_rds_add_pty _ _ H4), Hb.
  change (run s [a; b; c]) with (snd (v4l2_rds_add c (run s [a; b]))).
  rewrite (v4l2_rds_add_idle_pty _ _ H3).
  change (run s [a; b]) with (snd (v4l2_rds_add b (run s [a]))).
  rewrite (v4l2_rds_add_idle_pty _ _ H2).
  change (run s [a]) with (snd (v4l2_rds_add a s)).
  rewrite (v4l2_rds_add_idle_pty _ _ H1). reflexivity.
Qed.

(** X17.  The programme type is accepted on its second reception in a row:
    after two groups that follow each other, the published programme type is
    the code of the second group if the first group carried the same code,
    and the one published before the second group otherwise. *)
Theorem pty_accepted_on_second_reception (s : rds_private_state)
    (a1 b1 c1 d1 a2 b2 c2 d2 : v4l2_rds_data) :
  reachable s -> decode_state s = RDS_EMPTY ->
  is_group a1 b1 c1 d1 = true -> is_group a2 b2 c2 d2 = true ->
  let s1 := run s [a1; b1; c1; d1] in
  let s2 := run s1 [a2; b2; c2; d2] in
  pty (handle s2)
  = if pty_code b2 =? pty_code b1 then pty_code b2 else pty (handle s1).
Proof.
  intros Hr Hempty Hg1 Hg2. cbv zeta.
  pose proof (group_pty s a1 b1 c1 d1 Hr Hempty Hg1) as H1.
  destruct (first_three_blocks s a1 b1 c1 d1 Hr Hempty Hg1) as (_ & _ & _ & _ & _ & He1).
  pose proof (reachable_run s [a1; b1; c1; d1] Hr) as Hr1.
  pose proof (group_pty _ a2 b2 c2 d2 Hr1 He1 Hg2) as H2.
  remember (run s [a1; b1; c1; d1]) as s1 eqn:E1. clear E1.
  remember (run s1 [a2; b2; c2; d2]) as s2 eqn:E2. clear E2.
  unfold stage, pty_pair in H1, H2. cbn [fst snd] in H1, H2.
  injection H1 as _ Hn1. injection H2 as Hp2 _.
  rewrite Hp2, Hn1.
  repeat match goal with
         | |- context [?x =? ?y] => destruct (Z.eqb_spec x y)
         end; congruence.
Qed.

(** ** The published strings are terminated *)

Lemma memset0_length dst n : length (memset0 dst n) = length dst.
Proof.
  unfold memset0. rewrite length_app, length_replicate, length_drop. lia.
Qed.


Lemma memcpy_length dst src n :
  (Z.to_nat n <= length src)%nat -> (Z.to_nat n <= length dst)%nat ->
  length (memcpy dst src n) = length dst.
Proof.
  intros Hs Hd. unfold memcpy. rewrite length_app, length_take, length_drop. lia.
Qed.


Lemma store_length {A} (l : list A) i v : length (store l i v) = length l.
Proof. unfold store. apply length_insert. Qed.


Lemma range_bounds n i : In i (range n) -> 0 <= i < Z.of_nat n.
Proof.
  unfold range. rewrite in_map_iff. intros (k & <- & Hk). apply in_seq in Hk. lia.
Qed.

Lemma preserves_for_loop_in {A} I (l : list Z) (body : Z -> A -> M A) (a : A) :
  (forall i a', In i l -> preserves I (body i a')) -> preserves I (for_loop l body a).
Proof.
  revert a. induction l as [|i l IH]; intros a Hbody; cbn [for_loop].
  - apply preserves_ret.
  - apply preserves_bind; [apply Hbody; left; reflexivity|].
    intros a'. apply IH. intros j a'' Hj. apply Hbody. right. exact Hj.
Qed.

(** A read whose value the rest of the computation depends on: the rest is
    considered from the state that was read. *)
Lemma preserves_bind_gets {A B} I (g : rds_private_state -> A) (k : A -> M B) :
  (forall s, I s -> I (snd (k (g s) s))) -> preserves I (bind (gets g) k).
Proof.
  intros Hk s Hs. rewrite bind_eq, gets_eq, fst_pair_eq, snd_pair_eq. apply Hk, Hs.
Qed.

(** *** The radio text *)

Definition rt_ok (s : rds_private_state) : Prop :=
  length (rt (handle s)) = 65%nat
  /\ nth 64 (rt (handle s)) 0 = 0
  /\ 0 <= rt_length (handle s) <= 64
  /\ length (new_rt s) = 64%nat.



(** Decomposes a computation down to its updates and to the reads of the
    component [g], from which the rest is run in the state that was read. *)
Ltac preserves_upto g :=
  repeat lazymatch goal with
    | |- preserves _ (bind (gets g) _) => apply preserves_bind_gets; intros ? ?
    | |- preserves _ (bind _ _) => apply preserves_bind; [| intros ?]
    | |- preserves _ (ret _) => apply preserves_ret
    | |- preserves _ (gets _) => apply preserves_gets
    | |- preserves _ (if _ then _ else _) => apply preserves_if
    | |- preserves _ (for_loop _ _ _) =>
      apply preserves_for_loop_in;
      let Hi := fresh "Hi" in intros ? ? Hi; apply range_bounds in Hi
    | |- preserves _ (modify _) => apply preserves_modify; intros ? ?
    end.


(** *** The programme service name and the programme type name *)







(** ** The buffer of a multi-group TMC message *)

Lemma sequence_id_range x : 0 <= u8 ((x .& 0x30) >> 4) <= 3.
Proof.
  rewrite Z.shiftr_land. change (0x30 >> 4) with (Z.ones 2).
  rewrite Z.land_ones by lia.
  assert (0 <= (x >> 4) mod 2 ^ 2 < 2 ^ 2) by (apply Z.mod_pos_bound; lia).
  unfold u8. rewrite Z.mod_small; lia.
Qed.

Definition tmc_part (s : rds_private_state) : Z * Z * list Z :=
  (grp_seq_id s, msg_length (new_tmc_msg s), optional_tmc s).

(** The blocks received and the blocks to come are at most four. *)
Definition tmc_part_ok (p : Z * Z * list Z) : Prop :=
  let '(seq_id, len, optional) := p in
  0 <= seq_id <= 3 /\ 0 <= len /\ len + seq_id <= 4 /\ length optional = 4%nat.

Lemma rds_decode_group8_tmc :
  preserves (fun s => tmc_part_ok (tmc_part s)) rds_decode_group8.
Proof.
  unfold rds_decode_group8, rds_decode_tmc_single_group, rds_decode_tmc_multi_group,
    rds_tmc_decode_additional, or_valid_fields, clear_valid_fields. cbv zeta.
  preserves_upto grp_seq_id.
  all: run_all_eqn.
  all: unfold tmc_part_ok, tmc_part in *; cbn.
  all: match goal with Hinv : _ /\ _ |- _ => destruct Hinv as (Hseq & Hlen & Hsum & Hopt) end.
  all: rewrite ?store_length.
  all: try match goal with
           | |- context [u8 ((?x .& 48) >> 4)] => pose proof (sequence_id_range x)
           end.
  all: try match goal with
           | Hc : (_ && (_ =? grp_seq_id _ - 1)) = true |- _ =>
             apply andb_true_iff in Hc as [_ Hc]; apply Z.eqb_eq in Hc
           end.
  all: try match goal with
           | |- context [u8 (msg_length ?m + 1)] =>
             assert (Hu : u8 (msg_length m + 1) = msg_length m + 1)
               by (apply Z.mod_small; lia);
             rewrite Hu
           end.
  all: repeat split; auto; lia.
Qed.

(** X19.  The buffer of the optional blocks of a multi-group TMC message
    never overflows: in every reachable state the message in reception
    holds at most four optional blocks, and together with the blocks that
    the sequence id lets follow they are at most four. *)
Theorem tmc_buffer_never_overflows (s : rds_private_state) :
  reachable s ->
  length (optional_tmc s) = 4%nat
  /\ 0 <= grp_seq_id s <= 3
  /\ 0 <= msg_length (new_tmc_msg s)
  /\ msg_length (new_tmc_msg s) + grp_seq_id s <= 4.
Proof.
  intros Hr.
  assert (Hok : tmc_part_ok (tmc_part s)).
  { apply (reachable_invariant (fun s => tmc_part_ok (tmc_part s))); [| | |exact Hr].
    - intros b. repeat split; cbn; lia.
    - intros s' [|] _; repeat split; cbn; lia.
    - intros d. add_preserves tmc_part tmc_part_ok. apply rds_decode_group8_tmc. }
  destruct Hok as (Hseq & Hlen & Hsum & Hopt). repeat split; auto; lia.
Qed.

(** ** The programme service name is published on its second reception *)

(** [rds_add_ps] on the staged name and its validity marks. *)
Definition add_ps (pos c : Z) (p : list Z * list Z) : bool * (list Z * list Z) :=
  let p' :=
    if c =? at_index 0 (fst p) pos then (fst p, store (snd p) pos 1)
    else (store (fst p) pos c, memset0 (snd p) 8) in
  (forallb (fun v => v =? 1) (take 8 (snd p')), p').

(** The published name, the staged name, the validity marks and the group. *)
Definition ps_part4 (s : rds_private_state)
    : list Z * (list Z * list Z) * v4l2_rds_group :=
  (ps (handle s), (new_ps s, new_ps_valid s), rds_group s).

Lemma rds_add_ps_effect pos c s :
  ps_part4 (snd (rds_add_ps pos c s))
  = (ps (handle s), snd (add_ps pos c (new_ps s, new_ps_valid s)), rds_group s)
  /\ fst (rds_add_ps pos c s) = fst (add_ps pos c (new_ps s, new_ps_valid s)).
Proof.
  unfold rds_add_ps, add_ps. cbn [fst snd].
  run_statements.
  destruct (c =? at_index 0 (new_ps s) pos); run_statements; split; reflexivity.
Qed.

(** What a group 0 with segment address [segment] and the characters [c1]
    and [c2] does to the published name, the staged name and the marks. *)
Definition ps_step (segment c1 c2 : Z) (q : list Z * (list Z * list Z))
    : list Z * (list Z * list Z) :=
  let r1 := add_ps (u8 (segment * 2)) c1 (snd q) in
  let r2 := add_ps (u8 (segment * 2 + 1)) c2 (snd r1) in
  (if fst r2 && memcmp_ne (fst (snd r2)) (fst q) 8
   then memcpy (fst q) (fst (snd r2)) 8 else fst q,
   snd r2).

Lemma hoare_eq_bind_result {A B C} (f : rds_private_state -> C) (v : C)
    (m : M A) (k : A -> M B) Q (g : C -> C) (r : C -> A) :
  (forall s, f (snd (m s)) = g (f s) /\ fst (m s) = r (f s)) ->
  hoare (fun s => f s = g v) (k (r v)) Q ->
  hoare (fun s => f s = v) (bind m k) Q.
Proof.
  intros Hm Hk s Hs. rewrite bind_eq.
  destruct (Hm s) as [Hstate Hres]. rewrite Hres, Hs.
  apply Hk. rewrite Hstate, Hs. reflexivity.
Qed.

Lemma rds_decode_group0_ps_effect s :
  let g := rds_group s in
  ps_part4 (snd (rds_decode_group0 s))
  = (ps_step (u8 (data_b_lsb g .& 0x03)) (data_d_msb g) (data_d_lsb g)
       (ps (handle s), (new_ps s, new_ps_valid s)),
     g).
Proof.
  cbv zeta.
  set (g := rds_group s). set (q := (ps (handle s), (new_ps s, new_ps_valid s))).
  set (segment := u8 (data_b_lsb g .& 0x03)).
  assert (Hh : hoare (fun s' => ps_part4 s' = (fst q, snd q, g)) rds_decode_group0
                 (fun _ s' => ps_part4 s'
                    = (ps_step segment (data_d_msb g) (data_d_lsb g) q, g))).
  { unfold rds_decode_group0, or_valid_fields.
    apply (hoare_bind_gets_followed ps_part4 _ _ snd); [reflexivity|].
    cbn [snd]. cbv zeta. fold segment.
    do 6 follow ps_part4.
    apply (hoare_eq_bind_result ps_part4 _ _ _ _
             (fun v => (fst (fst v), snd (add_ps (u8 (segment * 2)) (data_d_msb g)
                                            (snd (fst v))), snd v))
             (fun v => fst (add_ps (u8 (segment * 2)) (data_d_msb g) (snd (fst v))))).
    { intros s'. apply rds_add_ps_effect. }
    cbn [fst snd].
    set (r1 := add_ps (u8 (segment * 2)) (data_d_msb g) (snd q)).
    apply (hoare_eq_bind_result ps_part4 _ _ _ _
             (fun v => (fst (fst v), snd (add_ps (u8 (segment * 2 + 1)) (data_d_lsb g)
                                            (snd (fst v))), snd v))
             (fun v => fst (add_ps (u8 (segment * 2 + 1)) (data_d_lsb g) (snd (fst v))))).
    { intros s'. apply rds_add_ps_effect. }
    cbn [fst snd].
    set (r2 := add_ps (u8 (segment * 2 + 1)) (data_d_lsb g) (snd r1)).
    assert (Hstep : ps_step segment (data_d_msb g) (data_d_lsb g) q
                    = (if fst r2 && memcmp_ne (fst (snd r2)) (fst q) 8
                       then memcpy (fst q) (fst (snd r2)) 8 else fst q, snd r2))
      by reflexivity.
    rewrite Hstep. clearbody r2. clear Hstep.
    apply hoare_bind
      with (R := fun _ s' => ps_part4 s'
                   = (if fst r2 && memcmp_ne (fst (snd r2)) (fst q) 8
                      then memcpy (fst q) (fst (snd r2)) 8 else fst q, snd r2, g)).
    - apply hoare_if; intros Hc; rewrite Hc; cbn [andb].
      + apply (hoare_bind_gets_followed ps_part4 _ _ (fun v => fst (snd (fst v))));
          [reflexivity|].
        apply (hoare_bind_gets_followed ps_part4 _ _ (fun v => fst (fst v)));
          [reflexivity|].
        cbn [fst snd].
        intros s' Hs'. cbv beta.
        destruct (memcmp_ne (fst (snd r2)) (fst q) 8); run_statements.
        * destruct r2 as [b2 [n2 v2]]. unfold ps_part4 in *. cbn in *.
          injection Hs' as Hp Hn Hv Hg. rewrite Hp, Hn, Hv, Hg. reflexivity.
        * unfold ps_part4 in *. cbn. exact Hs'.
      + intros s' Hs'. exact Hs'.
    - intros updated. apply (hoare_keeps ps_part4). unfold rds_add_af, or_valid_fields.
      keeps_tac. }
  apply (Hh s). reflexivity.
Qed.

Definition ps_part3 (s : rds_private_state) : list Z * (list Z * list Z) :=
  (ps (handle s), (new_ps s, new_ps_valid s)).

Lemma rds_decode_group_0 s :
  group_id (rds_group s) = 0 ->
  ps_part3 (snd (rds_decode_group s))
  = ps_step (u8 (data_b_lsb (rds_group s) .& 0x03)) (data_d_msb (rds_group s))
      (data_d_lsb (rds_group s)) (ps_part3 s).
Proof.
  intros Hid. unfold rds_decode_group. run_statements. rewrite Hid.
  cbn [decode_group].
  match goal with
  | |- ps_part3 (snd (rds_decode_group0 ?s')) = _ =>
    assert (Ep : ps_part3 s' = ps_part3 s) by reflexivity;
    assert (Eg : rds_group s' = rds_group s) by reflexivity;
    pose proof (f_equal fst (rds_decode_group0_ps_effect s')) as Heff;
    remember s' as s1 eqn:E1; clear E1
  end.
  cbv zeta in Heff. cbn [fst] in Heff. fold (ps_part3 s1) in Heff.
  rewrite Eg, Ep in Heff. exact Heff.
Qed.

Lemma decoders_keep_ps raw : keeps ps_part3 (pre_decode raw).
Proof. unfold pre_decode. decoder_keeps. Qed.

Lemma at_index_store_eq {A} (d0 : A) (l : list A) (i : Z) (v : A) :
  (Z.to_nat i < length l)%nat -> at_index d0 (store l i v) i = v.
Proof.
  intros Hi. unfold at_index, store.
  rewrite nth_lookup, list_lookup_insert_eq by exact Hi. reflexivity.
Qed.

Lemma receive_d_ps d s :
  length (rds_data_raw s) = 4%nat ->
  u8 (msb (at_index zero_data (rds_data_raw s) 1) >> 4) = 0 ->
  ps_part3 (snd (receive_d d s))
  = ps_step (u8 ((lsb (at_index zero_data (rds_data_raw s) 1) .& 0x1f) .& 0x03))
      (msb d) (lsb d) (ps_part3 s).
Proof.
  intros Hlen Hid. rewrite receive_d_unfold.
  assert (Hr : rds_data_raw (group_received d s) = store (rds_data_raw s) 3 d)
    by reflexivity.
  assert (H0 : ps_part3 (group_received d s) = ps_part3 s) by reflexivity.
  assert (H0g : rds_group (group_received d s) = zero_group) by reflexivity.
  rewrite Hr.
  destruct (pre_decode_spec (store (rds_data_raw s) 3 d) (group_received d s))
    as (_ & _ & _ & Hgrp).
  pose proof (decoders_keep_ps (store (rds_data_raw s) 3 d) (group_received d s)) as Hk.
  remember (group_received d s) as s0 eqn:E0. clear E0.
  remember (snd (pre_decode (store (rds_data_raw s) 3 d) s0)) as s1 eqn:E1. clear E1.
  rewrite H0g in Hgrp.
  rewrite (at_index_store_ne zero_data (rds_data_raw s) 3 1) in Hgrp
    by (intros E; vm_compute in E; discriminate).
  rewrite (at_index_store_eq zero_data (rds_data_raw s) 3 d) in Hgrp
    by (rewrite Hlen; vm_compute; lia).
  assert (Hgid : group_id (rds_group s1) = 0) by (rewrite Hgrp; exact Hid).
  rewrite (rds_decode_group_0 s1 Hgid), Hk, H0, Hgrp. reflexivity.
Qed.

Lemma v4l2_rds_add_ps d s :
  completes s d = true ->
  length (rds_data_raw s) = 4%nat ->
  u8 (msb (at_index zero_data (rds_data_raw s) 1) >> 4) = 0 ->
  ps_part3 (snd (v4l2_rds_add d s))
  = ps_step (u8 ((lsb (at_index zero_data (rds_data_raw s) 1) .& 0x1f) .& 0x03))
      (msb d) (lsb d) (ps_part3 s).
Proof.
  intros Hc Hlen Hid.
  rewrite v4l2_rds_add_unfold, count_block_id.
  pose proof (count_block_frame d s) as Hf.
  assert (Hk : ps_part3 (snd (count_block d s)) = ps_part3 s).
  { assert (Hkeeps : keeps ps_part3 (count_block d)) by decoder_keeps. apply Hkeeps. }
  remember (snd (count_block d s)) as s1 eqn:E1. clear E1.
  injection Hf as Hstate Hraw _ _ _ _.
  unfold completes in Hc. rewrite <- Hstate in Hc. rewrite <- Hraw, <- Hk in *.
  destruct (decode_state s1); try discriminate.
  cbn [dispatch]. rewrite Hc. apply receive_d_ps; assumption.
Qed.

Lemma v4l2_rds_add_idle_ps d s :
  completes s d = false -> ps_part3 (snd (v4l2_rds_add d s)) = ps_part3 s.
Proof.
  intros Hidle. apply (v4l2_rds_add_idle ps_part3); auto;
    intros; apply keeps_modify; intros; reflexivity.
Qed.

(** A group 0 that carries the characters [c1] and [c2] of the segment
    [segment] of the name. *)
Definition ps_group (segment c1 c2 : Z) (a b c d : v4l2_rds_data) : Prop :=
  is_group a b c d = true
  /\ u8 (msb b >> 4) = 0
  /\ u8 ((lsb b .& 0x1f) .& 0x03) = segment
  /\ msb d = c1 /\ lsb d = c2.

Lemma group_ps s segment c1 c2 a b c d :
  reachable s -> decode_state s = RDS_EMPTY -> ps_group segment c1 c2 a b c d ->
  ps_part3 (run s [a; b; c; d]) = ps_step segment c1 c2 (ps_part3 s)
  /\ reachable (run s [a; b; c; d])
  /\ decode_state (run s [a; b; c; d]) = RDS_EMPTY.
Proof.
  intros Hr Hempty (Hg & Hid & Hseg & Hc1 & Hc2).
  destruct (first_three_blocks s a b c d Hr Hempty Hg) as (H1 & H2 & H3 & H4 & Hb & He).
  split; [|split; [apply reachable_run, Hr | exact He]].
  pose proof (reachable_raw _ (reachable_run s [a; b; c] Hr)) as Hlen.
  change (run s [a; b; c; d]) with (snd (v4l2_rds_add d (run s [a; b; c]))).
  rewrite (v4l2_rds_add_ps _ _ H4 Hlen) by (rewrite Hb; exact Hid).
  rewrite Hb, Hseg, Hc1, Hc2.
  change (run s [a; b; c]) with (snd (v4l2_rds_add c (run s [a; b]))).
  rewrite (v4l2_rds_add_idle_ps _ _ H3).
  change (run s [a; b]) with (snd (v4l2_rds_add b (run s [a]))).
  rewrite (v4l2_rds_add_idle_ps _ _ H2).
  change (run s [a]) with (snd (v4l2_rds_add a s)).
  rewrite (v4l2_rds_add_idle_ps _ _ H1). reflexivity.
Qed.

(** *** Two passes over the name *)

Lemma add_ps_staged pos c staged valid :
  (Z.to_nat pos < length staged)%nat ->
  fst (snd (add_ps pos c (staged, valid))) = store staged pos c
  /\ length (snd (snd (add_ps pos c (staged, valid)))) = length valid.
Proof.
  intros Hpos. unfold add_ps. cbn [fst snd].
  destruct (Z.eqb_spec c (at_index 0 staged pos)) as [->|Hne]; cbn [fst snd].
  - split; [|apply store_length].
    unfold store, at_index. symmetry. apply list_insert_id.
    destruct (lookup_lt_is_Some_2 staged _ Hpos) as [x Hx].
    rewrite (nth_lookup_Some _ _ 0 _ Hx). exact Hx.
  - split; [reflexivity | apply memset0_length].
Qed.

Lemma add_ps_validated pos c staged valid :
  at_index 0 staged pos = c ->
  add_ps pos c (staged, valid)
  = (forallb (fun v => v =? 1) (take 8 (store valid pos 1)), (staged, store valid pos 1)).
Proof.
  intros <-. unfold add_ps. cbn [fst snd]. rewrite Z.eqb_refl. reflexivity.
Qed.

Definition ps_lengths (q : list Z * (list Z * list Z)) : Prop :=
  length (fst q) = 9%nat /\ length (fst (snd q)) = 8%nat /\ length (snd (snd q)) = 8%nat.

Lemma ps_step_staged segment c1 c2 q :
  0 <= segment <= 3 -> ps_lengths q ->
  ps_lengths (ps_step segment c1 c2 q)
  /\ fst (snd (ps_step segment c1 c2 q))
     = store (store (fst (snd q)) (segment * 2) c1) (segment * 2 + 1) c2.
Proof.
  intros Hseg (Hp & Hn & Hv). destruct q as [name [staged valid]]. cbn [fst snd] in *.
  assert (Hu1 : u8 (segment * 2) = segment * 2) by (apply Z.mod_small; lia).
  assert (Hu2 : u8 (segment * 2 + 1) = segment * 2 + 1) by (apply Z.mod_small; lia).
  unfold ps_step. cbn [fst snd]. rewrite Hu1, Hu2.
  destruct (add_ps_staged (segment * 2) c1 staged valid ltac:(lia)) as [Hs1 Hv1].
  destruct (add_ps (segment * 2) c1 (staged, valid)) as [b1 [staged1 valid1]].
  cbn [fst snd] in *. subst staged1.
  destruct (add_ps_staged (segment * 2 + 1) c2 (store staged (segment * 2) c1) valid1
              ltac:(rewrite store_length; lia)) as [Hs2 Hv2].
  destruct (add_ps (segment * 2 + 1) c2 (store staged (segment * 2) c1, valid1))
    as [b2 [staged2 valid2]].
  cbn [fst snd] in *. subst staged2.
  split; [|reflexivity]. unfold ps_lengths. cbn [fst snd].
  rewrite !store_length. repeat split; try lia.
  destruct (b2 && _); [|exact Hp].
  rewrite memcpy_length; rewrite ?store_length; lia.
Qed.

Lemma memcmp_eq_nat (k : nat) : forall a b : list Z,
  forallb (fun p => fst p =? snd p) (combine (take k a) (take k b)) = true ->
  (k <= length a)%nat -> (k <= length b)%nat -> take k a = take k b.
Proof.
  induction k as [|k IH]; intros a b Hcmp Ha Hb; [reflexivity|].
  destruct a as [|x a]; [cbn in Ha; lia|]. destruct b as [|y b]; [cbn in Hb; lia|].
  cbn in Hcmp |- *. apply andb_true_iff in Hcmp as [Hxy Hrest].
  apply Z.eqb_eq in Hxy. subst y. f_equal.
  apply IH; [exact Hrest | cbn in Ha; lia | cbn in Hb; lia].
Qed.

Lemma memcmp_eq a b n :
  memcmp_ne a b n = false ->
  (Z.to_nat n <= length a)%nat -> (Z.to_nat n <= length b)%nat ->
  take (Z.to_nat n) a = take (Z.to_nat n) b.
Proof.
  unfold memcmp_ne. intros Hcmp Ha Hb. apply negb_false_iff in Hcmp.
  apply memcmp_eq_nat; assumption.
Qed.

Lemma ps_step_validated segment c1 c2 q :
  0 <= segment <= 3 -> ps_lengths q ->
  at_index 0 (fst (snd q)) (segment * 2) = c1 ->
  at_index 0 (fst (snd q)) (segment * 2 + 1) = c2 ->
  let valid' := store (store (snd (snd q)) (segment * 2) 1) (segment * 2 + 1) 1 in
  ps_lengths (ps_step segment c1 c2 q)
  /\ snd (ps_step segment c1 c2 q) = (fst (snd q), valid')
  /\ (forallb (fun v => v =? 1) (take 8 valid') = true ->
      take 8 (fst (ps_step segment c1 c2 q)) = fst (snd q)).
Proof.
  intros Hseg Hlen H1 H2 valid'.
  destruct (ps_step_staged segment c1 c2 q Hseg Hlen) as [Hlen' _].
  split; [exact Hlen'|].
  destruct Hlen as (Hp & Hn & Hv). destruct q as [name [staged valid]].
  cbn [fst snd] in *. subst valid'.
  assert (Hu1 : u8 (segment * 2) = segment * 2) by (apply Z.mod_small; lia).
  assert (Hu2 : u8 (segment * 2 + 1) = segment * 2 + 1) by (apply Z.mod_small; lia).
  unfold ps_step. cbn [fst snd]. rewrite Hu1, Hu2.
  rewrite (add_ps_validated _ _ _ _ H1). cbn [fst snd].
  rewrite (add_ps_validated _ _ _ _ H2). cbn [fst snd].
  split; [reflexivity|].
  intros ->. cbn [andb].
  destruct (memcmp_ne staged name 8) eqn:Hcmp.
  - unfold memcpy. rewrite take_app_le by (rewrite length_take; lia).
    rewrite take_take. rewrite take_ge by lia. reflexivity.
  - apply memcmp_eq in Hcmp; [|lia|lia].
    change (Z.to_nat 8) with 8%nat in Hcmp.
    rewrite <- Hcmp. apply take_ge. lia.
Qed.

(** The four groups of a pass over the name [name], on the three parts. *)
Definition ps_pass (name : list Z) (q : list Z * (list Z * list Z))
    : list Z * (list Z * list Z) :=
  ps_step 3 (at_index 0 name 6) (at_index 0 name 7)
    (ps_step 2 (at_index 0 name 4) (at_index 0 name 5)
       (ps_step 1 (at_index 0 name 2) (at_index 0 name 3)
          (ps_step 0 (at_index 0 name 0) (at_index 0 name 1) q))).

Lemma eight_bytes (l : list Z) :
  length l = 8%nat -> exists x0 x1 x2 x3 x4 x5 x6 x7, l = [x0; x1; x2; x3; x4; x5; x6; x7].
Proof.
  destruct l as [|x0 [|x1 [|x2 [|x3 [|x4 [|x5 [|x6 [|x7 [|]]]]]]]]]; try discriminate.
  eauto 10.
Qed.

Lemma ps_pass_stages name q :
  length name = 8%nat -> ps_lengths q ->
  ps_lengths (ps_pass name q) /\ fst (snd (ps_pass name q)) = name.
Proof.
  intros Hname Hq. unfold ps_pass.
  destruct (ps_step_staged 0 (at_index 0 name 0) (at_index 0 name 1) q ltac:(lia) Hq)
    as [Hq1 Hs1].
  set (q1 := ps_step 0 _ _ q) in *.
  destruct (ps_step_staged 1 (at_index 0 name 2) (at_index 0 name 3) q1 ltac:(lia) Hq1)
    as [Hq2 Hs2].
  set (q2 := ps_step 1 _ _ q1) in *.
  destruct (ps_step_staged 2 (at_index 0 name 4) (at_index 0 name 5) q2 ltac:(lia) Hq2)
    as [Hq3 Hs3].
  set (q3 := ps_step 2 _ _ q2) in *.
  destruct (ps_step_staged 3 (at_index 0 name 6) (at_index 0 name 7) q3 ltac:(lia) Hq3)
    as [Hq4 Hs4].
  split; [exact Hq4|].
  rewrite Hs4, Hs3, Hs2, Hs1.
  destruct Hq as (_ & Hn & _).
  destruct (eight_bytes _ Hn) as (y0 & y1 & y2 & y3 & y4 & y5 & y6 & y7 & ->).
  destruct (eight_bytes _ Hname) as (x0 & x1 & x2 & x3 & x4 & x5 & x6 & x7 & ->).
  reflexivity.
Qed.

Lemma ps_pass_validates name q :
  length name = 8%nat -> ps_lengths q -> fst (snd q) = name ->
  take 8 (fst (ps_pass name q)) = name.
Proof.
  intros Hname Hq Hstaged. unfold ps_pass.
  assert (Hat : forall i, at_index 0 (fst (snd q)) i = at_index 0 name i)
    by (intros i; rewrite Hstaged; reflexivity).
  destruct (ps_step_validated 0 (at_index 0 name 0) (at_index 0 name 1) q
              ltac:(lia) Hq (Hat _) (Hat _)) as (Hq1 & Hs1 & _).
  set (q1 := ps_step 0 _ _ q) in *.
  assert (Hat1 : forall i, at_index 0 (fst (snd q1)) i = at_index 0 name i)
    by (intros i; rewrite Hs1; apply Hat).
  destruct (ps_step_validated 1 (at_index 0 name 2) (at_index 0 name 3) q1
              ltac:(lia) Hq1 (Hat1 _) (Hat1 _)) as (Hq2 & Hs2 & _).
  set (q2 := ps_step 1 _ _ q1) in *.
  assert (Hat2 : forall i, at_index 0 (fst (snd q2)) i = at_index 0 name i)
    by (intros i; rewrite Hs2; apply Hat1).
  destruct (ps_step_validated 2 (at_index 0 name 4) (at_index 0 name 5) q2
              ltac:(lia) Hq2 (Hat2 _) (Hat2 _)) as (Hq3 & Hs3 & _).
  set (q3 := ps_step 2 _ _ q2) in *.
  assert (Hat3 : forall i, at_index 0 (fst (snd q3)) i = at_index 0 name i)
    by (intros i; rewrite Hs3; apply Hat2).
  destruct (ps_step_validated 3 (at_index 0 name 6) (at_index 0 name 7) q3
              ltac:(lia) Hq3 (Hat3 _) (Hat3 _)) as (_ & _ & Hpub).
  rewrite Hpub.
  - rewrite Hs3. cbn [fst snd]. rewrite Hs2. cbn [fst snd]. rewrite Hs1. exact Hstaged.
  - rewrite Hs3. cbn [fst snd]. rewrite Hs2. cbn [fst snd]. rewrite Hs1. cbn [fst snd].
    destruct Hq as (_ & _ & Hv).
    destruct (eight_bytes _ Hv) as (v0 & v1 & v2 & v3 & v4 & v5 & v6 & v7 & ->).
    reflexivity.
Qed.

Lemma run_app s l1 l2 : run s (l1 ++ l2) = run (run s l1) l2.
Proof. unfold run. apply fold_left_app. Qed.

(** The groups of a pass: four groups 0 with the segments 0 to 3 and the
    characters of the name. *)
Definition ps_blocks (segment c1 c2 : Z) (g : list v4l2_rds_data) : Prop :=
  exists a b c d, g = [a; b; c; d] /\ ps_group segment c1 c2 a b c d.

Definition ps_pass_blocks (name : list Z) (g0 g1 g2 g3 : list v4l2_rds_data) : Prop :=
  ps_blocks 0 (at_index 0 name 0) (at_index 0 name 1) g0
  /\ ps_blocks 1 (at_index 0 name 2) (at_index 0 name 3) g1
  /\ ps_blocks 2 (at_index 0 name 4) (at_index 0 name 5) g2
  /\ ps_blocks 3 (at_index 0 name 6) (at_index 0 name 7) g3.

Lemma blocks_ps s segment c1 c2 g :
  reachable s -> decode_state s = RDS_EMPTY -> ps_blocks segment c1 c2 g ->
  ps_part3 (run s g) = ps_step segment c1 c2 (ps_part3 s)
  /\ reachable (run s g) /\ decode_state (run s g) = RDS_EMPTY.
Proof.
  intros Hr He (a & b & c & d & -> & Hg). apply group_ps; assumption.
Qed.

Lemma pass_ps s name g0 g1 g2 g3 :
  reachable s -> decode_state s = RDS_EMPTY -> ps_pass_blocks name g0 g1 g2 g3 ->
  ps_part3 (run s (g0 ++ g1 ++ g2 ++ g3)) = ps_pass name (ps_part3 s)
  /\ reachable (run s (g0 ++ g1 ++ g2 ++ g3))
  /\ decode_state (run s (g0 ++ g1 ++ g2 ++ g3)) = RDS_EMPTY.
Proof.
  intros Hr He (H0 & H1 & H2 & H3).
  rewrite !run_app.
  destruct (blocks_ps _ _ _ _ _ Hr He H0) as (E0 & Hr0 & He0).
  destruct (blocks_ps _ _ _ _ _ Hr0 He0 H1) as (E1 & Hr1 & He1).
  destruct (blocks_ps _ _ _ _ _ Hr1 He1 H2) as (E2 & Hr2 & He2).
  destruct (blocks_ps _ _ _ _ _ Hr2 He2 H3) as (E3 & Hr3 & He3).
  split; [|split; assumption].
  unfold ps_pass. rewrite E3, E2, E1, E0. reflexivity.
Qed.

Lemma reachable_ps_lengths s : reachable s -> ps_lengths (ps_part3 s).
Proof.
  apply (reachable_invariant (fun s => ps_lengths (ps_part3 s))).
  - intros b. repeat split.
  - intros s' [|] _; repeat split.
  - intros d. add_preserves ps_part3 ps_lengths.
    intros s' Hs'.
    pose proof (f_equal fst (rds_decode_group0_ps_effect s')) as Heff.
    cbv zeta in Heff. cbn [fst] in Heff. fold (ps_part3 s') in Heff.
    change (ps_lengths (ps_part3 (snd (rds_decode_group0 s')))).
    change (fst (ps_part4 (snd (rds_decode_group0 s'))))
      with (ps_part3 (snd (rds_decode_group0 s'))) in Heff.
    rewrite Heff. apply ps_step_staged; [|exact Hs'].
    change (data_b_lsb (rds_group s') .& 0x03)
      with (data_b_lsb (rds_group s') .& Z.ones 2).
    rewrite Z.land_ones by lia. change (2 ^ 2) with 4.
    assert (0 <= data_b_lsb (rds_group s') mod 4 < 4)
      by (apply Z.mod_pos_bound; lia).
    unfold u8. change (2 ^ 8) with 256. rewrite Z.mod_small; lia.
Qed.

(** X20.  A programme service name is published on its second reception:
    after two passes of four groups 0 each, with the segments 0 to 3 and the
    eight characters of the same name, the first eight bytes of [ps] are the
    name, whatever was staged or published before. *)
Theorem ps_published_on_second_reception (s : rds_private_state) (name : list Z)
    (g0 g1 g2 g3 g4 g5 g6 g7 : list v4l2_rds_data) :
  reachable s -> decode_state s = RDS_EMPTY -> length name = 8%nat ->
  ps_pass_blocks name g0 g1 g2 g3 -> ps_pass_blocks name g4 g5 g6 g7 ->
  take 8 (ps (handle (run s ((g0 ++ g1 ++ g2 ++ g3) ++ g4 ++ g5 ++ g6 ++ g7)))) = name.
Proof.
  intros Hr He Hname Hp1 Hp2.
  rewrite run_app.
  destruct (pass_ps s name g0 g1 g2 g3 Hr He Hp1) as (E1 & Hr1 & He1).
  destruct (pass_ps _ name g4 g5 g6 g7 Hr1 He1 Hp2) as (E2 & _ & _).
  change (ps (handle (run (run s (g0 ++ g1 ++ g2 ++ g3)) (g4 ++ g5 ++ g6 ++ g7))))
    with (fst (ps_part3 (run (run s (g0 ++ g1 ++ g2 ++ g3)) (g4 ++ g5 ++ g6 ++ g7)))).
  rewrite E2, E1.
  destruct (ps_pass_stages name (ps_part3 s) Hname (reachable_ps_lengths s Hr))
    as [Hl Hs].
  apply ps_pass_validates; assumption.
Qed.

End Further.

(** ** Radio text that a carriage return ends *)





Section RadioText.

#[local] Existing Instance libv4l2rds_h.

Context `{automatic : Stack}.



















(** *** The search for a carriage return *)








End RadioText.

(** ** Instances with the constants of libv4l2rds.h *)

Section Instances.

#[local] Existing Instance libv4l2rds_h.

(** A stack that holds null bytes where the decoder reads it unassigned. *)
Definition null_stack : Stack := {| uninitialised_tmc_msg := fun _ => zero_tmc_msg |}.

#[local] Existing Instance null_stack.

(** *** The claims *)

(** Blocks A, B, D, C: no group. *)
Definition out_of_order : list v4l2_rds_data :=
  [blk 0 0x12 0x34; blk 1 0x00 0x00; blk 3 0x00 0x00; blk 2 0xE2 0x01].

Lemma group_published_only_after_ABCD_witness :
  fresh (v4l2_rds_create false)
  /\ has_group out_of_order = false
  /\ group_cnt (statistics (run (v4l2_rds_create false) out_of_order))
     = group_cnt (statistics (v4l2_rds_create false))
  /\ group_type_cnt (statistics (run (v4l2_rds_create false) out_of_order))
     = group_type_cnt (statistics (v4l2_rds_create false))
  /\ Forall (fun mask => mask = 0) (masks (v4l2_rds_create false) out_of_order)
  /\ beyond_assembler (run (v4l2_rds_create false) out_of_order)
     = beyond_assembler (v4l2_rds_create false).
Proof.
  split; [apply fresh_create|]. split; [reflexivity|].
  apply (group_published_only_after_ABCD (v4l2_rds_create false) out_of_order).
  - apply fresh_create.
  - reflexivity.
Defined.

(** Two 0A groups that carry frequency codes and no announcement. *)
Definition af_unannounced : list v4l2_rds_data :=
  grp 0x12 0x34 0 0 1 2 0 0 ++ grp 0x12 0x34 0 0 250 100 0 0.

Lemma af_set_empty_without_announcement_witness :
  fresh (v4l2_rds_create false)
  /\ has_af_announcement af_unannounced = false
  /\ af_size (rds_af (handle (run (v4l2_rds_create false) af_unannounced))) = 0
  /\ announced_af (rds_af (handle (run (v4l2_rds_create false) af_unannounced))) = 0.
Proof.
  split; [apply fresh_create|]. split; [reflexivity|].
  pose proof (af_set_empty_without_announcement (v4l2_rds_create false)
                af_unannounced (fresh_create false) eq_refl) as Hempty.
  exact (conj (proj1 Hempty) (proj1 (proj2 Hempty))).
Defined.


Lemma af_set_no_duplicates_bounded_growth_witness :
  reachable (run (v4l2_rds_create false) af_shrinking)
  /\ NoDup (take (Z.to_nat (af_size (rds_af (handle (run (v4l2_rds_create false)
                                                       af_shrinking)))))
              (af (rds_af (handle (run (v4l2_rds_create false) af_shrinking)))))
  /\ 0 <= af_size (rds_af (handle (run (v4l2_rds_create false) af_shrinking)))
     <= Z.of_nat MAX_AF_CNT.
Proof.
  assert (Hr : reachable (run (v4l2_rds_create false) af_shrinking))
    by (repeat apply reachable_add; apply reachable_create).
  split; [exact Hr|].
  pose proof (af_set_no_duplicates_bounded_growth
                (run (v4l2_rds_create false) af_shrinking) Hr) as Hok.
  exact (conj (proj1 Hok) (proj1 (proj2 Hok))).
Defined.

(** C7, counterexample.  After [af_shrinking] the set holds three
    frequencies while the announced count is one. *)
Lemma af_size_exceeds_announced_count :
  let afs := rds_af (handle (run (v4l2_rds_create false) af_shrinking)) in
  announced_af afs = 1
  /\ af_size afs = 3
  /\ Z.min (Z.of_nat MAX_AF_CNT) (announced_af afs) = 1
  /\ take 3 (af afs) = [87600000; 87700000; 87800000].
Proof. vm_compute. repeat split. Qed.



(** *** Further properties *)

(** A decoder that received a group 2A and three more blocks. *)
Definition sample_blocks : list v4l2_rds_data :=
  grp 0x12 0x34 0x24 0x00 0x41 0x42 0x43 0x44
  ++ [blk 0 0x12 0x34; blk 1 0x05 0x40; blk 0x82 0x00 0x00].

Definition sample_state : rds_private_state := run (v4l2_rds_create false) sample_blocks.

Lemma sample_state_reachable : reachable sample_state.
Proof.
  unfold sample_state, sample_blocks. apply reachable_run, reachable_create.
Defined.

Lemma country_str_unknown_or_null_witness :
  let h := set_pi 0x0234 (set_ecc 0xE0 zero_handle) in
  0 <= ecc h < 256 /\ 0 <= pi h < 65536
  /\ 0xE0 <= ecc h <= 0xE4 /\ pi h < 0x1000
  /\ v4l2_rds_get_country_str h = None.
Proof.
  cbv zeta.
  assert (He : 0 <= ecc (set_pi 0x0234 (set_ecc 0xE0 zero_handle)) < 256) by (cbn; lia).
  assert (Hp : 0 <= pi (set_pi 0x0234 (set_ecc 0xE0 zero_handle)) < 65536) by (cbn; lia).
  assert (Hin : 0xE0 <= ecc (set_pi 0x0234 (set_ecc 0xE0 zero_handle)) <= 0xE4)
    by (cbn; lia).
  assert (Hcc : pi (set_pi 0x0234 (set_ecc 0xE0 zero_handle)) < 0x1000) by (cbn; lia).
  split; [exact He|]. split; [exact Hp|]. split; [exact Hin|]. split; [exact Hcc|].
  exact (proj2 (country_str_unknown_or_null _ He Hp) Hin Hcc).
Defined.

Lemma set_bit_bits_witness :
  0 <= 1 < 8
  /\ 0 <= set_bit 5 2 true < 256
  /\ Z.testbit (set_bit 5 2 true) 1 = (if Z.testbit 2 1 then true else Z.testbit 5 1).
Proof.
  assert (Hn : 0 <= 1 < 8) by lia.
  split; [exact Hn|]. exact (set_bit_bits 5 2 true 1 Hn).
Defined.

Lemma rds_decode_mjd_gregorian_witness :
  let s := set_new_mjd 60000 zero_state in
  15079 <= new_mjd s <= 88127
  /\ (tm_year (rds_decode_mjd s), tm_mon (rds_decode_mjd s), tm_mday (rds_decode_mjd s))
     = days_after (Z.to_nat (new_mjd s - 15079)) (0, 3, 1).
Proof.
  cbv zeta.
  assert (Hr : 15079 <= new_mjd (set_new_mjd 60000 zero_state) <= 88127) by (cbn; lia).
  split; [exact Hr|]. exact (rds_decode_mjd_gregorian _ Hr).
Defined.

(** A multi-group TMC message of three 8A groups with continuity index 1,
    each group sent twice: the first group, a second one with the sequence
    id 1 and a last one with the sequence id 0. *)
Definition sample_tmc_first : list v4l2_rds_data :=
  grp 0x12 0x34 0x80 0x01 0x80 0x10 0x20 0x30.
Definition sample_tmc_second : list v4l2_rds_data :=
  grp 0x12 0x34 0x80 0x01 0x59 0x00 0xAA 0x06.
Definition sample_tmc_third : list v4l2_rds_data :=
  grp 0x12 0x34 0x80 0x01 0x05 0x12 0x34 0x56.

(** The decoder after the two optional blocks of the message. *)
Definition sample_tmc_state : rds_private_state :=
  run (v4l2_rds_create false)
    (sample_tmc_first ++ sample_tmc_first ++ sample_tmc_second ++ sample_tmc_second
     ++ sample_tmc_third ++ sample_tmc_third).

Lemma rds_tmc_decode_additional_size_witness :
  0 <= msg_length (tmc_msg (tmc (handle sample_tmc_state))) <= 4
  /\ msg_length (tmc_msg (tmc (handle sample_tmc_state))) = 2
  /\ msg_length (tmc_msg (tmc (handle (snd (rds_tmc_decode_additional sample_tmc_state)))))
     = msg_length (tmc_msg (tmc (handle sample_tmc_state)))
  /\ 0 <= add_size (additional (tmc_msg (tmc (handle
            (snd (rds_tmc_decode_additional sample_tmc_state))))))
     <= msg_length (tmc_msg (tmc (handle sample_tmc_state))).
Proof.
  assert (Hl : 0 <= msg_length (tmc_msg (tmc (handle sample_tmc_state))) <= 4)
    by (vm_compute; split; discriminate).
  split; [exact Hl|]. split; [reflexivity|].
  exact (rds_tmc_decode_additional_size sample_tmc_state Hl).
Defined.

Lemma idle_call_decodes_nothing_witness :
  completes sample_state (blk 3 0x48 0x69) = false
  /\ fst (v4l2_rds_add (blk 3 0x48 0x69) sample_state) = 0
  /\ beyond_assembler (snd (v4l2_rds_add (blk 3 0x48 0x69) sample_state))
     = beyond_assembler sample_state
  /\ v4l2_rds_get_group (snd (v4l2_rds_add (blk 3 0x48 0x69) sample_state))
     = v4l2_rds_get_group sample_state.
Proof.
  assert (Hc : completes sample_state (blk 3 0x48 0x69) = false) by reflexivity.
  split; [exact Hc|]. exact (idle_call_decodes_nothing _ _ Hc).
Defined.

Lemma group_decoded_after_ABCD_witness :
  reachable sample_state /\ decode_state sample_state = RDS_EMPTY
  /\ is_group (blk 0 0x12 0x34) (blk 1 0x05 0x40) (blk 4 0xE2 0x01) (blk 3 0x20 0x20)
     = true
  /\ v4l2_rds_get_group
       (run sample_state
          [blk 0 0x12 0x34; blk 1 0x05 0x40; blk 4 0xE2 0x01; blk 3 0x20 0x20])
     = assembled (blk 0 0x12 0x34) (blk 1 0x05 0x40) (blk 4 0xE2 0x01) (blk 3 0x20 0x20).
Proof.
  assert (He : decode_state sample_state = RDS_EMPTY) by reflexivity.
  assert (Hg : is_group (blk 0 0x12 0x34) (blk 1 0x05 0x40) (blk 4 0xE2 0x01)
                 (blk 3 0x20 0x20) = true) by reflexivity.
  split; [exact sample_state_reachable|]. split; [exact He|]. split; [exact Hg|].
  exact (proj2 (proj2 (proj2
           (group_decoded_after_ABCD _ _ _ _ _ sample_state_reachable He Hg)))).
Defined.

Lemma errored_block_resets_assembler_witness :
  truthy (block (blk 0x81 0x05 0x40) .& V4L2_RDS_BLOCK_ERROR) = true
  /\ decode_state (snd (v4l2_rds_add (blk 0x81 0x05 0x40)
                          (run (v4l2_rds_create false) [blk 0 0x12 0x34])))
     = RDS_EMPTY.
Proof.
  assert (He : truthy (block (blk 0x81 0x05 0x40) .& V4L2_RDS_BLOCK_ERROR) = true)
    by reflexivity.
  split; [exact He|].
  exact (proj1 (errored_block_resets_assembler (blk 0x81 0x05 0x40)
                  (run (v4l2_rds_create false) [blk 0 0x12 0x34]) He)).
Defined.

Lemma statistics_account_for_blocks_witness :
  Z.of_nat (length sample_blocks) < 2 ^ 32
  /\ block_cnt (statistics sample_state) = Z.of_nat (length sample_blocks)
  /\ 4 * group_cnt (statistics sample_state) + pending (decode_state sample_state)
     + group_error_cnt (statistics sample_state) <= block_cnt (statistics sample_state).
Proof.
  assert (Hl : Z.of_nat (length sample_blocks) < 2 ^ 32) by (vm_compute; reflexivity).
  split; [exact Hl|].
  pose proof (statistics_account_for_blocks false sample_blocks Hl) as Hacc.
  exact (conj (proj1 Hacc) (proj1 (proj2 Hacc))).
Defined.

Lemma group_type_counters_add_up_witness :
  Z.of_nat (length sample_blocks) < 2 ^ 32 /\ Forall byte_block sample_blocks
  /\ length (group_type_cnt (statistics sample_state)) = 16%nat
  /\ sum (group_type_cnt (statistics sample_state)) = group_cnt (statistics sample_state).
Proof.
  assert (Hl : Z.of_nat (length sample_blocks) < 2 ^ 32) by (vm_compute; reflexivity).
  assert (Hb : Forall byte_block sample_blocks).
  { unfold sample_blocks, grp, blk, byte_block. repeat constructor; cbn; lia. }
  split; [exact Hl|]. split; [exact Hb|].
  exact (group_type_counters_add_up false sample_blocks Hl Hb).
Defined.

Lemma tp_never_set_witness :
  reachable sample_state /\ tp (handle sample_state) = false.
Proof.
  split; [exact sample_state_reachable | exact (tp_never_set _ sample_state_reachable)].
Defined.

(** Two 3A groups: the first announces the application 0xCD46 for the groups
    5A, the second the application 0x4BD7 for the groups 6A. *)
Definition sample_oda_state : rds_private_state :=
  run (v4l2_rds_create false)
    (grp 0x12 0x34 0x30 0x0A 0 0 0xCD 0x46 ++ grp 0x12 0x34 0x30 0x0C 0 0 0x4B 0xD7).

Lemma oda_set_at_most_one_witness :
  reachable sample_oda_state
  /\ oda_size (rds_oda (handle sample_oda_state)) = 1
  /\ 0 <= oda_size (rds_oda (handle sample_oda_state)) <= 1.
Proof.
  assert (Hr : reachable sample_oda_state)
    by (unfold sample_oda_state; apply reachable_run, reachable_create).
  split; [exact Hr|]. split; [reflexivity|].
  exact (oda_set_at_most_one _ Hr).
Defined.

Lemma pty_accepted_on_second_reception_witness :
  reachable (v4l2_rds_create false)
  /\ decode_state (v4l2_rds_create false) = RDS_EMPTY
  /\ is_group (blk 0 0x12 0x34) (blk 1 0x01 0x40) (blk 2 0 0) (blk 3 0 0) = true
  /\ pty (handle (run (run (v4l2_rds_create false)
                         [blk 0 0x12 0x34; blk 1 0x01 0x40; blk 2 0 0; blk 3 0 0])
                    [blk 0 0x12 0x34; blk 1 0x01 0x40; blk 2 0 0; blk 3 0 0]))
     = (if pty_code (blk 1 0x01 0x40) =? pty_code (blk 1 0x01 0x40)
        then pty_code (blk 1 0x01 0x40)
        else pty (handle (run (v4l2_rds_create false)
                            [blk 0 0x12 0x34; blk 1 0x01 0x40; blk 2 0 0; blk 3 0 0]))).
Proof.
  assert (Hg : is_group (blk 0 0x12 0x34) (blk 1 0x01 0x40) (blk 2 0 0) (blk 3 0 0) = true)
    by reflexivity.
  split; [apply reachable_create|]. split; [reflexivity|]. split; [exact Hg|].
  exact (pty_accepted_on_second_reception _ _ _ _ _ _ _ _ _
           (reachable_create false) eq_refl Hg Hg).
Defined.


(** The decoder in the reception of the message, after its first optional
    block: one more is to follow. *)
Definition sample_tmc_pending : rds_private_state :=
  run (v4l2_rds_create false)
    (sample_tmc_first ++ sample_tmc_first ++ sample_tmc_second ++ sample_tmc_second).

Lemma tmc_buffer_never_overflows_witness :
  reachable sample_tmc_pending
  /\ msg_length (new_tmc_msg sample_tmc_pending) = 1
  /\ grp_seq_id sample_tmc_pending = 1
  /\ length (optional_tmc sample_tmc_pending) = 4%nat
  /\ msg_length (new_tmc_msg sample_tmc_pending) + grp_seq_id sample_tmc_pending <= 4.
Proof.
  assert (Hr : reachable sample_tmc_pending)
    by (unfold sample_tmc_pending; apply reachable_run, reachable_create).
  split; [exact Hr|]. split; [reflexivity|]. split; [reflexivity|].
  pose proof (tmc_buffer_never_overflows _ Hr) as Hb.
  exact (conj (proj1 Hb) (proj2 (proj2 (proj2 Hb)))).
Defined.

(** The name RADIO 12, sent in the four segments of groups 0A. *)
Definition sample_name : list Z := [0x52; 0x41; 0x44; 0x49; 0x4F; 0x20; 0x31; 0x32].

Definition sample_ps_group (segment c1 c2 : Z) : list v4l2_rds_data :=
  grp 0x12 0x34 0x00 segment 0xE0 0xCD c1 c2.

Lemma sample_ps_pass :
  ps_pass_blocks sample_name
    (sample_ps_group 0 0x52 0x41) (sample_ps_group 1 0x44 0x49)
    (sample_ps_group 2 0x4F 0x20) (sample_ps_group 3 0x31 0x32).
Proof.
  unfold ps_pass_blocks, ps_blocks, sample_ps_group, grp.
  repeat split; do 4 eexists; (split; [reflexivity|]); repeat split.
Defined.

Lemma ps_published_on_second_reception_witness :
  reachable (v4l2_rds_create false)
  /\ decode_state (v4l2_rds_create false) = RDS_EMPTY
  /\ length sample_name = 8%nat
  /\ take 8 (ps (handle (run (v4l2_rds_create false)
       ((sample_ps_group 0 0x52 0x41 ++ sample_ps_group 1 0x44 0x49
         ++ sample_ps_group 2 0x4F 0x20 ++ sample_ps_group 3 0x31 0x32)
        ++ sample_ps_group 0 0x52 0x41 ++ sample_ps_group 1 0x44 0x49
        ++ sample_ps_group 2 0x4F 0x20 ++ sample_ps_group 3 0x31 0x32))))
     = sample_name.
Proof.
  split; [apply reachable_create|]. split; [reflexivity|]. split; [reflexivity|].
  exact (ps_published_on_second_reception _ sample_name _ _ _ _ _ _ _ _
           (reachable_create false) eq_refl eq_refl sample_ps_pass sample_ps_pass).
Defined.

End Instances.
